(** * SaturnRingLib, VDP2 video memory: a model of [srl_vdp2.hpp]

    The development follows the header top down: the constants the header
    takes from SGL, the four VRAM banks and their bump allocator
    ([VDP2::VRAM]), the automatic placement of cell and map data, the
    scroll screens ([VDP2::ScrollScreen]) with the tilemap loader, and
    [VDP2::ClearVRAM].  Integers are [Z]; every conversion to a C++
    integer type is written out ([uint32_t], [uint16_t], [uint8_t],
    [int8_t], [int32_t]).  Pointers are their 32-bit addresses, [nullptr] is 0.  The
    arguments of a function stand for values of its parameter types; a
    statement that depends on their range says so. *)

From Stdlib Require Import ZArith List Bool String Lia.
Import ListNotations.
Local Open Scope Z_scope.

(** ** C++ integer conversions *)

Definition uint32_t (x : Z) : Z := x mod 2 ^ 32.
Definition uint16_t (x : Z) : Z := x mod 2 ^ 16.
Definition uint8_t (x : Z) : Z := x mod 2 ^ 8.
Definition int8_t (x : Z) : Z := (x + 2 ^ 7) mod 2 ^ 8 - 2 ^ 7.

(** [int] of the SH-2: 32 bits, two's complement.  A product or a shift
    whose mathematical value leaves the range is taken with its
    wrap-around. *)
Definition int32_t (x : Z) : Z := (x + 2 ^ 31) mod 2 ^ 32 - 2 ^ 31.

Definition nullptr : Z := 0.

(** ** Enumerations of the header *)

(** [enum class VramBank : uint16_t { A0 = 0, A1 = 1, B0 = 2, B1 = 3 }] *)
Inductive VramBank : Set := A0 | A1 | B0 | B1.

(** The five classes derived from [ScrollScreen<ScreenType, Id, On>]. *)
Inductive Screen : Set := NBG0 | NBG1 | NBG2 | NBG3 | RBG0.

(** [CRAM::TextureColorMode].  The header names three enumerators; the
    enumeration itself is declared in [srl_cram.hpp], so every other
    enumerator is kept as [OtherColorMode]. *)
Inductive TextureColorMode : Set :=
  Paletted16 | Paletted256 | RGB555 | OtherColorMode.

Definition Screen_eqb (a b : Screen) : bool :=
  match a, b with
  | NBG0, NBG0 | NBG1, NBG1 | NBG2, NBG2 | NBG3, NBG3 | RBG0, RBG0 => true
  | _, _ => false
  end.

(** ** Constants defined outside the two headers

    [srl_vdp2.hpp] uses these macros of SGL's [sl_def.h] without defining
    them, and the id a default-constructed [CRAM::Palette] answers
    ([srl_cram.hpp]); the model takes them as a parameter.  [saturn]
    below gives the values of the console and serves to run the model. *)
Record ExternDefs : Set := {
  VDP2_VRAM_A0 : Z;
  VDP2_VRAM_A1 : Z;
  VDP2_VRAM_B0 : Z;
  VDP2_VRAM_B1 : Z;
  CHAR_SIZE_1x1 : Z;
  PNB_2WORD : Z;
  PL_SIZE_2x1 : Z;
  PL_SIZE_2x2 : Z;
  NBG0ON : Z;
  NBG1ON : Z;
  NBG2ON : Z;
  NBG3ON : Z;
  RBG0ON : Z;
  SPRON : Z;
  Palette_noId : Z
}.

Definition saturn : ExternDefs := {|
  VDP2_VRAM_A0 := 0x25e00000;
  VDP2_VRAM_A1 := 0x25e20000;
  VDP2_VRAM_B0 := 0x25e40000;
  VDP2_VRAM_B1 := 0x25e60000;
  CHAR_SIZE_1x1 := 0;
  PNB_2WORD := 0;
  PL_SIZE_2x1 := 1;
  PL_SIZE_2x2 := 3;
  NBG0ON := 1;
  NBG1ON := 2;
  NBG2ON := 4;
  NBG3ON := 8;
  RBG0ON := 16;
  SPRON := 64;
  Palette_noId := 0
|}.

(** ** Arrays indexed by a bank: [T name[4]] *)

Record BankArray : Set := mkBanks { at_A0 : Z; at_A1 : Z; at_B0 : Z; at_B1 : Z }.

Definition bank_get (a : BankArray) (b : VramBank) : Z :=
  match b with
  | A0 => at_A0 a
  | A1 => at_A1 a
  | B0 => at_B0 a
  | B1 => at_B1 a
  end.

Definition bank_set (a : BankArray) (b : VramBank) (v : Z) : BankArray :=
  match b with
  | A0 => mkBanks v (at_A1 a) (at_B0 a) (at_B1 a)
  | A1 => mkBanks (at_A0 a) v (at_B0 a) (at_B1 a)
  | B0 => mkBanks (at_A0 a) (at_A1 a) v (at_B1 a)
  | B1 => mkBanks (at_A0 a) (at_A1 a) (at_B0 a) v
  end.

Declare Scope vdp2_scope.
Delimit Scope vdp2_scope with vdp2.
Notation "a .[ b ]" := (bank_get a b) (at level 1, format "a .[ b ]") : vdp2_scope.
Local Open Scope vdp2_scope.

(** ** [class VDP2::VRAM]: the static members *)

(** [bankBot], [bankTop]: never written after their initialisation. *)
Definition bankBot (ext : ExternDefs) : BankArray :=
  mkBanks (VDP2_VRAM_A0 ext) (VDP2_VRAM_A1 ext) (VDP2_VRAM_B0 ext) (VDP2_VRAM_B1 ext).

Definition bankTop (ext : ExternDefs) : BankArray :=
  mkBanks (VDP2_VRAM_A1 ext) (VDP2_VRAM_B0 ext) (VDP2_VRAM_B1 ext)
          (uint32_t (VDP2_VRAM_B1 ext + 0x18000)).

Record VRAM : Set := mkVRAM {
  currentBot : BankArray;
  currentTop : BankArray;
  bankCycles : BankArray
}.

(** The values the static initialisers give at program start:
    [bankCycles[4] = { -1,-1,-1,2 }]. *)
Definition VRAM_initial (ext : ExternDefs) : VRAM :=
  mkVRAM (bankBot ext) (bankTop ext) (mkBanks (-1) (-1) (-1) 2).

(** [GetAvailable]: [(int)currentTop[bank] - (int)currentBot[bank]],
    returned as [uint32_t]. *)
Definition GetAvailable (v : VRAM) (bank : VramBank) : Z :=
  uint32_t ((currentTop v).[bank] - (currentBot v).[bank]).

(** [Allocate(size, boundary, bank, cycles)]: the returned address and
    the members after the call. *)
Definition Allocate (size boundary : Z) (bank : VramBank) (cycles : Z)
    (v : VRAM) : Z * VRAM :=
  let myAddress := nullptr in
  let addrOffset := 0 in
  let addrOffset :=
    if negb (Z.land (uint32_t (currentBot v).[bank]) (uint32_t (boundary - 1)) =? 0)
    then uint32_t (boundary
                   - Z.land (uint32_t (currentBot v).[bank]) (uint32_t (boundary - 1)))
    else addrOffset in
  if GetAvailable v bank >=? uint32_t (size + addrOffset) then
    if (bankCycles v).[bank] + cycles <? 8 then
      let myAddress := uint32_t ((currentBot v).[bank] + addrOffset) in
      let v1 :=
        mkVRAM (bank_set (currentBot v) bank
                  (uint32_t ((currentBot v).[bank] + uint32_t (size + addrOffset))))
               (currentTop v) (bankCycles v) in
      let v2 :=
        mkVRAM (currentBot v1) (currentTop v1)
               (bank_set (bankCycles v1) bank (int8_t ((bankCycles v1).[bank] + cycles))) in
      (myAddress, v2)
    else (myAddress, v)
  else (myAddress, v).


(** ** Data of the tilemap interface ([srl_tilemap_interfaces.hpp]) *)

(** [Tilemap::TilemapInfo]: the fields the header reads. *)
Record TilemapInfo : Set := mkInfo {
  ColorMode : TextureColorMode;
  CharSize : Z;
  PlaneSize : Z;
  MapMode : Z;
  MapHeight : Z;
  MapWidth : Z;
  CellByteSize : Z
}.

(** [Tilemap::ITilemap]: the geometry and the three buffers.  [GetMapData]
    lists the map entries as the transfer reads them: 16-bit words for a
    one-word map, 32-bit words for a two-word map. *)
Record ITilemap : Set := mkTilemap {
  GetInfo : TilemapInfo;
  GetCellData : list Z;
  GetMapData : list Z;
  GetPalData : list Z
}.

(** Modelled from the spec: [CRAM::Palette] of [srl_cram.hpp], the "slot
    object exposing [Load(colors, count)], [GetId()], [GetData()]".  A
    default-constructed palette has no data ([GetData()] is [nullptr]);
    a palette made for a slot has data and carries the slot's id. *)
Inductive Palette : Set :=
| Palette_default
| Palette_of (mode : TextureColorMode) (id : Z).

Definition Palette_has_data (p : Palette) : bool :=
  match p with Palette_default => false | Palette_of _ _ => true end.

Definition Palette_GetId (ext : ExternDefs) (p : Palette) : Z :=
  match p with Palette_default => Palette_noId ext | Palette_of _ id => id end.

(** ** What leaves the class: calls into SGL, CRAM and Debug, and stores
    to video memory, in the order they happen *)
Inductive Event : Set :=
| Debug_Assert (message : string)
| CRAM_SetBankUsedState (id : Z) (mode : TextureColorMode) (used : bool)
| Palette_Load (p : Palette) (colors : list Z) (len : Z)
| slColRate (scr : Screen) (rate : Z)
| slColorCalcOn (mask : Z)
| slChar (scr : Screen) (mode : TextureColorMode) (charSize : Z)
| slPage (scr : Screen) (cell : Z) (pal : Palette) (mapMode : Z)
| slPlane (scr : Screen) (planeSize : Z)
| slMapNbg (scr : Screen) (a b c d : Z)
| sl1MapRA (a : Z)
| slRparaMode_RA
| slOverRA (mode : Z)
| slPopMatrix
| Store8 (address value : Z)
| Store16 (address value : Z)
| Store32 (address value : Z).

(** ** Static members of a scroll screen class *)
Record ScreenState : Set := mkScreen {
  MapAddress : Z;
  CellAddress : Z;
  TilePalette : Palette;
  Info : TilemapInfo;
  CellAllocSize : Z;
  MapAllocSize : Z
}.

Record ScreenArray : Set := mkScreens {
  at_NBG0 : ScreenState;
  at_NBG1 : ScreenState;
  at_NBG2 : ScreenState;
  at_NBG3 : ScreenState;
  at_RBG0 : ScreenState
}.

Definition screen_get (a : ScreenArray) (s : Screen) : ScreenState :=
  match s with
  | NBG0 => at_NBG0 a
  | NBG1 => at_NBG1 a
  | NBG2 => at_NBG2 a
  | NBG3 => at_NBG3 a
  | RBG0 => at_RBG0 a
  end.

Definition screen_set (a : ScreenArray) (s : Screen) (v : ScreenState) : ScreenArray :=
  match s with
  | NBG0 => mkScreens v (at_NBG1 a) (at_NBG2 a) (at_NBG3 a) (at_RBG0 a)
  | NBG1 => mkScreens (at_NBG0 a) v (at_NBG2 a) (at_NBG3 a) (at_RBG0 a)
  | NBG2 => mkScreens (at_NBG0 a) (at_NBG1 a) v (at_NBG3 a) (at_RBG0 a)
  | NBG3 => mkScreens (at_NBG0 a) (at_NBG1 a) (at_NBG2 a) v (at_RBG0 a)
  | RBG0 => mkScreens (at_NBG0 a) (at_NBG1 a) (at_NBG2 a) (at_NBG3 a) v
  end.

(** ** The whole state

    [cram_free] is modelled from the spec: the palette collaborator's
    [GetFreeSlot(format) -> slot id or failure] is outside the sources,
    so the answers [CRAM::GetFreeBank] will give, one per call, are an
    input of the model (a negative answer, or none left, is a failure). *)
Record State : Set := mkState {
  vram : VRAM;
  screens : ScreenArray;
  NBG0_LineAddress : Z;
  NBG1_LineAddress : Z;
  RBG0_KtableAddress : Z;
  ColorCalcScrolls : Z;
  VDP2_RAMCTL : Z;
  cram_free : list Z;
  trace : list Event
}.

Definition set_vram (v : VRAM) (st : State) : State :=
  mkState v (screens st) (NBG0_LineAddress st) (NBG1_LineAddress st)
          (RBG0_KtableAddress st) (ColorCalcScrolls st) (VDP2_RAMCTL st)
          (cram_free st) (trace st).

Definition set_screens (a : ScreenArray) (st : State) : State :=
  mkState (vram st) a (NBG0_LineAddress st) (NBG1_LineAddress st)
          (RBG0_KtableAddress st) (ColorCalcScrolls st) (VDP2_RAMCTL st)
          (cram_free st) (trace st).

Definition set_ColorCalcScrolls (m : Z) (st : State) : State :=
  mkState (vram st) (screens st) (NBG0_LineAddress st) (NBG1_LineAddress st)
          (RBG0_KtableAddress st) m (VDP2_RAMCTL st) (cram_free st) (trace st).

Definition set_cram_free (l : list Z) (st : State) : State :=
  mkState (vram st) (screens st) (NBG0_LineAddress st) (NBG1_LineAddress st)
          (RBG0_KtableAddress st) (ColorCalcScrolls st) (VDP2_RAMCTL st)
          l (trace st).

Definition set_trace (t : list Event) (st : State) : State :=
  mkState (vram st) (screens st) (NBG0_LineAddress st) (NBG1_LineAddress st)
          (RBG0_KtableAddress st) (ColorCalcScrolls st) (VDP2_RAMCTL st)
          (cram_free st) t.

Definition the_screen (scr : Screen) (st : State) : ScreenState :=
  screen_get (screens st) scr.

Definition set_screen (scr : Screen) (s : ScreenState) (st : State) : State :=
  set_screens (screen_set (screens st) scr s) st.

(** ** Statements: state passing with a result *)

Definition M (A : Type) : Type := State -> A * State.

Definition ret {A : Type} (a : A) : M A := fun st => (a, st).

Definition bind {A B : Type} (c : M A) (k : A -> M B) : M B :=
  fun st => let (a, st') := c st in k a st'.

Notation "x <- c ;; k" := (bind c (fun x => k))
  (at level 61, c at next level, right associativity) : vdp2_scope.
Notation "c ;; k" := (bind c (fun _ => k))
  (at level 61, right associativity) : vdp2_scope.

Definition get : M State := fun st => (st, st).
Definition modify (f : State -> State) : M unit := fun st => (tt, f st).
Definition emit (e : Event) : M unit := modify (fun st => set_trace (trace st ++ [e]) st).

(** A call of a [VRAM] member. *)
Definition in_vram {A : Type} (f : VRAM -> A * VRAM) : M A :=
  fun st => let (a, v) := f (vram st) in (a, set_vram v st).

(** [SRL::Debug::Assert(message)], a macro of [srl_debug.hpp] for a call
    of [Debug::AssertScreen].  The trace records the call and nothing of
    what the call does, which depends on the build: without [DEBUG] the
    body of [AssertScreen] is empty; with [DEBUG] it clears the text
    screen, sets the back colour with [slBack1ColSet] at
    [VDP2_VRAM_A1 + 0x1fffe], prints the message through [ASCII::Print],
    runs the animation of [AssertScreen_animation] with its calls of
    [slSynch], and returns.  An event [Debug_Assert] therefore stands for
    all of that, stores and SGL calls included; in either build the call
    returns and touches no member of [VDP2]. *)
Definition Assert (message : string) : M unit := emit (Debug_Assert message).

(** [for (i = 0; i < n; i++) body(i)] *)
Fixpoint for_loop (n : nat) (body : nat -> M unit) : M unit :=
  match n with
  | O => ret tt
  | S n' => for_loop n' body ;; body n'
  end.

(** ** [VDP2::VRAM]: automatic placement *)

(** [AutoAllocateCell(info, screen)] *)
Definition AutoAllocateCell (info : TilemapInfo) (screen : Screen) : M Z :=
  match screen with
  | RBG0 =>
      alloc <- in_vram (Allocate (CellByteSize info) 32 A0 8) ;;
      alloc <- (if alloc =? nullptr
                then in_vram (Allocate (CellByteSize info) 32 A1 8) else ret alloc) ;;
      alloc <- (if alloc =? nullptr
                then in_vram (Allocate (CellByteSize info) 32 B0 8) else ret alloc) ;;
      alloc <- (if alloc =? nullptr
                then in_vram (Allocate (CellByteSize info) 32 B1 8) else ret alloc) ;;
      (if alloc =? nullptr
       then Assert "RBG Cell Allocation failed: insufficient VRAM" else ret tt) ;;
      ret alloc
  | _ =>
      let reqCycles := 0 in
      let reqCycles :=
        match ColorMode info with
        | Paletted16 => 1
        | Paletted256 => 2
        | RGB555 => 4
        | OtherColorMode => reqCycles
        end in
      alloc <- in_vram (Allocate (CellByteSize info) 32 B0 reqCycles) ;;
      alloc <- (if alloc =? nullptr
                then in_vram (Allocate (CellByteSize info) 32 A1 reqCycles) else ret alloc) ;;
      alloc <- (if alloc =? nullptr
                then in_vram (Allocate (CellByteSize info) 32 A0 reqCycles) else ret alloc) ;;
      alloc <- (if alloc =? nullptr
                then in_vram (Allocate (CellByteSize info) 32 B1 reqCycles) else ret alloc) ;;
      (if alloc =? nullptr
       then Assert "NBG Cell Allocation failed: insufficient VRAM" else ret tt) ;;
      ret alloc
  end.

(** The last statement of [AutoAllocateMap]: [if (screen == scnRBG0) ...
    else ...], for the values [sz] and [page_sz] have at that point.  The
    optional out-parameter [size] is left at its default [nullptr], as in
    the header's only call. *)
Definition AutoAllocateMap_banks (sz page_sz : Z) (screen : Screen) : M Z :=
  let alloc := nullptr in
  match screen with
  | RBG0 =>
      alloc <- in_vram (Allocate sz page_sz A0 8) ;;
      (if alloc =? nullptr
       then Assert "RBG Map Allocation failed: insufficient VRAM" else ret tt) ;;
      ret alloc
  | _ =>
      st <- get ;;
      alloc <- (if negb ((bankCycles (vram st)).[A0] =? 7)
                then in_vram (Allocate sz page_sz A0 1) else ret alloc) ;;
      alloc <- (if alloc =? nullptr
                then in_vram (Allocate sz page_sz B1 1) else ret alloc) ;;
      (if alloc =? nullptr
       then Assert "NBG Map Allocation failed: insufficient VRAM" else ret tt) ;;
      ret alloc
  end.

(** [AutoAllocateMap(info, screen)] *)
Definition AutoAllocateMap (ext : ExternDefs) (info : TilemapInfo) (screen : Screen) : M Z :=
  let page_sz := 0x800 in
  let sz := uint32_t (Z.shiftl (MapHeight info * MapWidth info) 1) in
  let page_sz :=
    if CharSize info =? CHAR_SIZE_1x1 ext then uint32_t (Z.shiftl page_sz 2) else page_sz in
  let sz :=
    if MapMode info =? PNB_2WORD ext then uint32_t (Z.shiftl sz 1) else sz in
  let page_sz :=
    if MapMode info =? PNB_2WORD ext then uint32_t (Z.shiftl page_sz 1) else page_sz in
  let page_sz :=
    if PlaneSize info =? PL_SIZE_2x2 ext then uint32_t (Z.shiftl page_sz 2)
    else if PlaneSize info =? PL_SIZE_2x1 ext then uint32_t (Z.shiftl page_sz 1)
    else page_sz in
  AutoAllocateMap_banks sz page_sz screen.

(** ** [VDP2::ScrollScreen<ScreenType, Id, On>] *)

(** The template argument [On]. *)
Definition ScreenON (ext : ExternDefs) (scr : Screen) : Z :=
  match scr with
  | NBG0 => NBG0ON ext
  | NBG1 => NBG1ON ext
  | NBG2 => NBG2ON ext
  | NBG3 => NBG3ON ext
  | RBG0 => RBG0ON ext
  end.

(** The pointer [VDP2_VRAM_A0 - 1]: the initial value of every address
    member, and the one [ClearVRAM] writes back. *)
Definition unallocated (ext : ExternDefs) : Z := uint32_t (VDP2_VRAM_A0 ext - 1).

(** [ScreenType::SetPlanes(a, b, c, d)]: [slMapNbg0] .. [slMapNbg3] for
    the normal screens, [sl1MapRA(a)] for [RBG0]. *)
Definition SetPlanes (scr : Screen) (a b c d : Z) : M unit :=
  match scr with
  | RBG0 => emit (sl1MapRA a)
  | _ => emit (slMapNbg scr a b c d)
  end.

(** [ScreenType::Init(info)] *)
Definition Init (scr : Screen) (info : TilemapInfo) : M unit :=
  st <- get ;;
  let s := the_screen scr st in
  match scr with
  | RBG0 =>
      emit slRparaMode_RA ;;
      emit (slOverRA 0) ;;
      emit (slChar scr (ColorMode info) (CharSize info)) ;;
      emit (slPage scr (CellAddress s) (TilePalette s) (MapMode info)) ;;
      emit (slPlane scr (PlaneSize info)) ;;
      emit (sl1MapRA (MapAddress s)) ;;
      emit slPopMatrix
  | _ =>
      emit (slChar scr (ColorMode info) (CharSize info)) ;;
      emit (slPage scr (CellAddress s) (TilePalette s) (MapMode info)) ;;
      emit (slPlane scr (PlaneSize info)) ;;
      emit (slMapNbg scr (MapAddress s) (MapAddress s) (MapAddress s) (MapAddress s))
  end.

(** [GetPageAddress(index)] has no definition here.  Its last statement
    (line 505) returns [MapAddress + offset] with the offset cast to a
    pointer to void: the sum of two pointers, which C++ does not define,
    so that the member cannot be instantiated and no call of it has a
    value.  [GetPlaneAddress] below converts [MapAddress] to [uint32_t]
    before it adds. *)

(** [GetPlaneAddress(index)] *)
Definition GetPlaneAddress (ext : ExternDefs) (scr : Screen) (index : Z) (st : State) : Z :=
  let s := the_screen scr st in
  if uint32_t (MapAddress s) <? VDP2_VRAM_A0 ext then nullptr
  else
    let offset := uint32_t (2048 * uint32_t (uint8_t index)) in
    let offset :=
      if CharSize (Info s) =? CHAR_SIZE_1x1 ext then uint32_t (Z.shiftl offset 2) else offset in
    let offset :=
      if MapMode (Info s) =? PNB_2WORD ext then uint32_t (Z.shiftl offset 1) else offset in
    let offset :=
      if PlaneSize (Info s) =? PL_SIZE_2x2 ext then uint32_t (Z.shiftl offset 2)
      else if PlaneSize (Info s) =? PL_SIZE_2x1 ext then uint32_t (Z.shiftl offset 1)
      else offset in
    uint32_t (uint32_t (MapAddress s) + offset).

(** [SetMapLayout(a, b, c, d)] *)
Definition SetMapLayout (ext : ExternDefs) (scr : Screen) (a b c d : Z) : M unit :=
  st <- get ;;
  SetPlanes scr (GetPlaneAddress ext scr a st) (GetPlaneAddress ext scr b st)
                (GetPlaneAddress ext scr c st) (GetPlaneAddress ext scr d st).

(** [SetPlanesDefault(info)] *)
Definition SetPlanesDefault (ext : ExternDefs) (scr : Screen) (info : TilemapInfo) : M unit :=
  let mapX := 32 in
  let mapY := 32 in
  let '(mapX, mapY) :=
    if CharSize info =? CHAR_SIZE_1x1 ext
    then (Z.shiftl mapX 1, Z.shiftl mapY 1) else (mapX, mapY) in
  let '(mapX, mapY) :=
    if PlaneSize info =? PL_SIZE_2x2 ext then (Z.shiftl mapX 1, Z.shiftl mapY 1)
    else if PlaneSize info =? PL_SIZE_2x1 ext then (Z.shiftl mapX 1, mapY)
    else (mapX, mapY) in
  if MapWidth info >? mapX then
    if MapHeight info >? mapY then SetMapLayout ext scr 0 1 2 3
    else SetMapLayout ext scr 0 1 0 1
  else
    if MapHeight info >? mapY then SetMapLayout ext scr 0 0 1 1
    else SetMapLayout ext scr 0 0 0 0.

(** [GetCellOffset(tile, cellAddress)]; the function reads the screen's
    own [Info], not its parameter [tile]. *)
Definition GetCellOffset (ext : ExternDefs) (scr : Screen) (tile : TilemapInfo)
    (cellAddress : Z) (st : State) : Z :=
  let s := the_screen scr st in
  if MapMode (Info s) =? 0 then
    Z.shiftr (uint32_t (uint32_t cellAddress - VDP2_VRAM_A0 ext)) 5
  else if MapMode (Info s) =? 0x8000 then
    if negb (CharSize (Info s) =? 0)
    then Z.shiftr (Z.land (uint32_t (uint32_t cellAddress - VDP2_VRAM_A0 ext)) 0x1FFFF) 7
    else Z.shiftr (Z.land (uint32_t (uint32_t cellAddress - VDP2_VRAM_A0 ext)) 0x7FFF) 5
  else
    if negb (CharSize (Info s) =? 0)
    then Z.shiftr (uint32_t (uint32_t cellAddress - VDP2_VRAM_A0 ext)) 7
    else Z.shiftr (Z.land (uint32_t (uint32_t cellAddress - VDP2_VRAM_A0 ext)) 0x1FFFF) 5.

(** [Cell2VRAM(cellData, cellAdr, size)] *)
Definition Cell2VRAM (cellData : list Z) (cellAdr size : Z) : M unit :=
  for_loop (Z.to_nat (uint32_t size)) (fun i =>
    emit (Store8 (uint32_t (cellAdr + Z.of_nat i)) (nth i cellData 0))).

(** [Map2VRAM(info, mapData, mapAdr, paloff, mapoff)]: the two cursors
    advance by one entry per turn, so turn [(i, j)] reads and writes entry
    [i * MapWidth + j]. *)
Definition Map2VRAM (info : TilemapInfo) (mapData : list Z) (mapAdr paloff mapoff : Z)
    : M unit :=
  let paloff := uint8_t paloff in
  let mapoff := uint32_t mapoff in
  for_loop (Z.to_nat (MapHeight info)) (fun i =>
    for_loop (Z.to_nat (MapWidth info)) (fun j =>
      let n := (i * Z.to_nat (MapWidth info) + j)%nat in
      if negb (MapMode info =? 0)
      then emit (Store16 (uint32_t (mapAdr + 2 * Z.of_nat n))
                   (uint16_t (Z.lor (uint32_t (nth n mapData 0 + mapoff))
                                    (Z.shiftl paloff 12))))
      else emit (Store32 (uint32_t (mapAdr + 4 * Z.of_nat n))
                   (uint32_t (Z.lor (uint32_t (nth n mapData 0 + mapoff))
                                    (Z.shiftl paloff 20)))))).

(** Modelled from the spec: [Math::Fxp] of the fixed-point utilities, a
    "fixed-point 0.0-1.0" value.  It is held as its raw 32-bit integer
    with 16 fraction bits, the format in which [RawValue() >> 11] ranges
    over 32 values below 1.0; [Fxp_0] and [Fxp_1] are [Fxp(0.0)] and
    [Fxp(1.0)]. *)
Record Fxp : Set := mkFxp { RawValue : Z }.

Definition Fxp_0 : Fxp := mkFxp 0.
Definition Fxp_1 : Fxp := mkFxp 65536.
Definition Fxp_half : Fxp := mkFxp 32768.
Definition Fxp_ltb (a b : Fxp) : bool := RawValue a <? RawValue b.
Definition Fxp_geb (a b : Fxp) : bool := RawValue a >=? RawValue b.

(** [SetOpacity(opacity)] *)
Definition SetOpacity (ext : ExternDefs) (scr : Screen) (opacity : Fxp) : M unit :=
  if Fxp_ltb opacity Fxp_0 then ret tt
  else if Fxp_geb opacity Fxp_1 then
    modify (fun st =>
      set_ColorCalcScrolls
        (uint16_t (Z.land (ColorCalcScrolls st) (Z.lnot (ScreenON ext scr)))) st) ;;
    st <- get ;;
    emit (slColorCalcOn (ColorCalcScrolls st))
  else
    emit (slColRate scr (uint16_t (31 - uint16_t (Z.shiftr (RawValue opacity) 11)))) ;;
    modify (fun st =>
      set_ColorCalcScrolls
        (uint16_t (Z.lor (ColorCalcScrolls st) (ScreenON ext scr))) st) ;;
    st <- get ;;
    emit (slColorCalcOn (ColorCalcScrolls st)).

(** [SetCellAddress(address, size)], [SetMapAddress(Address, Size)] *)
Definition SetCellAddress (scr : Screen) (address size : Z) : M Z :=
  modify (fun st =>
    let s := the_screen scr st in
    set_screen scr (mkScreen (MapAddress s) address (TilePalette s) (Info s)
                             size (MapAllocSize s)) st) ;;
  ret address.

Definition SetMapAddress (scr : Screen) (Address Size : Z) : M Z :=
  modify (fun st =>
    let s := the_screen scr st in
    set_screen scr (mkScreen Address (CellAddress s) (TilePalette s) (Info s)
                             (CellAllocSize s) Size) st) ;;
  ret Address.

(** ** [LoadTilemap] *)

Definition with_MapAddress (a : Z) (s : ScreenState) : ScreenState :=
  mkScreen a (CellAddress s) (TilePalette s) (Info s) (CellAllocSize s) (MapAllocSize s).

Definition with_CellAddress (a : Z) (s : ScreenState) : ScreenState :=
  mkScreen (MapAddress s) a (TilePalette s) (Info s) (CellAllocSize s) (MapAllocSize s).

Definition with_TilePalette (p : Palette) (s : ScreenState) : ScreenState :=
  mkScreen (MapAddress s) (CellAddress s) p (Info s) (CellAllocSize s) (MapAllocSize s).

Definition with_Info (i : TilemapInfo) (s : ScreenState) : ScreenState :=
  mkScreen (MapAddress s) (CellAddress s) (TilePalette s) i (CellAllocSize s) (MapAllocSize s).

Definition update_screen (scr : Screen) (f : ScreenState -> ScreenState) : M unit :=
  modify (fun st => set_screen scr (f (the_screen scr st)) st).

(** [CRAM::GetFreeBank(mode)]: the next answer of the collaborator. *)
Definition CRAM_GetFreeBank (mode : TextureColorMode) : M Z :=
  fun st =>
    match cram_free st with
    | [] => (-1, st)
    | a :: rest => (a, set_cram_free rest st)
    end.

(** How a call of [LoadTilemap] ends: at its last statement, or at one of
    its [return]s. *)
Inductive LoadResult : Set := Loaded | Aborted.

(** The palette, from [int colorID = 0;] to the call of [Load]; the
    result is [false] where the header returns. *)
Definition LoadTilemap_palette (scr : Screen) (tilemap : ITilemap) : M bool :=
  st <- get ;;
  let mode := ColorMode (Info (the_screen scr st)) in
  match mode with
  | RGB555 => ret true
  | _ =>
      ok <- (if negb (Palette_has_data (TilePalette (the_screen scr st))) then
               colorID <- CRAM_GetFreeBank mode ;;
               if colorID <? 0 then
                 Assert "Tilemap Palette Load Failed- no CRAM Palettes available" ;;
                 ret false
               else
                 emit (CRAM_SetBankUsedState colorID mode true) ;;
                 update_screen scr (with_TilePalette (Palette_of mode colorID)) ;;
                 ret true
             else ret true) ;;
      if ok : bool then
        let len := match mode with Paletted16 => 16 | _ => 256 end in
        st <- get ;;
        emit (Palette_Load (TilePalette (the_screen scr st)) (GetPalData tilemap) len) ;;
        ret true
      else ret false
  end.

(** From the palette to the end of the function. *)
Definition LoadTilemap_finish (ext : ExternDefs) (scr : Screen) (tilemap : ITilemap)
    : M LoadResult :=
  ok <- LoadTilemap_palette scr tilemap ;;
  if ok : bool then
    st <- get ;;
    (match scr with
     | RBG0 => ret tt
     | _ => SetPlanesDefault ext scr (Info (the_screen scr st))
     end) ;;
    st <- get ;;
    let s := the_screen scr st in
    Cell2VRAM (GetCellData tilemap) (CellAddress s) (CellByteSize (Info s)) ;;
    Map2VRAM (Info s) (GetMapData tilemap) (MapAddress s)
             (Palette_GetId ext (TilePalette s))
             (GetCellOffset ext scr (Info s) (CellAddress s) st) ;;
    Init scr (Info s) ;;
    ret Loaded
  else ret Aborted.

(** From the test of [CellAddress] on. *)
Definition LoadTilemap_cells (ext : ExternDefs) (scr : Screen) (tilemap : ITilemap)
    (myInfo : TilemapInfo) : M LoadResult :=
  st <- get ;;
  let s := the_screen scr st in
  if uint32_t (CellAddress s) <? VDP2_VRAM_A0 ext then
    a <- AutoAllocateCell myInfo scr ;;
    update_screen scr (with_CellAddress a) ;;
    if uint32_t a <? VDP2_VRAM_A0 ext then
      Assert "Tilemap Load Failed- CEL DATA exceeds existing VRAM allocation" ;;
      ret Aborted
    else LoadTilemap_finish ext scr tilemap
  else if CellAllocSize s <? CellByteSize (Info s) then
    Assert "Tilemap Load Failed- CEL DATA exceeds existing VRAM allocation" ;;
    ret Aborted
  else LoadTilemap_finish ext scr tilemap.

(** [LoadTilemap(tilemap)].  The size a map region set by hand is
    compared with, [(Info.MapWidth * Info.MapHeight) << (1 + !Info.MapMode)],
    is a product and a shift of [int], as [MapAllocSize] is. *)
Definition LoadTilemap (ext : ExternDefs) (scr : Screen) (tilemap : ITilemap)
    : M LoadResult :=
  let myInfo := GetInfo tilemap in
  update_screen scr (with_Info (GetInfo tilemap)) ;;
  st <- get ;;
  let s := the_screen scr st in
  if uint32_t (MapAddress s) <? VDP2_VRAM_A0 ext then
    a <- AutoAllocateMap ext myInfo scr ;;
    update_screen scr (with_MapAddress a) ;;
    if uint32_t a <? VDP2_VRAM_A0 ext then ret Aborted
    else LoadTilemap_cells ext scr tilemap myInfo
  else if MapAllocSize s
          <? int32_t (Z.shiftl (int32_t (MapWidth (Info s) * MapHeight (Info s)))
                               (1 + (if MapMode (Info s) =? 0 then 1 else 0))) then
    Assert "Tilemap Load Failed- MAP DATA exceeds existing VRAM allocation" ;;
    ret Aborted
  else LoadTilemap_cells ext scr tilemap myInfo.

(** ** [VDP2::ClearVRAM] *)

(** The statements of [ClearVRAM] for one screen: the addresses go back
    to [VDP2_VRAM_A0 - 1], and a palette that has data is released. *)
Definition ClearVRAM_screen (ext : ExternDefs) (scr : Screen) : M unit :=
  update_screen scr (with_MapAddress (unallocated ext)) ;;
  update_screen scr (with_CellAddress (unallocated ext)) ;;
  modify (fun st =>
    match scr with
    | NBG0 =>
        mkState (vram st) (screens st) (unallocated ext) (NBG1_LineAddress st)
                (RBG0_KtableAddress st) (ColorCalcScrolls st) (VDP2_RAMCTL st)
                (cram_free st) (trace st)
    | NBG1 =>
        mkState (vram st) (screens st) (NBG0_LineAddress st) (unallocated ext)
                (RBG0_KtableAddress st) (ColorCalcScrolls st) (VDP2_RAMCTL st)
                (cram_free st) (trace st)
    | RBG0 =>
        mkState (vram st) (screens st) (NBG0_LineAddress st) (NBG1_LineAddress st)
                (unallocated ext) (ColorCalcScrolls st) (VDP2_RAMCTL st)
                (cram_free st) (trace st)
    | _ => st
    end) ;;
  st <- get ;;
  let s := the_screen scr st in
  if Palette_has_data (TilePalette s) then
    emit (CRAM_SetBankUsedState (Palette_GetId ext (TilePalette s))
                                (ColorMode (Info s)) false) ;;
    update_screen scr (with_TilePalette Palette_default)
  else ret tt.

(** One turn of the loop over the banks. *)
Definition ClearVRAM_bank (ext : ExternDefs) (v : VRAM) (i : VramBank) : VRAM :=
  let v := mkVRAM (currentBot v) (bank_set (currentTop v) i (bankTop ext).[i])
                  (bankCycles v) in
  let v := mkVRAM (bank_set (currentBot v) i (bankBot ext).[i]) (currentTop v)
                  (bankCycles v) in
  mkVRAM (currentBot v) (currentTop v) (bank_set (bankCycles v) i (int8_t (-1))).

Definition ClearVRAM (ext : ExternDefs) : M unit :=
  ClearVRAM_screen ext NBG0 ;;
  ClearVRAM_screen ext NBG1 ;;
  ClearVRAM_screen ext NBG2 ;;
  ClearVRAM_screen ext NBG3 ;;
  ClearVRAM_screen ext RBG0 ;;
  modify (fun st => set_vram (fold_left (ClearVRAM_bank ext) [A0; A1; B0; B1] (vram st)) st) ;;
  modify (fun st =>
    mkState (vram st) (screens st) (NBG0_LineAddress st) (NBG1_LineAddress st)
            (RBG0_KtableAddress st) (ColorCalcScrolls st)
            (uint16_t (Z.land (VDP2_RAMCTL st) 0xff00)) (cram_free st) (trace st)) ;;
  modify (fun st =>
    set_vram (mkVRAM (currentBot (vram st)) (currentTop (vram st))
                     (bank_set (bankCycles (vram st)) B1 (int8_t 1))) st).

(** * Further members of the two headers *)

(** ** The masks of the scroll screens

    The static members [ActiveScrolls], [OffsetAScrolls],
    [OffsetBScrolls] and [TransparentScrolls] of [VDP2], each a
    [uint16_t] with one bit per screen.  The functions that change them
    touch no other member, so they run on this record and return the
    calls they make. *)
Record Masks : Set := mkMasks {
  ActiveScrolls : Z;
  OffsetAScrolls : Z;
  OffsetBScrolls : Z;
  TransparentScrolls : Z
}.

(** The initialisers of the four members. *)
Definition Masks_initial (ext : ExternDefs) : Masks :=
  mkMasks (Z.lor (NBG3ON ext) (SPRON ext)) (NBG3ON ext) (NBG3ON ext) 0.

(** [enum class OffsetChannel] *)
Inductive OffsetChannel : Set := NoOffset | OffsetA | OffsetB.

Inductive MaskCall : Set :=
| slScrAutoDisp (mask : Z)
| Assert_raised (message : string)
| slColOffsetOn (mask : Z)
| slColOffsetAUse (mask : Z)
| slColOffsetBUse (mask : Z)
| slScrTransparent (mask : Z).

(** [ScrollEnable()].  [check] is the value [slScrAutoDisp] returns; SGL
    is outside the sources, so it is an input. *)
Definition ScrollEnable (ext : ExternDefs) (scr : Screen) (check : Z) (m : Masks)
    : list MaskCall * Masks :=
  let m := mkMasks (uint16_t (Z.lor (ActiveScrolls m) (ScreenON ext scr)))
                   (OffsetAScrolls m) (OffsetBScrolls m) (TransparentScrolls m) in
  (slScrAutoDisp (ActiveScrolls m)
     :: (if check <? 0
         then [Assert_raised "Scroll Registration Failed- Invalid cycle pattern"]
         else []),
   m).

(** [ScrollDisable()] *)
Definition ScrollDisable (ext : ExternDefs) (scr : Screen) (check : Z) (m : Masks)
    : list MaskCall * Masks :=
  let m := mkMasks (uint16_t (Z.land (ActiveScrolls m) (Z.lnot (ScreenON ext scr))))
                   (OffsetAScrolls m) (OffsetBScrolls m) (TransparentScrolls m) in
  (slScrAutoDisp (ActiveScrolls m)
     :: (if check <? 0
         then [Assert_raised "Scroll Registration Failed- Invalid cycle pattern"]
         else []),
   m).

(** [UseColorOffset(mode)] *)
Definition UseColorOffset (ext : ExternDefs) (scr : Screen) (mode : OffsetChannel)
    (m : Masks) : list MaskCall * Masks :=
  let on := ScreenON ext scr in
  let m :=
    match mode with
    | OffsetA =>
        let m := mkMasks (ActiveScrolls m) (uint16_t (Z.lor (OffsetAScrolls m) on))
                         (OffsetBScrolls m) (TransparentScrolls m) in
        mkMasks (ActiveScrolls m) (OffsetAScrolls m)
                (uint16_t (Z.land (OffsetBScrolls m) (Z.lnot on))) (TransparentScrolls m)
    | OffsetB =>
        let m := mkMasks (ActiveScrolls m) (OffsetAScrolls m)
                         (uint16_t (Z.lor (OffsetBScrolls m) on)) (TransparentScrolls m) in
        mkMasks (ActiveScrolls m) (uint16_t (Z.land (OffsetAScrolls m) (Z.lnot on)))
                (OffsetBScrolls m) (TransparentScrolls m)
    | NoOffset =>
        let m := mkMasks (ActiveScrolls m) (uint16_t (Z.land (OffsetAScrolls m) (Z.lnot on)))
                         (OffsetBScrolls m) (TransparentScrolls m) in
        mkMasks (ActiveScrolls m) (OffsetAScrolls m)
                (uint16_t (Z.land (OffsetBScrolls m) (Z.lnot on))) (TransparentScrolls m)
    end in
  ([slColOffsetOn 0; slColOffsetAUse (OffsetAScrolls m); slColOffsetBUse (OffsetBScrolls m)],
   m).

(** [TransparentEnable()], [TransparentDisable()] *)
Definition TransparentEnable (ext : ExternDefs) (scr : Screen) (m : Masks)
    : list MaskCall * Masks :=
  let m := mkMasks (ActiveScrolls m) (OffsetAScrolls m) (OffsetBScrolls m)
                   (uint16_t (Z.land (TransparentScrolls m) (Z.lnot (ScreenON ext scr)))) in
  ([slScrTransparent (TransparentScrolls m)], m).

Definition TransparentDisable (ext : ExternDefs) (scr : Screen) (m : Masks)
    : list MaskCall * Masks :=
  let m := mkMasks (ActiveScrolls m) (OffsetAScrolls m) (OffsetBScrolls m)
                   (uint16_t (Z.lor (TransparentScrolls m) (ScreenON ext scr))) in
  ([slScrTransparent (TransparentScrolls m)], m).

(** ** [GetPalOffset(paletteID)]

    The parameter is an [int8_t], and so is the id taken from
    [TilePalette] when the parameter is negative; the shift is done on
    the promoted [int] and the result converted to [uint32_t]. *)
Definition GetPalOffset (ext : ExternDefs) (scr : Screen) (paletteID : Z) (st : State) : Z :=
  let s := the_screen scr st in
  let paletteID := int8_t paletteID in
  let paletteID :=
    if paletteID <? 0 then int8_t (Palette_GetId ext (TilePalette s)) else paletteID in
  if negb (MapMode (Info s) =? 0) then uint32_t (Z.shiftl paletteID 12)
  else uint32_t (Z.shiftl paletteID 24).

(** ** [class RBG0] *)

(** [enum class RotationMode] *)
Inductive RotationMode : Set := OneAxis | TwoAxis | ThreeAxis.

(** The flags of SGL that [SetRotationMode] joins with [|]; their values
    are outside the sources, a mode is the list of the flags joined. *)
Inductive KtableFlag : Set := K_OFF | K_FIX | K_LINE | K_DOT | K_2WORD | K_ON.

Inductive KtableCall : Set :=
| slMakeKtable (table : Z)
| slKtableRA (table : Z) (mode : list KtableFlag).

Definition set_KtableAddress (a : Z) (st : State) : State :=
  mkState (vram st) (screens st) (NBG0_LineAddress st) (NBG1_LineAddress st)
          a (ColorCalcScrolls st) (VDP2_RAMCTL st) (cram_free st) (trace st).

(** [RBG0::SetRotationMode(mode, vblank)]: the calls made and the state
    left. *)
Definition SetRotationMode (mode : RotationMode) (vblank : bool) (st : State)
    : list KtableCall * State :=
  match mode with
  | OneAxis => ([slKtableRA nullptr [K_OFF]], st)
  | TwoAxis =>
      if negb vblank then
        let (a, v) := Allocate 0x18000 0x20000 B0 0 (vram st) in
        let st := set_KtableAddress a (set_vram v st) in
        ([slMakeKtable (RBG0_KtableAddress st);
          slKtableRA (RBG0_KtableAddress st) [K_FIX; K_LINE; K_2WORD; K_ON]], st)
      else
        let (a, v) := Allocate 0x2000 0x20000 B0 0 (vram st) in
        let st := set_KtableAddress a (set_vram v st) in
        ([slKtableRA (RBG0_KtableAddress st) [K_LINE; K_2WORD; K_ON]], st)
  | ThreeAxis =>
      if negb vblank then
        let (a, v) := Allocate 0x18000 0x20000 B0 8 (vram st) in
        let st := set_KtableAddress a (set_vram v st) in
        ([slMakeKtable (RBG0_KtableAddress st);
          slKtableRA (RBG0_KtableAddress st) [K_FIX; K_DOT; K_2WORD; K_ON]], st)
      else
        let (a, v) := Allocate 0x2000 0x20000 B0 8 (vram st) in
        let st := set_KtableAddress a (set_vram v st) in
        ([slKtableRA (RBG0_KtableAddress st) [K_DOT; K_2WORD; K_ON]], st)
  end.

(** The local [sz] of [RBG0::SetPlanes(layout)], a [uint8_t]. *)
Definition SetPlanes16_sz (ext : ExternDefs) (info : TilemapInfo) : Z :=
  let sz := if CharSize info =? CHAR_SIZE_1x1 ext then 4 else 1 in
  let sz := if MapMode info =? PNB_2WORD ext then uint8_t (Z.shiftl sz 1) else sz in
  if PlaneSize info =? PL_SIZE_2x2 ext then uint8_t (Z.shiftl sz 2)
  else if PlaneSize info =? PL_SIZE_2x1 ext then uint8_t (Z.shiftl sz 1)
  else sz.

(** [RBG0::SetPlanes(const uint8_t layout[4][4])]: the table [sLayout]
    given to [sl16MapRA], row by row.  [layout] holds the four rows of
    four entries. *)
Definition SetPlanes16 (ext : ExternDefs) (layout : list (list Z)) (st : State)
    : list (list Z) :=
  let sz := SetPlanes16_sz ext (Info (the_screen RBG0 st)) in
  map (fun i =>
         map (fun j => uint8_t (uint8_t (nth j (nth i layout []) 0) * sz)) (seq 0 4))
      (seq 0 4).

(** ** [class SpriteLayer] *)

(** [SpriteLayer::ColorCalcON()], [SpriteLayer::ColorCalcOFF()] *)
Definition SpriteLayer_ColorCalcON (ext : ExternDefs) : M unit :=
  modify (fun st =>
    set_ColorCalcScrolls (uint16_t (Z.lor (ColorCalcScrolls st) (SPRON ext))) st) ;;
  st <- get ;;
  emit (slColorCalcOn (ColorCalcScrolls st)).

Definition SpriteLayer_ColorCalcOFF (ext : ExternDefs) : M unit :=
  modify (fun st =>
    set_ColorCalcScrolls
      (uint16_t (Z.land (ColorCalcScrolls st) (Z.lnot (SPRON ext)))) st) ;;
  st <- get ;;
  emit (slColorCalcOn (ColorCalcScrolls st)).

(** [SpriteLayer::SetOpacity(opacity, bank)]: the arguments of the call
    of [slColRate], or [None] when the function returns without it.  The
    ratio is converted to the [Uint16] parameter of [slColRate], as in
    [ScrollScreen::SetOpacity]. *)
Definition SpriteLayer_SetOpacity (opacity : Fxp) (bank : Z) : option (Z * Z) :=
  if Fxp_ltb opacity Fxp_0 || Fxp_ltb Fxp_1 opacity then None
  else Some (bank, uint16_t (31 - uint16_t (Z.shiftr (RawValue opacity) 11))).

(** ** [class Debug] ([srl_debug.hpp])

    A text is the list of its characters before the terminating zero. *)
Record DebugState : Set := mkDebug { printColor : Z; oldPrintColor : Z }.

Inductive DebugCall : Set :=
| ASCII_Print (text : list Z) (x y : Z)
| slCurColor (color : Z)
| slSynch.

(** [Debug::Print(x, y, text)]: both coordinates are [uint8_t]. *)
Definition Debug_Print (x y : Z) (text : list Z) : DebugCall :=
  ASCII_Print text (uint8_t x) (uint8_t y).

(** [PrintColorSet(color)], [PrintColorRestore()] *)
Definition PrintColorSet (color : Z) (d : DebugState) : list DebugCall * DebugState :=
  let color := uint8_t color in
  ([slCurColor color], mkDebug color (printColor d)).

Definition PrintColorRestore (d : DebugState) : list DebugCall * DebugState :=
  PrintColorSet (oldPrintColor d) d.

(** How the loop of [PrintWithWrap] ends: the function returns [line],
    or the index has passed the terminating zero and the next test of
    the loop reads behind the text. *)
Inductive WrapOutcome : Set :=
| Returned (lines : Z)
| ReadPastEnd.

(** The [while] loop of [PrintWithWrap] from the character at the head
    of [text] on.  A line feed is skipped with [character++], and the
    character after it is printed without another look at it: when that
    character is the terminating zero, an empty text is printed and the
    index moves behind the terminator.  The index [character] is a
    [uint16_t]; the loop is modelled for texts shorter than 65535
    characters, where it does not wrap around. *)
Fixpoint PrintWithWrap_loop (y fromLeft fromRight : Z) (text : list Z)
    (screenX line : Z) : list DebugCall * WrapOutcome :=
  match text with
  | [] => ([], Returned line)
  | c :: rest =>
      if (screenX >=? fromRight) || (c =? 10) then
        let screenX := fromLeft in
        let line := uint8_t (line + 1) in
        if c =? 10 then
          match rest with
          | [] => ([Debug_Print screenX (line + y - 1) []], ReadPastEnd)
          | c' :: rest' =>
              let (calls, r) :=
                PrintWithWrap_loop y fromLeft fromRight rest'
                                   (uint16_t (screenX + 1)) line in
              (Debug_Print screenX (line + y - 1) [c'] :: calls, r)
          end
        else
          let (calls, r) :=
            PrintWithWrap_loop y fromLeft fromRight rest (uint16_t (screenX + 1)) line in
          (Debug_Print screenX (line + y - 1) [c] :: calls, r)
      else
        let (calls, r) :=
          PrintWithWrap_loop y fromLeft fromRight rest (uint16_t (screenX + 1)) line in
        (Debug_Print screenX (line + y - 1) [c] :: calls, r)
  end.

(** [PrintWithWrap(x, y, fromLeft, fromRight, text)]; [None] is a null
    [text]. *)
Definition PrintWithWrap (x y fromLeft fromRight : Z) (text : option (list Z))
    : list DebugCall * WrapOutcome :=
  let x := uint8_t x in
  let y := uint8_t y in
  let fromLeft := uint8_t fromLeft in
  let fromRight := uint8_t fromRight in
  match text with
  | Some t =>
      if (fromLeft <? fromRight) && (x <? fromRight)
      then PrintWithWrap_loop y fromLeft fromRight t x 1
      else ([], Returned 0)
  | None => ([], Returned 0)
  end.

(** [int16_t x] *)
Definition int16_t (x : Z) : Z := (x + 2 ^ 15) mod 2 ^ 16 - 2 ^ 15.

(** The animation at the end of [AssertScreen] in a debug build: the
    rounds of [while (!breakOut)] from the values [frame] and
    [frameCountdown] have, with the calls they make, or [None] when
    [fuel] rounds do not reach the end of the loop.  The characters are
    those of the texts [" "], ["<"], ["="] and [">"]. *)
Fixpoint AssertScreen_animation (fuel : nat) (frame frameCountdown : Z)
    : option (list DebugCall) :=
  match fuel with
  | O => None
  | S fuel' =>
      let '(calls, frame, frameCountdown, breakOut) :=
        if frameCountdown =? 0 then
          let frameCountdown := 3 in
          let clearFrame := int16_t (frame - 5) in
          let backArrowFrame := int16_t (frame - 4) in
          let clearFrame :=
            if clearFrame <? 0 then int16_t (36 + clearFrame) else clearFrame in
          let backArrowFrame :=
            if backArrowFrame <? 0 then int16_t (36 + backArrowFrame) else backArrowFrame in
          let calls := [Debug_Print (clearFrame + 2) 27 [32];
                        Debug_Print (backArrowFrame + 2) 27 [60];
                        Debug_Print (frame + 2) 27 [61]] in
          let frame := uint8_t (frame + 1) in
          let '(frame, breakOut) := if frame >? 35 then (0, true) else (frame, false) in
          (calls ++ [Debug_Print (frame + 2) 27 [62]], frame, frameCountdown, breakOut)
        else ([], frame, frameCountdown, false) in
      let frameCountdown := uint16_t (frameCountdown - 1) in
      let calls := calls ++ [slSynch] in
      if breakOut : bool then Some calls
      else
        match AssertScreen_animation fuel' frame frameCountdown with
        | Some rest => Some (calls ++ rest)
        | None => None
        end
  end.

(** * Vocabulary of the statements *)

(** The value [Allocate] computes for its local [addrOffset]: the bytes
    skipped from the cursor [bot] to the next multiple of [boundary]. *)
Definition padding (bot boundary : Z) : Z :=
  if Z.land (uint32_t bot) (uint32_t (boundary - 1)) =? 0 then 0
  else uint32_t (boundary - Z.land (uint32_t bot) (uint32_t (boundary - 1))).

(** A bank whose cursor lies in the 32-bit address space, above
    [nullptr] and not above the bank's ceiling. *)
Definition bank_wf (v : VRAM) (b : VramBank) : Prop :=
  0 < (currentBot v).[b] <= (currentTop v).[b] /\ (currentTop v).[b] < 2 ^ 32.

(** The allocator states the class can reach: every bank is well formed
    and every counter is an [int8_t]. *)
Definition vram_wf (v : VRAM) : Prop :=
  forall b, bank_wf v b /\ - 2 ^ 7 <= (bankCycles v).[b] < 2 ^ 7.

(** A request: the arguments of one call of [Allocate] in a given bank. *)
Record Request : Set := mkRequest { req_size : Z; req_boundary : Z; req_cycles : Z }.

(** The calls of a list of requests, one after the other, in one bank:
    the addresses returned and the members after the last call. *)
Fixpoint Allocate_all (bank : VramBank) (reqs : list Request) (v : VRAM)
    : list Z * VRAM :=
  match reqs with
  | [] => ([], v)
  | r :: rest =>
      let (a, v1) := Allocate (req_size r) (req_boundary r) bank (req_cycles r) v in
      let (l, v2) := Allocate_all bank rest v1 in
      (a :: l, v2)
  end.

(** Where the cursor stands after a list of requests, padding included,
    when it starts at [bot]. *)
Fixpoint footprint (bot : Z) (reqs : list Request) : Z :=
  match reqs with
  | [] => bot
  | r :: rest => footprint (bot + padding bot (req_boundary r) + req_size r) rest
  end.

(** The addresses a list of requests is given when every call succeeds:
    each one is the cursor it finds, moved up by its padding. *)
Fixpoint placements (bot : Z) (reqs : list Request) : list Z :=
  match reqs with
  | [] => []
  | r :: rest =>
      (bot + padding bot (req_boundary r))
        :: placements (bot + padding bot (req_boundary r) + req_size r) rest
  end.

Definition total_size (reqs : list Request) : Z :=
  fold_right (fun r acc => req_size r + acc) 0 reqs.

Definition total_cycles (reqs : list Request) : Z :=
  fold_right (fun r acc => req_cycles r + acc) 0 reqs.

(** The cycles [AutoAllocateCell] asks for: all 8 for RBG0, and for
    the other screens 1, 2 or 4 by colour depth. *)
Definition cell_cycles (screen : Screen) (mode : TextureColorMode) : Z :=
  match screen with
  | RBG0 => 8
  | _ =>
      match mode with
      | Paletted16 => 1
      | Paletted256 => 2
      | RGB555 => 4
      | OtherColorMode => 0
      end
  end.

(** The order in which [AutoAllocateCell] tries the banks. *)
Definition cell_bank_order (screen : Screen) : list VramBank :=
  match screen with
  | RBG0 => [A0; A1; B0; B1]
  | _ => [B0; A1; A0; B1]
  end.

Definition cell_failure (screen : Screen) : string :=
  match screen with
  | RBG0 => "RBG Cell Allocation failed: insufficient VRAM"
  | _ => "NBG Cell Allocation failed: insufficient VRAM"
  end.

(** Trying the banks of a list in order until [Allocate] succeeds in one:
    the bank, the address and the members after that call, or [None] when
    no bank of the list takes the request. *)
Fixpoint first_fit (order : list VramBank) (size boundary cycles : Z) (v : VRAM)
    : option (VramBank * Z * VRAM) :=
  match order with
  | [] => None
  | b :: rest =>
      if fst (Allocate size boundary b cycles v) =? nullptr
      then first_fit rest size boundary cycles v
      else Some (b, fst (Allocate size boundary b cycles v),
                 snd (Allocate size boundary b cycles v))
  end.

(** The size in bytes of a map: two bytes per entry, four for a two-word
    entry. *)
Definition map_size (ext : ExternDefs) (info : TilemapInfo) : Z :=
  MapWidth info * MapHeight info * 2 * (if MapMode info =? PNB_2WORD ext then 2 else 1).

(** The boundary a map is aligned to: 0x800 bytes, times 4 for 1x1
    cells, times 4 or 2 for 2x2 or 2x1 planes, times 2 for two-word
    entries. *)
Definition map_boundary (ext : ExternDefs) (info : TilemapInfo) : Z :=
  0x800
  * (if CharSize info =? CHAR_SIZE_1x1 ext then 4 else 1)
  * (if PlaneSize info =? PL_SIZE_2x2 ext then 4
     else if PlaneSize info =? PL_SIZE_2x1 ext then 2 else 1)
  * (if MapMode info =? PNB_2WORD ext then 2 else 1).

(** The offset of page [index] in a map: 2048 bytes per page, times 4
    for 1x1 cells, times 2 for two-word entries. *)
Definition page_offset (ext : ExternDefs) (info : TilemapInfo) (index : Z) : Z :=
  2048 * uint8_t index
  * (if CharSize info =? CHAR_SIZE_1x1 ext then 4 else 1)
  * (if MapMode info =? PNB_2WORD ext then 2 else 1).

(** The offset of plane [index]: a plane is 1, 2 or 4 pages. *)
Definition plane_offset (ext : ExternDefs) (info : TilemapInfo) (index : Z) : Z :=
  page_offset ext info index
  * (if PlaneSize info =? PL_SIZE_2x2 ext then 4
     else if PlaneSize info =? PL_SIZE_2x1 ext then 2 else 1).

(** The registers as the trace leaves them: the ratio last given to
    [slColRate] for a screen, and the mask last given to [slColorCalcOn]. *)
Definition ColRate_of (scr : Screen) (t : list Event) : option Z :=
  fold_left (fun acc e =>
               match e with
               | slColRate s rate => if Screen_eqb s scr then Some rate else acc
               | _ => acc
               end) t None.

Definition ColorCalcOn_of (t : list Event) : option Z :=
  fold_left (fun acc e => match e with slColorCalcOn mask => Some mask | _ => acc end)
            t None.

(** The area one plane covers, in cells across and down: 32 by 32,
    doubled both ways for 1x1 cells, doubled both ways for 2x2 planes
    and across for 2x1 planes. *)
Definition plane_capacity (ext : ExternDefs) (cs ps : Z) : Z * Z :=
  (32 * (if cs =? CHAR_SIZE_1x1 ext then 2 else 1)
      * (if ps =? PL_SIZE_2x2 ext then 2 else if ps =? PL_SIZE_2x1 ext then 2 else 1),
   32 * (if cs =? CHAR_SIZE_1x1 ext then 2 else 1)
      * (if ps =? PL_SIZE_2x2 ext then 2 else 1)).

(** The default layout of the four planes for a map of [w] by [h] cells:
    four planes when the map is wider and taller than a plane, a
    horizontal pair when it is only wider, a vertical pair when it is
    only taller, one plane otherwise. *)
Definition default_layout (ext : ExternDefs) (w h cs ps : Z) : Z * Z * Z * Z :=
  let (capX, capY) := plane_capacity ext cs ps in
  if w >? capX then
    if h >? capY then (0, 1, 2, 3) else (0, 1, 0, 1)
  else
    if h >? capY then (0, 0, 1, 1) else (0, 0, 0, 0).

(** The calls that set plane addresses. *)
Definition is_plane_write (e : Event) : bool :=
  match e with
  | slMapNbg _ _ _ _ _ | sl1MapRA _ => true
  | _ => false
  end.

(** The events of the calls a function makes. *)
Definition SetPlanes_events (scr : Screen) (a b c d : Z) : list Event :=
  match scr with
  | RBG0 => [sl1MapRA a]
  | _ => [slMapNbg scr a b c d]
  end.

Definition Init_events (scr : Screen) (info : TilemapInfo) (s : ScreenState)
    : list Event :=
  match scr with
  | RBG0 =>
      [slRparaMode_RA; slOverRA 0;
       slChar scr (ColorMode info) (CharSize info);
       slPage scr (CellAddress s) (TilePalette s) (MapMode info);
       slPlane scr (PlaneSize info);
       sl1MapRA (MapAddress s);
       slPopMatrix]
  | _ =>
      [slChar scr (ColorMode info) (CharSize info);
       slPage scr (CellAddress s) (TilePalette s) (MapMode info);
       slPlane scr (PlaneSize info);
       slMapNbg scr (MapAddress s) (MapAddress s) (MapAddress s) (MapAddress s)]
  end.

(** The store of map entry [n]: the entry plus the cell offset, with the
    palette id shifted to bit 12 of a one-word entry and to bit 20 of a
    two-word entry. *)
Definition map_store (info : TilemapInfo) (mapData : list Z) (mapAdr paloff mapoff : Z)
    (n : nat) : Event :=
  if negb (MapMode info =? 0)
  then Store16 (uint32_t (mapAdr + 2 * Z.of_nat n))
         (uint16_t (Z.lor (uint32_t (nth n mapData 0 + uint32_t mapoff))
                          (Z.shiftl (uint8_t paloff) 12)))
  else Store32 (uint32_t (mapAdr + 4 * Z.of_nat n))
         (uint32_t (Z.lor (uint32_t (nth n mapData 0 + uint32_t mapoff))
                          (Z.shiftl (uint8_t paloff) 20))).

Definition Map2VRAM_events (info : TilemapInfo) (mapData : list Z)
    (mapAdr paloff mapoff : Z) : list Event :=
  flat_map (fun i =>
              map (fun j => map_store info mapData mapAdr paloff mapoff
                                      (i * Z.to_nat (MapWidth info) + j)%nat)
                  (seq 0 (Z.to_nat (MapWidth info))))
           (seq 0 (Z.to_nat (MapHeight info))).

Definition Cell2VRAM_events (cellData : list Z) (cellAdr size : Z) : list Event :=
  map (fun i => Store8 (uint32_t (cellAdr + Z.of_nat i)) (nth i cellData 0))
      (seq 0 (Z.to_nat (uint32_t size))).

(** The events of [LoadTilemap] after the palette, from the state [st]
    the palette leaves: the planes of the default layout (not for RBG0),
    the cell and map transfers and the calls of [Init]. *)
Definition finish_events (ext : ExternDefs) (scr : Screen) (tilemap : ITilemap)
    (st : State) : list Event :=
  let s := the_screen scr st in
  (match scr with
   | RBG0 => []
   | _ =>
       let '(a, b, c, d) :=
         default_layout ext (MapWidth (Info s)) (MapHeight (Info s))
                        (CharSize (Info s)) (PlaneSize (Info s)) in
       SetPlanes_events scr
         (GetPlaneAddress ext scr a st) (GetPlaneAddress ext scr b st)
         (GetPlaneAddress ext scr c st) (GetPlaneAddress ext scr d st)
   end)
  ++ Cell2VRAM_events (GetCellData tilemap) (CellAddress s) (CellByteSize (Info s))
  ++ Map2VRAM_events (Info s) (GetMapData tilemap) (MapAddress s)
       (Palette_GetId ext (TilePalette s))
       (GetCellOffset ext scr (Info s) (CellAddress s) st)
  ++ Init_events scr (Info s) s.

(** Asserts and calls to the palette collaborator. *)
Definition is_bookkeeping (e : Event) : bool :=
  match e with
  | Debug_Assert _ | CRAM_SetBankUsedState _ _ _ | Palette_Load _ _ _ => true
  | _ => false
  end.

(** The stores of map entries. *)
Definition is_map_store (e : Event) : bool :=
  match e with
  | Store16 _ _ | Store32 _ _ => true
  | _ => false
  end.

(** [emits f evs]: from every state, [f] appends [evs st] to the trace
    and does nothing else. *)
Definition emits (f : M unit) (evs : State -> list Event) : Prop :=
  forall st, f st = (tt, set_trace (trace st ++ evs st) st).

(** [bookkeeping f]: whatever [f] appends to the trace is an assert or a
    call to the palette collaborator. *)
Definition bookkeeping {A : Type} (f : M A) : Prop :=
  forall st, exists pre,
    trace (snd (f st)) = trace st ++ pre /\ forallb is_bookkeeping pre = true.

(** A call of [Debug::Assert]. *)
Definition is_assert (e : Event) : bool :=
  match e with Debug_Assert _ => true | _ => false end.

(** [appends p f]: from every state, [f] adds to the trace events that
    satisfy [p], and no others. *)
Definition appends {A : Type} (p : Event -> bool) (f : M A) : Prop :=
  forall st, exists pre,
    trace (snd (f st)) = trace st ++ pre /\ forallb p pre = true.

(** [appends_if_aborted p f]: the same of the calls of [f] that end with
    [Aborted]. *)
Definition appends_if_aborted (p : Event -> bool) (f : M LoadResult) : Prop :=
  forall st, fst (f st) = Aborted ->
    exists pre, trace (snd (f st)) = trace st ++ pre /\ forallb p pre = true.

(** [loads ext scr tilemap f]: [f] appends bookkeeping events and then,
    when it ends with [Loaded], the events of [finish_events] for the
    state it leaves. *)
Definition loads (ext : ExternDefs) (scr : Screen) (tilemap : ITilemap)
    (f : M LoadResult) : Prop :=
  forall st, exists pre,
    forallb is_bookkeeping pre = true
    /\ trace (snd (f st))
       = trace st ++ pre
         ++ match fst (f st) with
            | Loaded => finish_events ext scr tilemap (snd (f st))
            | Aborted => []
            end.

(** The static members at program start, for the members whose
    initialiser the header does not determine: the default [TilemapInfo],
    the hardware register and the collaborator's answers. *)
Definition State_start (ext : ExternDefs) (info0 : TilemapInfo) (ramctl : Z)
    (free : list Z) : State :=
  let s := mkScreen (unallocated ext) (unallocated ext) Palette_default info0 (-1) (-1) in
  mkState (VRAM_initial ext) (mkScreens s s s s s)
          (unallocated ext) (unallocated ext) (unallocated ext)
          (Z.lor (NBG3ON ext) (SPRON ext)) ramctl free [].

(** A state to run the model on. *)
Definition start : State :=
  State_start saturn (mkInfo Paletted16 0 0 0 0 0 0) 0 [1; 2; 3].

(** The state [ClearVRAM] leaves when called at program start. *)
Definition after_reset : State := snd (ClearVRAM saturn start).

(** A one-word map in the second one-word mode (0xC000), loaded into
    NBG0 after [ClearVRAM]. *)
Definition one_word_mode1 : ITilemap :=
  mkTilemap (mkInfo Paletted16 0 0 0xC000 1 1 32) (repeat 0 32) [0] (repeat 0 16).

Definition after_one_word_load : State :=
  snd (LoadTilemap saturn NBG0 one_word_mode1 after_reset).

(** A tilemap of 64 by 64 cells with 256 colours and one cell of 64
    bytes, and the state after loading it into NBG0 and then NBG1 after
    [ClearVRAM]. *)
Definition tilemap_64 : ITilemap :=
  mkTilemap (mkInfo Paletted256 0 0 0x8000 64 64 0x40)
            (repeat 7 0x40) (repeat 5 4096) (repeat 0 256).

Definition after_two_loads : State :=
  snd (LoadTilemap saturn NBG1 tilemap_64
         (snd (LoadTilemap saturn NBG0 tilemap_64 after_reset))).

(** ** Relations between the state before and after a call *)

(** [preserves R f]: every run of [f] leaves a state that [R] relates to
    the state it found. *)
Definition preserves {A : Type} (R : State -> State -> Prop) (f : M A) : Prop :=
  forall st, R st (snd (f st)).

(** A relation that holds from a state to itself, composes, and does
    not look at the trace. *)
Definition frame_relation (R : State -> State -> Prop) : Prop :=
  (forall st, R st st)
  /\ (forall a b c, R a b -> R b c -> R a c)
  /\ (forall st t, R st (set_trace t st)).

(** A relation that every call of [Allocate] respects. *)
Definition over_Allocate (R : State -> State -> Prop) : Prop :=
  forall size boundary bank cycles st,
    R st (set_vram (snd (Allocate size boundary bank cycles (vram st))) st).

(** The allocator only ever grows: the ceilings stay, and from a
    well-formed state the state stays well formed and no cursor moves
    back. *)
Definition vram_grows (v v' : VRAM) : Prop :=
  currentTop v' = currentTop v
  /\ (vram_wf v ->
      vram_wf v' /\ forall b, (currentBot v).[b] <= (currentBot v').[b]).

(** What a call made for the screen [scr] leaves alone: the members of
    every other screen, the sizes of the regions set by hand, the line
    and coefficient table addresses, the colour calculation mask and the
    RAM control register; and the allocator only grows. *)
Definition load_frame (scr : Screen) (st st' : State) : Prop :=
  (forall s, s <> scr -> the_screen s st' = the_screen s st)
  /\ MapAllocSize (the_screen scr st') = MapAllocSize (the_screen scr st)
  /\ CellAllocSize (the_screen scr st') = CellAllocSize (the_screen scr st)
  /\ NBG0_LineAddress st' = NBG0_LineAddress st
  /\ NBG1_LineAddress st' = NBG1_LineAddress st
  /\ RBG0_KtableAddress st' = RBG0_KtableAddress st
  /\ ColorCalcScrolls st' = ColorCalcScrolls st
  /\ VDP2_RAMCTL st' = VDP2_RAMCTL st
  /\ vram_grows (vram st) (vram st').

(** The members of the screens and the answers left of the palette
    collaborator are the same. *)
Definition placement_frame (st st' : State) : Prop :=
  screens st' = screens st /\ cram_free st' = cram_free st.

(** The allocator is the same, and so is every member of every screen
    but its palette. *)
Definition palette_frame (st st' : State) : Prop :=
  vram st' = vram st
  /\ forall s, the_screen s st'
               = with_TilePalette (TilePalette (the_screen s st')) (the_screen s st).

(** A store that stays inside the cell region [cell, cell + csize) when
    it stores a byte and inside the map region [map, map + msize) when
    it stores a map entry. *)
Definition store_within (cell csize map msize : Z) (e : Event) : Prop :=
  match e with
  | Store8 a _ => cell <= a < cell + csize
  | Store16 a _ => map <= a /\ a + 2 <= map + msize
  | Store32 a _ => map <= a /\ a + 4 <= map + msize
  | _ => True
  end.

(** The banks [AutoAllocateMap] tries, in order: bank A0 alone for RBG0;
    for the other screens A0 and then B1, without A0 when its counter
    stands at 7. *)
Definition map_bank_order (screen : Screen) (v : VRAM) : list VramBank :=
  match screen with
  | RBG0 => [A0]
  | _ => if (bankCycles v).[A0] =? 7 then [B1] else [A0; B1]
  end.

(** The cycles [AutoAllocateMap] asks for. *)
Definition map_cycles (screen : Screen) : Z :=
  match screen with RBG0 => 8 | _ => 1 end.

Definition map_failure (screen : Screen) : string :=
  match screen with
  | RBG0 => "RBG Map Allocation failed: insufficient VRAM"
  | _ => "NBG Map Allocation failed: insufficient VRAM"
  end.

(** A bank takes a request of [size] bytes at a [boundary] for a number
    of [cycles]: from its cursor, moved up to the boundary, [size] bytes
    end at or below its ceiling, and its counter with the cycles added
    stays below 8. *)
Definition bank_takes (v : VRAM) (bank : VramBank) (size boundary cycles : Z) : Prop :=
  (currentBot v).[bank] + padding (currentBot v).[bank] boundary + size
    <= (currentTop v).[bank]
  /\ (bankCycles v).[bank] + cycles < 8.

(** What [ClearVRAM] makes of the members of a screen: the addresses
    are unallocated and the palette is the default one; [Info] and the
    sizes of the regions set by hand stay. *)
Definition reset_screen (ext : ExternDefs) (s : ScreenState) : ScreenState :=
  mkScreen (unallocated ext) (unallocated ext) Palette_default (Info s)
           (CellAllocSize s) (MapAllocSize s).

(** The call by which [ClearVRAM] gives the palette of a screen back to
    the collaborator, when the screen has one. *)
Definition released (ext : ExternDefs) (s : ScreenState) : list Event :=
  if Palette_has_data (TilePalette s)
  then [CRAM_SetBankUsedState (Palette_GetId ext (TilePalette s)) (ColorMode (Info s)) false]
  else [].

(** ** Calls of [Debug] *)

(** The text, the column and the row of a call of [Debug::Print]. *)
Definition printed (c : DebugCall) : list Z :=
  match c with ASCII_Print t _ _ => t | _ => [] end.

Definition column (c : DebugCall) : Z :=
  match c with ASCII_Print _ x _ => x | _ => 0 end.

Definition row (c : DebugCall) : Z :=
  match c with ASCII_Print _ _ y => y | _ => 0 end.

(** The line breaks a text of [n] characters without line feeds takes
    when [d] columns are left on the current line and a full line has
    [w] columns. *)
Definition wraps (d w n : Z) : Z :=
  if n <=? d then 0 else 1 + (n - d - 1) / w.

Definition is_slSynch (c : DebugCall) : bool :=
  match c with slSynch => true | _ => false end.

(** The state after loading [tilemap_64] into NBG0 alone after
    [ClearVRAM]. *)
Definition after_NBG0_load : State :=
  snd (LoadTilemap saturn NBG0 tilemap_64 after_reset).

(** The state after [ClearVRAM] in which NBG0 has been given a map
    region of 0x4000 bytes at the start of bank A0 and a cell region of
    0x1000 bytes at the start of bank A1 by hand. *)
Definition with_manual_regions : State :=
  snd (SetCellAddress NBG0 (VDP2_VRAM_A1 saturn) 0x1000
         (snd (SetMapAddress NBG0 (VDP2_VRAM_A0 saturn) 0x4000 after_reset))).

(** A tilemap of 64 by 64 cells whose cell data is larger than a bank. *)
Definition tilemap_oversized : ITilemap :=
  mkTilemap (mkInfo Paletted256 0 0 0x8000 64 64 0x20040) [] [] [].

(** * Properties *)

(** Closed comparisons of integers, decided by evaluation. *)
Ltac by_evaluation := vm_compute; repeat split; try discriminate; try reflexivity.

(** ** Integer conversions and arrays *)

Lemma uint32_small x : 0 <= x < 2 ^ 32 -> uint32_t x = x.
Proof. intros H. unfold uint32_t. apply Z.mod_small. exact H. Qed.

Lemma uint32_range x : 0 <= uint32_t x < 2 ^ 32.
Proof. unfold uint32_t. apply Z.mod_pos_bound. reflexivity. Qed.

Lemma int8_small x : - 2 ^ 7 <= x < 2 ^ 7 -> int8_t x = x.
Proof.
  intros H. unfold int8_t. rewrite Z.mod_small; lia.
Qed.

Lemma bank_get_set_same a b v : (bank_set a b v).[b] = v.
Proof. destruct b; reflexivity. Qed.

Lemma bank_get_set_other a b b' v : b <> b' -> (bank_set a b v).[b'] = a.[b'].
Proof. destruct b, b'; intros H; try reflexivity; congruence. Qed.

Lemma padding_nonneg bot boundary : 0 <= padding bot boundary.
Proof.
  unfold padding. destruct (_ =? 0); [lia | apply uint32_range].
Qed.

(** ** The bump allocator *)

(** [Allocate] without its conversions, for a request that does not wrap
    around in 32 bits. *)
Lemma Allocate_spec size boundary bank cycles v :
  bank_wf v bank -> 0 <= size ->
  size + padding (currentBot v).[bank] boundary < 2 ^ 32 ->
  Allocate size boundary bank cycles v =
    let bot := (currentBot v).[bank] in
    let pad := padding bot boundary in
    if (bot + pad + size <=? (currentTop v).[bank])
       && ((bankCycles v).[bank] + cycles <? 8)
    then (bot + pad,
          mkVRAM (bank_set (currentBot v) bank (bot + pad + size)) (currentTop v)
                 (bank_set (bankCycles v) bank (int8_t ((bankCycles v).[bank] + cycles))))
    else (nullptr, v).
Proof.
  intros [[Hbot Htop] Hlim] Hsize Hfit.
  unfold Allocate, GetAvailable. cbv zeta.
  fold (padding (currentBot v).[bank] boundary).
  assert (Hpad :
    (if negb (Z.land (uint32_t (currentBot v).[bank]) (uint32_t (boundary - 1)) =? 0)
     then uint32_t (boundary
            - Z.land (uint32_t (currentBot v).[bank]) (uint32_t (boundary - 1)))
     else 0) = padding (currentBot v).[bank] boundary).
  { unfold padding. destruct (_ =? 0); reflexivity. }
  rewrite Hpad. clear Hpad.
  pose proof (padding_nonneg (currentBot v).[bank] boundary) as Hp.
  set (pad := padding (currentBot v).[bank] boundary) in *.
  rewrite (uint32_small (size + pad)) by lia.
  rewrite (uint32_small ((currentTop v).[bank] - (currentBot v).[bank])) by lia.
  rewrite Z.geb_leb.
  destruct (Z.leb_spec (size + pad) ((currentTop v).[bank] - (currentBot v).[bank]))
    as [Hle | Hgt];
    destruct (Z.leb_spec ((currentBot v).[bank] + pad + size) (currentTop v).[bank])
    as [Hle' | Hgt']; try lia; cbn [andb]; [| reflexivity].
  destruct ((bankCycles v).[bank] + cycles <? 8); [| reflexivity].
  cbn [currentBot currentTop bankCycles].
  rewrite (uint32_small ((currentBot v).[bank] + pad)) by lia.
  rewrite (uint32_small ((currentBot v).[bank] + (size + pad))) by lia.
  replace ((currentBot v).[bank] + (size + pad))
    with ((currentBot v).[bank] + pad + size) by lia.
  reflexivity.
Qed.

(** A call that returns [nullptr] leaves the members as they were. *)
Lemma Allocate_null_unchanged size boundary bank cycles v :
  bank_wf v bank -> 0 <= size ->
  size + padding (currentBot v).[bank] boundary < 2 ^ 32 ->
  fst (Allocate size boundary bank cycles v) = nullptr ->
  snd (Allocate size boundary bank cycles v) = v.
Proof.
  intros Hwf Hsize Hfit. rewrite Allocate_spec by assumption. cbv zeta.
  pose proof (padding_nonneg (currentBot v).[bank] boundary) as Hp.
  destruct Hwf as [[Hbot _] _].
  destruct (_ && _); cbn [fst snd]; [unfold nullptr; lia | reflexivity].
Qed.

(** C1 (amended).  For a request whose padding plus size does not wrap
    around in 32 bits, [Allocate] returns [nullptr] exactly when the
    bank's cursor plus the padding plus the size would pass the bank's
    ceiling, or when the bank's stored cycle counter plus the requested
    cycles reaches 8 (the counter of an empty bank is -1); and a call
    that returns [nullptr] leaves all members, the bank's cursor and
    counter among them, unchanged.  [Allocate] has no other outcome than
    its returned address: it raises nothing. *)
Theorem Allocate_fails_exactly_when size boundary bank cycles v :
  bank_wf v bank -> 0 <= size ->
  size + padding (currentBot v).[bank] boundary < 2 ^ 32 ->
  (fst (Allocate size boundary bank cycles v) = nullptr <->
     (currentBot v).[bank] + padding (currentBot v).[bank] boundary + size
       > (currentTop v).[bank]
     \/ (bankCycles v).[bank] + cycles >= 8)
  /\ (fst (Allocate size boundary bank cycles v) = nullptr ->
      snd (Allocate size boundary bank cycles v) = v
      /\ (currentBot (snd (Allocate size boundary bank cycles v))).[bank]
         = (currentBot v).[bank]
      /\ (bankCycles (snd (Allocate size boundary bank cycles v))).[bank]
         = (bankCycles v).[bank]).
Proof.
  intros Hwf Hsize Hfit. split.
  - rewrite Allocate_spec by assumption. cbv zeta.
    pose proof (padding_nonneg (currentBot v).[bank] boundary) as Hp.
    destruct Hwf as [[Hbot _] _].
    destruct (Z.leb_spec
                ((currentBot v).[bank] + padding (currentBot v).[bank] boundary + size)
                (currentTop v).[bank]) as [Hle | Hgt];
      destruct (Z.ltb_spec ((bankCycles v).[bank] + cycles) 8) as [Hlt | Hge];
      cbn [andb fst]; unfold nullptr; split; intros H; try reflexivity; lia.
  - intros Hnull.
    rewrite (Allocate_null_unchanged size boundary bank cycles v) by assumption.
    repeat split.
Qed.

(** At bank B1 after [ClearVRAM], a request of 32 bytes and 7 cycles
    gets 32 bytes, no padding and a counter of 1: the sum 1 + 7 does not
    exceed 8 and the bytes fit. *)
Lemma Allocate_fails_exactly_when_witness :
  (fst (Allocate 32 32 B1 7 (vram after_reset)) = nullptr <->
     (currentBot (vram after_reset)).[B1]
       + padding (currentBot (vram after_reset)).[B1] 32 + 32
       > (currentTop (vram after_reset)).[B1]
     \/ (bankCycles (vram after_reset)).[B1] + 7 >= 8)
  /\ (fst (Allocate 32 32 B1 7 (vram after_reset)) = nullptr ->
      snd (Allocate 32 32 B1 7 (vram after_reset)) = vram after_reset
      /\ (currentBot (snd (Allocate 32 32 B1 7 (vram after_reset)))).[B1]
         = (currentBot (vram after_reset)).[B1]
      /\ (bankCycles (snd (Allocate 32 32 B1 7 (vram after_reset)))).[B1]
         = (bankCycles (vram after_reset)).[B1]).
Proof.
  apply (Allocate_fails_exactly_when 32 32 B1 7 (vram after_reset)).
  - by_evaluation.
  - lia.
  - by_evaluation.
Defined.

(** C1 as stated fails at bank B1 after [ClearVRAM]: 32 bytes fit, the
    stored counter is 1 and 1 + 7 does not exceed 8, yet
    [Allocate(32, 32, B1, 7)] returns [nullptr]. *)
Lemma Allocate_refuses_cycles_that_reach_8 :
  ~ (fst (Allocate 32 32 B1 7 (vram after_reset)) = nullptr <->
       (currentBot (vram after_reset)).[B1]
         + padding (currentBot (vram after_reset)).[B1] 32 + 32
         > (currentTop (vram after_reset)).[B1]
       \/ (bankCycles (vram after_reset)).[B1] + 7 > 8).
Proof.
  intros [H _].
  assert (Hnull : fst (Allocate 32 32 B1 7 (vram after_reset)) = nullptr)
    by (vm_compute; reflexivity).
  specialize (H Hnull). vm_compute in H.
  destruct H as [H | H]; discriminate H.
Qed.

(** ** Sequences of allocations in one bank *)

Lemma bank_set_get a b : bank_set a b a.[b] = a.
Proof. destruct a, b; reflexivity. Qed.

Lemma bank_set_set a b x y : bank_set (bank_set a b x) b y = bank_set a b y.
Proof. destruct b; reflexivity. Qed.

Lemma footprint_app bot l1 l2 :
  footprint bot (l1 ++ l2) = footprint (footprint bot l1) l2.
Proof.
  revert bot. induction l1 as [| r l1 IH]; intros bot; cbn; [reflexivity | apply IH].
Qed.

Lemma footprint_ge bot reqs :
  Forall (fun r => 0 <= req_size r /\ 0 <= req_cycles r) reqs ->
  bot <= footprint bot reqs.
Proof.
  intros H. revert bot. induction H as [| r l [Hs _] _ IH]; intros bot; cbn; [lia |].
  pose proof (padding_nonneg bot (req_boundary r)).
  specialize (IH (bot + padding bot (req_boundary r) + req_size r)). lia.
Qed.

Lemma total_cycles_app l1 l2 :
  total_cycles (l1 ++ l2) = total_cycles l1 + total_cycles l2.
Proof.
  unfold total_cycles.
  induction l1 as [| r l1 IH]; cbn [app fold_right]; [reflexivity | rewrite IH; lia].
Qed.

Lemma total_cycles_nonneg reqs :
  Forall (fun r => 0 <= req_size r /\ 0 <= req_cycles r) reqs ->
  0 <= total_cycles reqs.
Proof.
  unfold total_cycles.
  induction 1 as [| r l [_ Hc] _ IH]; cbn [fold_right]; lia.
Qed.

(** The outcome of a list of requests that fits: the addresses are the
    [placements], the cursor ends at the [footprint], the counter has
    grown by the cycles asked for. *)
Lemma Allocate_all_fits bank reqs : forall v,
  bank_wf v bank -> - 2 ^ 7 <= (bankCycles v).[bank] < 2 ^ 7 ->
  Forall (fun r => 0 <= req_size r /\ 0 <= req_cycles r) reqs ->
  footprint (currentBot v).[bank] reqs <= (currentTop v).[bank] ->
  (bankCycles v).[bank] + total_cycles reqs < 8 ->
  Allocate_all bank reqs v =
    (placements (currentBot v).[bank] reqs,
     mkVRAM (bank_set (currentBot v) bank (footprint (currentBot v).[bank] reqs))
            (currentTop v)
            (bank_set (bankCycles v) bank ((bankCycles v).[bank] + total_cycles reqs))).
Proof.
  induction reqs as [| r rest IH]; intros v Hwf Hc Hreqs Hfit Hcyc.
  - cbn. rewrite Z.add_0_r, !bank_set_get. destruct v; reflexivity.
  - inversion Hreqs as [| r' l' [Hs Hcr] Hrest]; subst.
    cbn [Allocate_all footprint placements total_cycles fold_right] in *.
    fold (total_cycles rest) in *.
    pose proof (padding_nonneg (currentBot v).[bank] (req_boundary r)) as Hp.
    pose proof (footprint_ge
      ((currentBot v).[bank] + padding (currentBot v).[bank] (req_boundary r) + req_size r)
      rest Hrest) as Hge.
    pose proof (total_cycles_nonneg rest Hrest) as Hcn.
    destruct Hwf as [[Hbot Hbt] Htop].
    rewrite Allocate_spec by (repeat split; lia). cbv zeta.
    replace (_ <=? _) with true by (symmetry; apply Z.leb_le; lia).
    replace (_ <? 8) with true by (symmetry; apply Z.ltb_lt; lia).
    cbn [andb]. rewrite (int8_small ((bankCycles v).[bank] + req_cycles r)) by lia.
    rewrite IH; unfold bank_wf; cbn [currentBot currentTop bankCycles];
      rewrite ?bank_get_set_same; try assumption; try (repeat split; lia).
    rewrite !bank_set_set. f_equal. f_equal. f_equal. lia.
Qed.

(** Every address of [placements] lies at or above the starting cursor. *)
Lemma placements_above lo reqs :
  Forall (fun r => 0 <= req_size r /\ 0 <= req_cycles r) reqs ->
  Forall (fun x => lo <= fst x) (combine (placements lo reqs) reqs).
Proof.
  intros H. revert lo. induction H as [| r l [Hs _] _ IH]; intros lo; cbn; [constructor |].
  pose proof (padding_nonneg lo (req_boundary r)) as Hp.
  constructor; [cbn; lia |].
  eapply Forall_impl; [| apply IH]. cbn. intros x Hx. lia.
Qed.

Lemma placements_spaced lo reqs :
  Forall (fun r => 0 <= req_size r /\ 0 <= req_cycles r) reqs ->
  ForallOrdPairs (fun x y => fst x + req_size (snd x) <= fst y)
                 (combine (placements lo reqs) reqs).
Proof.
  intros H. revert lo. induction H as [| r l Hr Hl IH]; intros lo; cbn; constructor.
  - eapply Forall_impl; [| apply placements_above; exact Hl]. cbn. intros x Hx. lia.
  - apply IH.
Qed.

Lemma placements_length lo reqs :
  List.length (placements lo reqs) = List.length reqs.
Proof. revert lo. induction reqs as [| r l IH]; intros lo; cbn; [| rewrite IH]; reflexivity. Qed.

(** C2 (amended).  Take a list of requests for one bank such that the
    cursor, advanced by every request's padding and size, stays at or
    below the bank's ceiling, and such that the stored cycle counter plus
    all requested cycles stays below 8 (for a bank [ClearVRAM] left empty
    the counter is -1, so 8 cycles in total are admitted).  Then every
    call succeeds; each call returns the cursor moved up by its padding,
    advances the cursor by exactly padding plus size and adds its cycles
    to the counter; and each returned address is at least the requested
    size above every earlier one, so that no two byte ranges overlap. *)
Theorem Allocate_sequence_succeeds bank reqs v :
  bank_wf v bank -> - 2 ^ 7 <= (bankCycles v).[bank] < 2 ^ 7 ->
  Forall (fun r => 0 <= req_size r /\ 0 <= req_cycles r) reqs ->
  footprint (currentBot v).[bank] reqs <= (currentTop v).[bank] ->
  (bankCycles v).[bank] + total_cycles reqs < 8 ->
  let addrs := fst (Allocate_all bank reqs v) in
  List.length addrs = List.length reqs
  /\ Forall (fun a => a <> nullptr) addrs
  /\ (forall pre r post, reqs = pre ++ r :: post ->
        let v1 := snd (Allocate_all bank pre v) in
        let res := Allocate (req_size r) (req_boundary r) bank (req_cycles r) v1 in
        fst res <> nullptr
        /\ fst res = (currentBot v1).[bank]
                     + padding (currentBot v1).[bank] (req_boundary r)
        /\ (currentBot (snd res)).[bank]
           = (currentBot v1).[bank]
             + padding (currentBot v1).[bank] (req_boundary r) + req_size r
        /\ (bankCycles (snd res)).[bank] = (bankCycles v1).[bank] + req_cycles r)
  /\ ForallOrdPairs (fun x y => fst x + req_size (snd x) <= fst y)
                    (combine addrs reqs).
Proof.
  intros Hwf Hc Hreqs Hfit Hcyc addrs. subst addrs.
  rewrite Allocate_all_fits by assumption. cbn [fst].
  destruct Hwf as [[Hbot Hbt] Htop].
  split; [apply placements_length |]. split; [| split].
  - pose proof (placements_above (currentBot v).[bank] reqs Hreqs) as Habove.
    assert (Hall : forall l lo, 0 < lo ->
              Forall (fun r => 0 <= req_size r /\ 0 <= req_cycles r) l ->
              Forall (fun a => a <> nullptr) (placements lo l)).
    { induction l as [| r l IH]; intros lo Hlo Hl; cbn; constructor.
      - pose proof (padding_nonneg lo (req_boundary r)). unfold nullptr. lia.
      - inversion Hl as [| ? ? [Hs _] Hl']; subst.
        pose proof (padding_nonneg lo (req_boundary r)). apply IH; [lia | exact Hl']. }
    apply Hall; assumption.
  - intros pre r post Heq. subst reqs.
    apply Forall_app in Hreqs. destruct Hreqs as [Hpre Hrpost].
    inversion Hrpost as [| ? ? [Hs Hcr] Hpost]; subst.
    rewrite footprint_app in Hfit. cbn [footprint] in Hfit.
    rewrite total_cycles_app in Hcyc. cbn [total_cycles fold_right] in Hcyc.
    fold (total_cycles post) in Hcyc.
    pose proof (footprint_ge (currentBot v).[bank] pre Hpre) as Hge1.
    pose proof (padding_nonneg (footprint (currentBot v).[bank] pre) (req_boundary r))
      as Hp.
    pose proof (footprint_ge
      (footprint (currentBot v).[bank] pre
       + padding (footprint (currentBot v).[bank] pre) (req_boundary r) + req_size r)
      post Hpost) as Hge2.
    pose proof (total_cycles_nonneg pre Hpre) as Hn1.
    pose proof (total_cycles_nonneg post Hpost) as Hn2.
    rewrite Allocate_all_fits; try assumption; try (repeat split; lia).
    cbn [snd currentBot currentTop bankCycles]. rewrite !bank_get_set_same.
    rewrite Allocate_spec;
      unfold bank_wf; cbn [currentBot currentTop bankCycles];
      rewrite ?bank_get_set_same; try (repeat split; lia).
    cbv zeta. cbn [currentBot currentTop bankCycles]. rewrite ?bank_get_set_same.
    replace (_ <=? _) with true by (symmetry; apply Z.leb_le; lia).
    replace (_ <? 8) with true by (symmetry; apply Z.ltb_lt; lia).
    cbn [andb fst snd currentBot bankCycles]. rewrite ?bank_get_set_same.
    rewrite int8_small by lia. unfold nullptr. repeat split; lia.
  - apply placements_spaced. exact Hreqs.
Qed.

(** Two requests of 0x8000 bytes and one cycle each in bank A0 after
    [ClearVRAM]. *)
Lemma Allocate_sequence_succeeds_witness :
  let reqs := [mkRequest 0x8000 0x800 1; mkRequest 0x8000 0x800 1] in
  let v := vram after_reset in
  let addrs := fst (Allocate_all A0 reqs v) in
  List.length addrs = List.length reqs
  /\ Forall (fun a => a <> nullptr) addrs
  /\ (forall pre r post, reqs = pre ++ r :: post ->
        let v1 := snd (Allocate_all A0 pre v) in
        let res := Allocate (req_size r) (req_boundary r) A0 (req_cycles r) v1 in
        fst res <> nullptr
        /\ fst res = (currentBot v1).[A0]
                     + padding (currentBot v1).[A0] (req_boundary r)
        /\ (currentBot (snd res)).[A0]
           = (currentBot v1).[A0]
             + padding (currentBot v1).[A0] (req_boundary r) + req_size r
        /\ (bankCycles (snd res)).[A0] = (bankCycles v1).[A0] + req_cycles r)
  /\ ForallOrdPairs (fun x y => fst x + req_size (snd x) <= fst y)
                    (combine addrs reqs).
Proof.
  apply (Allocate_sequence_succeeds A0
           [mkRequest 0x8000 0x800 1; mkRequest 0x8000 0x800 1] (vram after_reset)).
  - by_evaluation.
  - by_evaluation.
  - repeat constructor; cbn; lia.
  - by_evaluation.
  - by_evaluation.
Defined.

(** C2 as stated fails twice after [ClearVRAM].  In bank A0 two requests
    of 1 and 0x1FFFF bytes, no cycles, have a total size equal to the
    bank's capacity, yet the second returns [nullptr]: the 31 bytes of
    padding behind the first are lost.  In bank B1 one request of 32
    bytes and 7 cycles returns [nullptr], though its bytes fit and its
    cycles are less than 8. *)
Lemma Allocate_sequence_within_capacity_fails :
  let v := vram after_reset in
  (total_size [mkRequest 1 32 0; mkRequest 0x1FFFF 32 0] <= GetAvailable v A0
   /\ total_cycles [mkRequest 1 32 0; mkRequest 0x1FFFF 32 0] <= 8
   /\ fst (Allocate_all A0 [mkRequest 1 32 0; mkRequest 0x1FFFF 32 0] v)
      = [VDP2_VRAM_A0 saturn; nullptr])
  /\ (total_size [mkRequest 32 32 7] <= GetAvailable v B1
      /\ total_cycles [mkRequest 32 32 7] <= 8
      /\ fst (Allocate_all B1 [mkRequest 32 32 7] v) = [nullptr]).
Proof.
  vm_compute. repeat split; discriminate.
Qed.

(** ** [ClearVRAM] *)

(** C3 (amended).  After [ClearVRAM], whatever the state before: every
    bank has the available bytes it had at program start; every screen's
    map and cell address, the line scroll table addresses of NBG0 and
    NBG1 and the coefficient table address of RBG0 equal the pointer
    [VDP2_VRAM_A0 - 1], which lies below the lowest VRAM address; and the
    stored cycle counters are -1 for the banks A0, A1 and B0 and 1 for
    B1, the bank whose cycles are reserved for the ASCII screen. *)
Theorem ClearVRAM_resets ext st :
  0 < VDP2_VRAM_A0 ext <= 2 ^ 32 ->
  let st' := snd (ClearVRAM ext st) in
  (forall b, GetAvailable (vram st') b = GetAvailable (VRAM_initial ext) b)
  /\ (forall scr, MapAddress (the_screen scr st') = unallocated ext
                  /\ CellAddress (the_screen scr st') = unallocated ext)
  /\ NBG0_LineAddress st' = unallocated ext
  /\ NBG1_LineAddress st' = unallocated ext
  /\ RBG0_KtableAddress st' = unallocated ext
  /\ unallocated ext < VDP2_VRAM_A0 ext
  /\ bankCycles (vram st') = mkBanks (-1) (-1) (-1) 1.
Proof.
  intros HA0 st'. subst st'.
  destruct st as [v [s0 s1 s2 s3 s4] l0 l1 kt cc rc fr tr].
  destruct s0 as [m0 c0 p0 i0 ca0 ma0], s1 as [m1 c1 p1 i1 ca1 ma1],
           s2 as [m2 c2 p2 i2 ca2 ma2], s3 as [m3 c3 p3 i3 ca3 ma3],
           s4 as [m4 c4 p4 i4 ca4 ma4].
  assert (Hsent : unallocated ext < VDP2_VRAM_A0 ext).
  { unfold unallocated. rewrite uint32_small; lia. }
  destruct p0, p1, p2, p3, p4;
    (split; [intros b; destruct b; reflexivity |];
     split; [intros scr; destruct scr; split; reflexivity |];
     split; [reflexivity |]; split; [reflexivity |]; split; [reflexivity |];
     split; [exact Hsent | reflexivity]).
Qed.

Lemma ClearVRAM_resets_witness :
  let st' := snd (ClearVRAM saturn start) in
  (forall b, GetAvailable (vram st') b = GetAvailable (VRAM_initial saturn) b)
  /\ (forall scr, MapAddress (the_screen scr st') = unallocated saturn
                  /\ CellAddress (the_screen scr st') = unallocated saturn)
  /\ NBG0_LineAddress st' = unallocated saturn
  /\ NBG1_LineAddress st' = unallocated saturn
  /\ RBG0_KtableAddress st' = unallocated saturn
  /\ unallocated saturn < VDP2_VRAM_A0 saturn
  /\ bankCycles (vram st') = mkBanks (-1) (-1) (-1) 1.
Proof.
  apply (ClearVRAM_resets saturn start). by_evaluation.
Defined.

(** C3 as stated fails at program start: after [ClearVRAM] no bank's
    stored counter is 0, so the counters are not 0 for three banks and 1
    for the fourth. *)
Lemma ClearVRAM_counters_are_not_zero :
  ~ (exists b1, (bankCycles (vram after_reset)).[b1] = 1
                /\ forall b, b <> b1 -> (bankCycles (vram after_reset)).[b] = 0).
Proof.
  intros [b1 [_ H]].
  destruct b1.
  - specialize (H A1). vm_compute in H. assert (A1 <> A0) by discriminate.
    specialize (H H0). discriminate H.
  - specialize (H A0). vm_compute in H. assert (A0 <> A1) by discriminate.
    specialize (H H0). discriminate H.
  - specialize (H A0). vm_compute in H. assert (A0 <> B0) by discriminate.
    specialize (H H0). discriminate H.
  - specialize (H A0). vm_compute in H. assert (A0 <> B1) by discriminate.
    specialize (H H0). discriminate H.
Qed.

(** ** Automatic placement of cell data *)

Lemma set_vram_same st : set_vram (vram st) st = st.
Proof. destruct st; reflexivity. Qed.

Lemma padding_32 bot : padding bot 32 <= 32.
Proof.
  unfold padding. destruct (_ =? 0); [lia |].
  change (uint32_t (32 - 1)) with (Z.ones 5).
  rewrite Z.land_ones by lia.
  pose proof (Z.mod_pos_bound (uint32_t bot) (2 ^ 5) eq_refl).
  rewrite uint32_small; lia.
Qed.

(** One attempt of [AutoAllocateCell]: either it returns [nullptr] and
    the state is the one before, or it returns another address. *)
Lemma in_vram_Allocate size boundary bank cycles st :
  bank_wf (vram st) bank -> 0 <= size ->
  size + padding (currentBot (vram st)).[bank] boundary < 2 ^ 32 ->
  in_vram (Allocate size boundary bank cycles) st =
    if fst (Allocate size boundary bank cycles (vram st)) =? nullptr
    then (nullptr, st)
    else (fst (Allocate size boundary bank cycles (vram st)),
          set_vram (snd (Allocate size boundary bank cycles (vram st))) st).
Proof.
  intros Hwf Hs Hfit. unfold in_vram.
  pose proof (Allocate_null_unchanged size boundary bank cycles (vram st) Hwf Hs Hfit)
    as Hnull.
  destruct (Allocate size boundary bank cycles (vram st)) as [a v'].
  cbn [fst snd] in *.
  destruct (Z.eqb_spec a nullptr) as [-> | Hne]; [| reflexivity].
  rewrite Hnull by reflexivity. rewrite set_vram_same. reflexivity.
Qed.

(** [AutoAllocateCell] is the first fit in its order of banks. *)
Lemma AutoAllocateCell_run info screen st :
  vram_wf (vram st) -> 0 <= CellByteSize info < 2 ^ 32 - 32 ->
  AutoAllocateCell info screen st =
    match first_fit (cell_bank_order screen) (CellByteSize info) 32
                    (cell_cycles screen (ColorMode info)) (vram st) with
    | Some (bank, a, v') => (a, set_vram v' st)
    | None => (nullptr, snd (Assert (cell_failure screen) st))
    end.
Proof.
  intros Hwf [Hs Hlim].
  assert (Htry : forall bank cycles,
    in_vram (Allocate (CellByteSize info) 32 bank cycles) st =
      if fst (Allocate (CellByteSize info) 32 bank cycles (vram st)) =? nullptr
      then (nullptr, st)
      else (fst (Allocate (CellByteSize info) 32 bank cycles (vram st)),
            set_vram (snd (Allocate (CellByteSize info) 32 bank cycles (vram st))) st)).
  { intros bank cycles. apply in_vram_Allocate; [apply Hwf | exact Hs |].
    pose proof (padding_32 (currentBot (vram st)).[bank]). lia. }
  unfold AutoAllocateCell.
  destruct screen; cbn [cell_bank_order first_fit cell_failure]; unfold bind;
    cbv zeta;
    fold (cell_cycles NBG0 (ColorMode info));
    change (cell_cycles NBG1 (ColorMode info)) with (cell_cycles NBG0 (ColorMode info));
    change (cell_cycles NBG2 (ColorMode info)) with (cell_cycles NBG0 (ColorMode info));
    change (cell_cycles NBG3 (ColorMode info)) with (cell_cycles NBG0 (ColorMode info));
    change (cell_cycles RBG0 (ColorMode info)) with 8;
    repeat (rewrite Htry;
            match goal with
            | |- context [fst (Allocate ?s ?b ?k ?c ?v) =? nullptr] =>
                destruct (fst (Allocate s b k c v) =? nullptr) eqn:?
            end;
            unfold ret; cbv beta iota;
            rewrite ?Z.eqb_refl;
            repeat match goal with
                   | H : (?a =? nullptr) = false |- context [?a =? nullptr] =>
                       rewrite H; cbv beta iota
                   end);
    reflexivity.
Qed.

(** C5.  [AutoAllocateCell] asks for 1, 2 or 4 cycles for the colour
    modes Paletted16, Paletted256 and RGB555 of a normal screen and for
    all 8 cycles for RBG0, whatever its colour mode; for RBG0 it tries
    the banks A0, A1, B0, B1 in this order (B0, A1, A0, B1 for the other
    screens) and returns the address of the first bank whose [Allocate]
    succeeds, with that call's effect on the state and no other; when no
    bank succeeds it raises its assert and returns [nullptr]. *)
Theorem AutoAllocateCell_first_fit info screen st :
  vram_wf (vram st) -> 0 <= CellByteSize info < 2 ^ 32 - 32 ->
  cell_cycles NBG0 Paletted16 = 1 /\ cell_cycles NBG0 Paletted256 = 2
  /\ cell_cycles NBG0 RGB555 = 4
  /\ (forall mode, cell_cycles RBG0 mode = 8)
  /\ cell_bank_order RBG0 = [A0; A1; B0; B1]
  /\ (screen <> RBG0 -> cell_cycles screen (ColorMode info)
                        = cell_cycles NBG0 (ColorMode info))
  /\ AutoAllocateCell info screen st =
     match first_fit (cell_bank_order screen) (CellByteSize info) 32
                     (cell_cycles screen (ColorMode info)) (vram st) with
     | Some (bank, a, v') => (a, set_vram v' st)
     | None => (nullptr, snd (Assert (cell_failure screen) st))
     end.
Proof.
  intros Hwf Hsize.
  repeat (split; [try reflexivity |]).
  - destruct screen; intros H; try reflexivity; congruence.
  - apply AutoAllocateCell_run; assumption.
Qed.

Lemma AutoAllocateCell_first_fit_witness :
  let info := mkInfo Paletted256 0 0 0 64 64 0x1000 in
  cell_cycles NBG0 Paletted16 = 1 /\ cell_cycles NBG0 Paletted256 = 2
  /\ cell_cycles NBG0 RGB555 = 4
  /\ (forall mode, cell_cycles RBG0 mode = 8)
  /\ cell_bank_order RBG0 = [A0; A1; B0; B1]
  /\ (RBG0 <> RBG0 -> cell_cycles RBG0 (ColorMode info)
                      = cell_cycles NBG0 (ColorMode info))
  /\ AutoAllocateCell info RBG0 after_reset =
     match first_fit (cell_bank_order RBG0) (CellByteSize info) 32
                     (cell_cycles RBG0 (ColorMode info)) (vram after_reset) with
     | Some (bank, a, v') => (a, set_vram v' after_reset)
     | None => (nullptr, snd (Assert (cell_failure RBG0) after_reset))
     end.
Proof.
  apply (AutoAllocateCell_first_fit (mkInfo Paletted256 0 0 0 64 64 0x1000) RBG0
           after_reset).
  - intros b. destruct b; by_evaluation.
  - by_evaluation.
Defined.

(** ** Automatic placement of map data *)

(** The request [AutoAllocateMap] computes, without its conversions. *)
Lemma AutoAllocateMap_run ext info screen st :
  0 <= MapWidth info -> 0 <= MapHeight info ->
  MapWidth info * MapHeight info * 4 < 2 ^ 32 ->
  AutoAllocateMap ext info screen st
  = AutoAllocateMap_banks (map_size ext info) (map_boundary ext info) screen st.
Proof.
  intros Hw Hh Hfit. unfold AutoAllocateMap, map_size, map_boundary. cbv zeta.
  rewrite !Z.shiftl_mul_pow2 by lia.
  assert (Hwh : 0 <= MapHeight info * MapWidth info) by lia.
  f_equal.
  - rewrite (uint32_small (MapHeight info * MapWidth info * 2 ^ 1)) by lia.
    destruct (MapMode info =? PNB_2WORD ext); [rewrite uint32_small |]; lia.
  - destruct (CharSize info =? CHAR_SIZE_1x1 ext), (MapMode info =? PNB_2WORD ext),
             (PlaneSize info =? PL_SIZE_2x2 ext), (PlaneSize info =? PL_SIZE_2x1 ext);
      reflexivity.
Qed.

(** ** Page and plane addresses *)

Lemma uint8_range x : 0 <= uint8_t x < 2 ^ 8.
Proof. unfold uint8_t. apply Z.mod_pos_bound. reflexivity. Qed.

Lemma uint32_idem x : uint32_t (uint32_t x) = uint32_t x.
Proof. unfold uint32_t. apply Z.mod_mod. discriminate. Qed.

Lemma uint32_shiftl_small x k :
  0 <= k -> 0 <= x -> x * 2 ^ k < 2 ^ 32 -> uint32_t (Z.shiftl x k) = x * 2 ^ k.
Proof.
  intros Hk Hx Hlt. rewrite Z.shiftl_mul_pow2 by exact Hk.
  apply uint32_small. split; [| exact Hlt].
  apply Z.mul_nonneg_nonneg; [exact Hx | apply Z.pow_nonneg; lia].
Qed.

Lemma uint32_add_l x y : uint32_t (uint32_t x + y) = uint32_t (x + y).
Proof. unfold uint32_t. apply Zplus_mod_idemp_l. Qed.

(** C10.  Of the two accessors only [GetPlaneAddress] has a value:
    [GetPageAddress] ends in the sum of two pointers and cannot be
    instantiated.  For every screen, [GetPlaneAddress(index)] returns
    [nullptr] while the screen's map address holds the pointer
    [VDP2_VRAM_A0 - 1], and more generally while it lies below
    [VDP2_VRAM_A0]; only for a map address at or above [VDP2_VRAM_A0]
    does it return the map address plus the offset of the plane, which
    is derived from the index and the screen's stored geometry. *)
Theorem GetPlaneAddress_unallocated ext scr index st :
  0 < VDP2_VRAM_A0 ext <= 2 ^ 32 ->
  let s := the_screen scr st in
  (MapAddress s = unallocated ext -> GetPlaneAddress ext scr index st = nullptr)
  /\ (uint32_t (MapAddress s) < VDP2_VRAM_A0 ext ->
        GetPlaneAddress ext scr index st = nullptr)
  /\ (VDP2_VRAM_A0 ext <= uint32_t (MapAddress s) ->
        GetPlaneAddress ext scr index st
        = uint32_t (MapAddress s + plane_offset ext (Info s) index)).
Proof.
  intros HA0 s.
  assert (Hbelow : uint32_t (MapAddress s) < VDP2_VRAM_A0 ext ->
            GetPlaneAddress ext scr index st = nullptr).
  { intros Hlt. unfold GetPlaneAddress. fold s. cbv zeta.
    apply Z.ltb_lt in Hlt. rewrite Hlt. reflexivity. }
  split; [| split].
  - intros Heq. apply Hbelow. rewrite Heq. unfold unallocated.
    rewrite uint32_idem, uint32_small; lia.
  - exact Hbelow.
  - intros Hge. unfold GetPlaneAddress. fold s. cbv zeta.
    replace (uint32_t (MapAddress s) <? VDP2_VRAM_A0 ext) with false
      by (symmetry; apply Z.ltb_ge; exact Hge).
    pose proof (uint8_range index) as Hi.
    unfold plane_offset, page_offset.
    rewrite (uint32_small (uint8_t index)) by lia.
    rewrite (uint32_small (2048 * uint8_t index)) by lia.
    rewrite uint32_add_l.
    destruct (CharSize (Info s) =? CHAR_SIZE_1x1 ext),
             (MapMode (Info s) =? PNB_2WORD ext),
             (PlaneSize (Info s) =? PL_SIZE_2x2 ext),
             (PlaneSize (Info s) =? PL_SIZE_2x1 ext);
      repeat match goal with
             | |- context [uint32_t (Z.shiftl ?x ?k)] =>
                 rewrite (uint32_shiftl_small x k) by lia
             end;
      f_equal; lia.
Qed.

Lemma GetPlaneAddress_unallocated_witness :
  let s := the_screen NBG1 after_reset in
  (MapAddress s = unallocated saturn -> GetPlaneAddress saturn NBG1 2 after_reset = nullptr)
  /\ (uint32_t (MapAddress s) < VDP2_VRAM_A0 saturn ->
        GetPlaneAddress saturn NBG1 2 after_reset = nullptr)
  /\ (VDP2_VRAM_A0 saturn <= uint32_t (MapAddress s) ->
        GetPlaneAddress saturn NBG1 2 after_reset
        = uint32_t (MapAddress s + plane_offset saturn (Info s) 2)).
Proof.
  apply (GetPlaneAddress_unallocated saturn NBG1 2 after_reset).
  by_evaluation.
Defined.

(** After the two loads above NBG1's map lies 0x2000 bytes into bank A0;
    its planes are 0x2000 bytes each (1x1 cells, one-word entries, 1x1
    planes).  A screen given a map address by hand behaves the same;
    NBG2's stored geometry has two-word entries, hence planes of 0x4000
    bytes. *)
Example GetPlaneAddress_after_load :
  MapAddress (the_screen NBG1 after_two_loads) = VDP2_VRAM_A0 saturn + 0x2000
  /\ GetPlaneAddress saturn NBG1 1 after_two_loads = VDP2_VRAM_A0 saturn + 0x4000
  /\ GetPlaneAddress saturn NBG1 3 after_two_loads = VDP2_VRAM_A0 saturn + 0x8000
  /\ GetPlaneAddress saturn NBG2 3 after_two_loads = nullptr
  /\ GetPlaneAddress saturn NBG2 1
       (snd (SetMapAddress NBG2 (VDP2_VRAM_A1 saturn) 0x8000 after_reset))
     = VDP2_VRAM_A1 saturn + 0x4000.
Proof. by_evaluation. Qed.

(** ** Opacity *)

Lemma uint16_land x : uint16_t x = Z.land x (Z.ones 16).
Proof. unfold uint16_t. rewrite Z.land_ones by lia. reflexivity. Qed.

Lemma uint16_small x : 0 <= x < 2 ^ 16 -> uint16_t x = x.
Proof. intros H. unfold uint16_t. apply Z.mod_small. exact H. Qed.

(** Clearing a screen's bits of a 16-bit mask leaves none of them set. *)
Lemma mask_cleared c on : Z.land (uint16_t (Z.land c (Z.lnot on))) on = 0.
Proof.
  apply Z.bits_inj'. intros n Hn.
  rewrite uint16_land, !Z.land_spec, Z.lnot_spec, Z.bits_0 by exact Hn.
  destruct (Z.testbit on n), (Z.testbit c n), (Z.testbit (Z.ones 16) n); reflexivity.
Qed.

(** Setting a screen's bits in a 16-bit mask leaves all of them set. *)
Lemma mask_set c on : 0 <= on < 2 ^ 16 -> Z.land (uint16_t (Z.lor c on)) on = on.
Proof.
  intros Hon. apply Z.bits_inj'. intros n Hn.
  rewrite uint16_land, !Z.land_spec, Z.lor_spec.
  destruct (Z.testbit on n) eqn:E; [| rewrite Bool.andb_false_r; reflexivity].
  assert (Hlt : n < 16).
  { destruct (Z_lt_le_dec n 16) as [H | H]; [exact H |].
    assert (Hz : on <> 0) by (intros ->; rewrite Z.bits_0 in E; discriminate).
    rewrite Z.bits_above_log2 in E; [discriminate | lia |].
    apply Z.lt_le_trans with 16; [| exact H].
    apply Z.log2_lt_pow2; lia. }
  rewrite Z.ones_spec_low by lia.
  rewrite Bool.orb_true_r. reflexivity.
Qed.

Lemma Screen_eqb_refl scr : Screen_eqb scr scr = true.
Proof. destruct scr; reflexivity. Qed.

(** The ratio [SetOpacity] passes to [slColRate] for an opacity from 0.0
    up to, not including, 1.0. *)
Lemma opacity_rate raw :
  0 <= raw < 65536 ->
  uint16_t (31 - uint16_t (Z.shiftr raw 11)) = 31 - raw / 2048
  /\ 0 <= 31 - raw / 2048 <= 31.
Proof.
  intros Hraw. rewrite Z.shiftr_div_pow2 by lia. change (2 ^ 11) with 2048.
  assert (Hq : 0 <= raw / 2048 <= 31).
  { split; [apply Z.div_pos; lia |].
    apply Z.lt_succ_r. apply Z.div_lt_upper_bound; lia. }
  rewrite (uint16_small (raw / 2048)) by lia.
  rewrite uint16_small by lia. lia.
Qed.

Lemma SetOpacity_blend ext scr opacity st :
  0 <= RawValue opacity < 65536 ->
  SetOpacity ext scr opacity st =
    (tt, set_trace
           (trace st ++ [slColRate scr (31 - RawValue opacity / 2048);
                         slColorCalcOn
                           (uint16_t (Z.lor (ColorCalcScrolls st) (ScreenON ext scr)))])
           (set_ColorCalcScrolls
              (uint16_t (Z.lor (ColorCalcScrolls st) (ScreenON ext scr))) st)).
Proof.
  intros Hraw. unfold SetOpacity, Fxp_ltb, Fxp_geb. cbn [RawValue Fxp_0 Fxp_1].
  replace (RawValue opacity <? 0) with false by (symmetry; apply Z.ltb_ge; lia).
  rewrite Z.geb_leb.
  replace (65536 <=? RawValue opacity) with false by (symmetry; apply Z.leb_gt; lia).
  destruct (opacity_rate (RawValue opacity) Hraw) as [Hrate _].
  unfold bind, emit, modify, get.
  cbn [set_trace set_ColorCalcScrolls trace ColorCalcScrolls vram screens
       NBG0_LineAddress NBG1_LineAddress RBG0_KtableAddress VDP2_RAMCTL cram_free].
  rewrite Hrate, <- app_assoc. reflexivity.
Qed.

(** C9.  [SetOpacity] leaves everything as it is for a negative
    opacity.  For an opacity of 1.0 or more it clears the screen's bits
    of [ColorCalcScrolls] and passes the mask on: blending is off for
    the screen, and its ratio is not touched.  For an opacity from 0.0
    up to 1.0 it sets the screen's bits and passes the mask on, and it
    sets the screen's ratio to 31 minus the opacity's raw value divided
    by 2048, rounded down: one of the 32 ratios 0..31.  The ratio does
    not grow when the opacity grows, and for the opacity 0.5 it is the
    integer part of 31 times (1 - 0.5). *)
Theorem SetOpacity_ratio ext scr opacity st :
  0 <= ScreenON ext scr < 2 ^ 16 ->
  let st' := snd (SetOpacity ext scr opacity st) in
  (RawValue opacity < RawValue Fxp_0 -> st' = st)
  /\ (RawValue Fxp_1 <= RawValue opacity ->
        Z.land (ColorCalcScrolls st') (ScreenON ext scr) = 0
        /\ ColorCalcOn_of (trace st') = Some (ColorCalcScrolls st')
        /\ ColRate_of scr (trace st') = ColRate_of scr (trace st))
  /\ (RawValue Fxp_0 <= RawValue opacity < RawValue Fxp_1 ->
        Z.land (ColorCalcScrolls st') (ScreenON ext scr) = ScreenON ext scr
        /\ ColorCalcOn_of (trace st') = Some (ColorCalcScrolls st')
        /\ ColRate_of scr (trace st') = Some (31 - RawValue opacity / 2048)
        /\ 0 <= 31 - RawValue opacity / 2048 <= 31)
  /\ (forall opacity2 st2,
        RawValue Fxp_0 <= RawValue opacity <= RawValue opacity2 ->
        RawValue opacity2 < RawValue Fxp_1 ->
        exists r r2,
          ColRate_of scr (trace st') = Some r
          /\ ColRate_of scr (trace (snd (SetOpacity ext scr opacity2 st2))) = Some r2
          /\ r2 <= r)
  /\ ColRate_of scr (trace (snd (SetOpacity ext scr Fxp_half st)))
     = Some (31 * (RawValue Fxp_1 - RawValue Fxp_half) / RawValue Fxp_1).
Proof.
  intros Hon st'. subst st'. cbn [RawValue Fxp_0 Fxp_1 Fxp_half].
  assert (Hrate : forall o s, 0 <= RawValue o < 65536 ->
            ColRate_of scr (trace (snd (SetOpacity ext scr o s)))
            = Some (31 - RawValue o / 2048)).
  { intros o s Ho. rewrite SetOpacity_blend by exact Ho. cbn [snd trace set_trace].
    unfold ColRate_of. rewrite fold_left_app. cbn [fold_left].
    rewrite Screen_eqb_refl. reflexivity. }
  split; [| split; [| split; [| split]]].
  - intros Hneg. unfold SetOpacity, Fxp_ltb. cbn [RawValue Fxp_0].
    replace (RawValue opacity <? 0) with true by (symmetry; apply Z.ltb_lt; lia).
    reflexivity.
  - intros Hone. unfold SetOpacity, Fxp_ltb, Fxp_geb. cbn [RawValue Fxp_0 Fxp_1].
    replace (RawValue opacity <? 0) with false by (symmetry; apply Z.ltb_ge; lia).
    rewrite Z.geb_leb.
    replace (65536 <=? RawValue opacity) with true by (symmetry; apply Z.leb_le; lia).
    unfold bind, emit, modify, get.
    cbn [snd set_trace set_ColorCalcScrolls trace ColorCalcScrolls vram screens
         NBG0_LineAddress NBG1_LineAddress RBG0_KtableAddress VDP2_RAMCTL cram_free].
    split; [apply mask_cleared |].
    unfold ColorCalcOn_of, ColRate_of. rewrite !fold_left_app. split; reflexivity.
  - intros Hin. rewrite SetOpacity_blend by exact Hin.
    cbn [snd trace set_trace ColorCalcScrolls set_ColorCalcScrolls].
    split; [apply mask_set; exact Hon |].
    split; [unfold ColorCalcOn_of; rewrite fold_left_app; reflexivity |].
    split; [| apply opacity_rate; exact Hin].
    rewrite <- (Hrate opacity st Hin). rewrite SetOpacity_blend by exact Hin. reflexivity.
  - intros opacity2 st2 H1 H2.
    exists (31 - RawValue opacity / 2048), (31 - RawValue opacity2 / 2048).
    split; [apply Hrate; lia |]. split; [apply Hrate; lia |].
    assert (RawValue opacity / 2048 <= RawValue opacity2 / 2048)
      by (apply Z.div_le_mono; lia).
    lia.
  - rewrite Hrate by (cbn; lia). reflexivity.
Qed.

Lemma SetOpacity_ratio_witness :
  let st' := snd (SetOpacity saturn NBG1 Fxp_half after_reset) in
  (RawValue Fxp_half < RawValue Fxp_0 -> st' = after_reset)
  /\ (RawValue Fxp_1 <= RawValue Fxp_half ->
        Z.land (ColorCalcScrolls st') (ScreenON saturn NBG1) = 0
        /\ ColorCalcOn_of (trace st') = Some (ColorCalcScrolls st')
        /\ ColRate_of NBG1 (trace st') = ColRate_of NBG1 (trace after_reset))
  /\ (RawValue Fxp_0 <= RawValue Fxp_half < RawValue Fxp_1 ->
        Z.land (ColorCalcScrolls st') (ScreenON saturn NBG1) = ScreenON saturn NBG1
        /\ ColorCalcOn_of (trace st') = Some (ColorCalcScrolls st')
        /\ ColRate_of NBG1 (trace st') = Some (31 - RawValue Fxp_half / 2048)
        /\ 0 <= 31 - RawValue Fxp_half / 2048 <= 31)
  /\ (forall opacity2 st2,
        RawValue Fxp_0 <= RawValue Fxp_half <= RawValue opacity2 ->
        RawValue opacity2 < RawValue Fxp_1 ->
        exists r r2,
          ColRate_of NBG1 (trace st') = Some r
          /\ ColRate_of NBG1 (trace (snd (SetOpacity saturn NBG1 opacity2 st2)))
             = Some r2
          /\ r2 <= r)
  /\ ColRate_of NBG1 (trace (snd (SetOpacity saturn NBG1 Fxp_half after_reset)))
     = Some (31 * (RawValue Fxp_1 - RawValue Fxp_half) / RawValue Fxp_1).
Proof.
  apply (SetOpacity_ratio saturn NBG1 Fxp_half after_reset). by_evaluation.
Defined.

(** ** Functions that only make calls and stores *)

Lemma set_trace_same st : set_trace (trace st) st = st.
Proof. destruct st; reflexivity. Qed.

Lemma emits_ret : emits (ret tt) (fun _ => []).
Proof. intros st. unfold ret. rewrite app_nil_r, set_trace_same. reflexivity. Qed.

Lemma emits_emit e : emits (emit e) (fun _ => [e]).
Proof. intros st. reflexivity. Qed.

(** A function that emits events which do not depend on the trace, then
    another one. *)
Lemma emits_seq f g ef eg :
  emits f ef -> emits g eg ->
  (forall st t, eg (set_trace t st) = eg st) ->
  emits (f ;; g) (fun st => ef st ++ eg st).
Proof.
  intros Hf Hg Hind st. unfold bind. rewrite Hf, Hg.
  cbn [trace set_trace]. rewrite Hind, <- app_assoc. reflexivity.
Qed.

Lemma for_loop_emits n body evs :
  (forall i, emits (body i) (fun _ => evs i)) ->
  emits (for_loop n body) (fun _ => flat_map evs (seq 0 n)).
Proof.
  intros Hbody. induction n as [| n IH]; intros st.
  - cbn. unfold ret. rewrite app_nil_r, set_trace_same. reflexivity.
  - cbn [for_loop]. unfold bind. rewrite IH, Hbody.
    cbn [trace set_trace]. rewrite seq_S, flat_map_app. cbn [flat_map Nat.add].
    rewrite app_nil_r, <- app_assoc. reflexivity.
Qed.

Lemma flat_map_singleton {A B : Type} (f : A -> B) l :
  flat_map (fun x => [f x]) l = map f l.
Proof. induction l as [| x l IH]; cbn; [| rewrite IH]; reflexivity. Qed.

Lemma Cell2VRAM_emits cellData cellAdr size :
  emits (Cell2VRAM cellData cellAdr size)
        (fun _ => Cell2VRAM_events cellData cellAdr size).
Proof.
  intros st. unfold Cell2VRAM, Cell2VRAM_events.
  rewrite (for_loop_emits _ _
             (fun i => [Store8 (uint32_t (cellAdr + Z.of_nat i)) (nth i cellData 0)])).
  - rewrite flat_map_singleton. reflexivity.
  - intros i st'. reflexivity.
Qed.

Lemma Map2VRAM_emits info mapData mapAdr paloff mapoff :
  emits (Map2VRAM info mapData mapAdr paloff mapoff)
        (fun _ => Map2VRAM_events info mapData mapAdr paloff mapoff).
Proof.
  intros st. unfold Map2VRAM, Map2VRAM_events. cbv zeta.
  apply (for_loop_emits _ _
           (fun i => map (fun j => map_store info mapData mapAdr paloff mapoff
                                     (i * Z.to_nat (MapWidth info) + j)%nat)
                         (seq 0 (Z.to_nat (MapWidth info))))).
  intros i st'.
  rewrite (for_loop_emits _ _
             (fun j => [map_store info mapData mapAdr paloff mapoff
                          (i * Z.to_nat (MapWidth info) + j)%nat])).
  - rewrite flat_map_singleton. reflexivity.
  - intros j st''. unfold map_store. destruct (negb (MapMode info =? 0)); reflexivity.
Qed.

Lemma SetPlanes_emits scr a b c d :
  emits (SetPlanes scr a b c d) (fun _ => SetPlanes_events scr a b c d).
Proof. intros st. destruct scr; reflexivity. Qed.

Lemma SetMapLayout_emits ext scr a b c d :
  emits (SetMapLayout ext scr a b c d)
        (fun st => SetPlanes_events scr
                     (GetPlaneAddress ext scr a st) (GetPlaneAddress ext scr b st)
                     (GetPlaneAddress ext scr c st) (GetPlaneAddress ext scr d st)).
Proof. intros st. unfold SetMapLayout, bind, get. apply SetPlanes_emits. Qed.

Lemma Init_emits scr info :
  emits (Init scr info) (fun st => Init_events scr info (the_screen scr st)).
Proof.
  intros st. unfold Init, bind, get, emit, modify.
  destruct scr;
    cbn [Init_events set_trace trace vram screens NBG0_LineAddress NBG1_LineAddress
         RBG0_KtableAddress ColorCalcScrolls VDP2_RAMCTL cram_free];
    rewrite <- ?app_assoc; reflexivity.
Qed.

(** [SetPlanesDefault] sets the planes of the default layout. *)
Lemma SetPlanesDefault_layout ext scr info st :
  SetPlanesDefault ext scr info st =
    let '(a, b, c, d) :=
      default_layout ext (MapWidth info) (MapHeight info) (CharSize info)
                     (PlaneSize info) in
    SetMapLayout ext scr a b c d st.
Proof.
  unfold SetPlanesDefault, default_layout, plane_capacity. cbv zeta.
  destruct (CharSize info =? CHAR_SIZE_1x1 ext), (PlaneSize info =? PL_SIZE_2x2 ext),
           (PlaneSize info =? PL_SIZE_2x1 ext);
    cbn -[Z.gtb SetMapLayout];
    destruct (MapWidth info >? _), (MapHeight info >? _); reflexivity.
Qed.

(** ** The trace of [LoadTilemap] *)

Lemma bk_ret {A : Type} (a : A) : bookkeeping (ret a).
Proof. intros st. exists []. rewrite app_nil_r. split; reflexivity. Qed.

Lemma bk_get : bookkeeping get.
Proof. intros st. exists []. rewrite app_nil_r. split; reflexivity. Qed.

Lemma bk_modify g : (forall st, trace (g st) = trace st) -> bookkeeping (modify g).
Proof. intros H st. exists []. rewrite app_nil_r. split; [apply H | reflexivity]. Qed.

Lemma bk_emit e : is_bookkeeping e = true -> bookkeeping (emit e).
Proof. intros H st. exists [e]. split; [reflexivity | cbn; rewrite H; reflexivity]. Qed.

Lemma bk_in_vram {A : Type} (f : VRAM -> A * VRAM) : bookkeeping (in_vram f).
Proof.
  intros st. exists []. rewrite app_nil_r. unfold in_vram.
  destruct (f (vram st)). split; reflexivity.
Qed.

Lemma bk_bind {A B : Type} (f : M A) (k : A -> M B) :
  bookkeeping f -> (forall a, bookkeeping (k a)) -> bookkeeping (bind f k).
Proof.
  intros Hf Hk st. unfold bind.
  destruct (Hf st) as [p1 [H1 F1]]. destruct (f st) as [a st1]. cbn [snd] in H1.
  destruct (Hk a st1) as [p2 [H2 F2]].
  exists (p1 ++ p2). rewrite H2, H1, app_assoc, forallb_app, F1, F2.
  split; reflexivity.
Qed.

Lemma bk_if {A : Type} (b : bool) (f g : M A) :
  bookkeeping f -> bookkeeping g -> bookkeeping (if b then f else g).
Proof. destruct b; intros; assumption. Qed.

Lemma bk_update_screen scr f : bookkeeping (update_screen scr f).
Proof. apply bk_modify. reflexivity. Qed.

Lemma bk_Assert m : bookkeeping (Assert m).
Proof. apply bk_emit. reflexivity. Qed.

Lemma bk_CRAM_GetFreeBank mode : bookkeeping (CRAM_GetFreeBank mode).
Proof.
  intros st. exists []. rewrite app_nil_r. unfold CRAM_GetFreeBank.
  destruct (cram_free st); split; reflexivity.
Qed.

Create HintDb bk discriminated.
#[local] Hint Resolve bk_ret bk_get bk_in_vram bk_update_screen bk_Assert
  bk_CRAM_GetFreeBank : bk.

Ltac bk_step :=
  first [ apply bk_bind; [| intros ?]
        | apply bk_if
        | apply bk_emit; reflexivity
        | solve [auto with bk] ].

Lemma bk_AutoAllocateCell info screen : bookkeeping (AutoAllocateCell info screen).
Proof. unfold AutoAllocateCell. destruct screen; cbv zeta; repeat bk_step. Qed.

Lemma bk_AutoAllocateMap ext info screen : bookkeeping (AutoAllocateMap ext info screen).
Proof.
  unfold AutoAllocateMap, AutoAllocateMap_banks. cbv zeta.
  destruct screen; repeat bk_step.
Qed.

Lemma bk_LoadTilemap_palette scr tilemap : bookkeeping (LoadTilemap_palette scr tilemap).
Proof.
  unfold LoadTilemap_palette. apply bk_bind; [auto with bk |]. intros st.
  destruct (ColorMode (Info (the_screen scr st))); repeat bk_step.
Qed.

Lemma loads_bind {A : Type} ext scr tilemap (f : M A) (k : A -> M LoadResult) :
  bookkeeping f -> (forall a, loads ext scr tilemap (k a)) ->
  loads ext scr tilemap (bind f k).
Proof.
  intros Hf Hk st. unfold bind.
  destruct (Hf st) as [p1 [H1 F1]]. destruct (f st) as [a st1]. cbn [snd] in H1.
  destruct (Hk a st1) as [p2 [F2 H2]].
  exists (p1 ++ p2). rewrite forallb_app, F1, F2. split; [reflexivity |].
  rewrite H2, H1, <- !app_assoc. reflexivity.
Qed.

Lemma loads_if ext scr tilemap (b : bool) (f g : M LoadResult) :
  loads ext scr tilemap f -> loads ext scr tilemap g ->
  loads ext scr tilemap (if b then f else g).
Proof. destruct b; intros; assumption. Qed.

Lemma loads_Aborted ext scr tilemap : loads ext scr tilemap (ret Aborted).
Proof. intros st. exists []. cbn. rewrite app_nil_r. split; reflexivity. Qed.

Lemma finish_events_set_trace ext scr tilemap t st :
  finish_events ext scr tilemap (set_trace t st) = finish_events ext scr tilemap st.
Proof. reflexivity. Qed.

(** The last part of [LoadTilemap], once the palette is there. *)
Lemma LoadTilemap_transfer ext scr tilemap st :
  (st0 <- get ;;
   (match scr with
    | RBG0 => ret tt
    | _ => SetPlanesDefault ext scr (Info (the_screen scr st0))
    end) ;;
   st1 <- get ;;
   let s := the_screen scr st1 in
   Cell2VRAM (GetCellData tilemap) (CellAddress s) (CellByteSize (Info s)) ;;
   Map2VRAM (Info s) (GetMapData tilemap) (MapAddress s)
            (Palette_GetId ext (TilePalette s))
            (GetCellOffset ext scr (Info s) (CellAddress s) st1) ;;
   Init scr (Info s) ;;
   ret Loaded) st
  = (Loaded, set_trace (trace st ++ finish_events ext scr tilemap st) st).
Proof.
  unfold bind, get, finish_events. cbv zeta.
  assert (Hplanes :
    (match scr with
     | RBG0 => ret tt
     | _ => SetPlanesDefault ext scr (Info (the_screen scr st))
     end) st
    = (tt, set_trace
             (trace st ++
              match scr with
              | RBG0 => []
              | _ =>
                  let '(a, b, c, d) :=
                    default_layout ext (MapWidth (Info (the_screen scr st)))
                      (MapHeight (Info (the_screen scr st)))
                      (CharSize (Info (the_screen scr st)))
                      (PlaneSize (Info (the_screen scr st))) in
                  SetPlanes_events scr
                    (GetPlaneAddress ext scr a st) (GetPlaneAddress ext scr b st)
                    (GetPlaneAddress ext scr c st) (GetPlaneAddress ext scr d st)
              end) st)).
  { destruct scr; try (rewrite SetPlanesDefault_layout;
                       destruct (default_layout _ _ _ _ _) as [[[a b] c] d];
                       apply SetMapLayout_emits).
    apply emits_ret. }
  rewrite Hplanes.
  change (the_screen scr (set_trace ?t st)) with (the_screen scr st).
  rewrite Cell2VRAM_emits, Map2VRAM_emits, Init_emits.
  cbn [trace set_trace].
  change (the_screen scr (set_trace ?t ?x)) with (the_screen scr x).
  unfold ret. rewrite <- !app_assoc. reflexivity.
Qed.

Lemma loads_finish ext scr tilemap : loads ext scr tilemap (LoadTilemap_finish ext scr tilemap).
Proof.
  intros st. unfold LoadTilemap_finish, bind.
  destruct (bk_LoadTilemap_palette scr tilemap st) as [pre [Hpre Fpre]].
  destruct (LoadTilemap_palette scr tilemap st) as [[|] st1]; cbn [snd] in Hpre.
  - pose proof (LoadTilemap_transfer ext scr tilemap st1) as Ht.
    unfold bind in Ht. rewrite Ht. cbn [fst snd trace set_trace].
    exists pre. rewrite finish_events_set_trace, Hpre, <- app_assoc.
    split; [exact Fpre | reflexivity].
  - exists pre. cbn. rewrite app_nil_r. split; [exact Fpre | exact Hpre].
Qed.

Lemma loads_cells ext scr tilemap myInfo :
  loads ext scr tilemap (LoadTilemap_cells ext scr tilemap myInfo).
Proof.
  unfold LoadTilemap_cells.
  apply loads_bind; [apply bk_get |]. intros st. cbv zeta.
  repeat first [ apply loads_if
               | apply loads_finish
               | apply loads_Aborted
               | apply loads_bind; [| intros ?]
               | apply bk_AutoAllocateCell
               | solve [auto with bk] ].
Qed.

(** The trace of a call of [LoadTilemap]: bookkeeping, then for a call
    that ends with [Loaded] the planes, transfers and [Init] calls of
    [finish_events]. *)
Lemma loads_LoadTilemap ext scr tilemap : loads ext scr tilemap (LoadTilemap ext scr tilemap).
Proof.
  unfold LoadTilemap. cbv zeta.
  apply loads_bind; [auto with bk |]. intros _.
  apply loads_bind; [auto with bk |]. intros st.
  repeat first [ apply loads_if
               | apply loads_cells
               | apply loads_Aborted
               | apply loads_bind; [| intros ?]
               | apply bk_AutoAllocateMap
               | solve [auto with bk] ].
Qed.

Lemma filter_none {A : Type} (p : A -> bool) l :
  (forall e, In e l -> p e = false) -> filter p l = [].
Proof.
  induction l as [| x l IH]; intros H; cbn; [reflexivity |].
  rewrite (H x) by (left; reflexivity). apply IH. intros e He. apply H. right. exact He.
Qed.

Lemma filter_all {A : Type} (p : A -> bool) l :
  (forall e, In e l -> p e = true) -> filter p l = l.
Proof.
  induction l as [| x l IH]; intros H; cbn; [reflexivity |].
  rewrite (H x) by (left; reflexivity). f_equal. apply IH.
  intros e He. apply H. right. exact He.
Qed.

Lemma filter_bookkeeping (p : Event -> bool) pre :
  (forall e, is_bookkeeping e = true -> p e = false) ->
  forallb is_bookkeeping pre = true -> filter p pre = [].
Proof.
  intros Hp Hpre. apply filter_none. intros e He.
  apply Hp. rewrite forallb_forall in Hpre. apply Hpre. exact He.
Qed.

Lemma In_Cell2VRAM_events e cellData cellAdr size :
  In e (Cell2VRAM_events cellData cellAdr size) -> exists a v, e = Store8 a v.
Proof.
  unfold Cell2VRAM_events. rewrite in_map_iff. intros [i [<- _]]. eauto.
Qed.

Lemma In_Map2VRAM_events e info mapData mapAdr paloff mapoff :
  In e (Map2VRAM_events info mapData mapAdr paloff mapoff) -> is_map_store e = true.
Proof.
  unfold Map2VRAM_events. rewrite in_flat_map. intros [i [_ Hin]].
  rewrite in_map_iff in Hin. destruct Hin as [j [<- _]].
  unfold map_store. destruct (negb (MapMode info =? 0)); reflexivity.
Qed.

(** The plane addresses a call of [LoadTilemap] sets. *)
Lemma LoadTilemap_plane_writes ext scr tilemap st :
  filter is_plane_write (trace (snd (LoadTilemap ext scr tilemap st)))
  = filter is_plane_write (trace st)
    ++ match fst (LoadTilemap ext scr tilemap st) with
       | Aborted => []
       | Loaded =>
           let st' := snd (LoadTilemap ext scr tilemap st) in
           let s := the_screen scr st' in
           match scr with
           | RBG0 => [sl1MapRA (MapAddress s)]
           | _ =>
               let '(a, b, c, d) :=
                 default_layout ext (MapWidth (Info s)) (MapHeight (Info s))
                                (CharSize (Info s)) (PlaneSize (Info s)) in
               [slMapNbg scr (GetPlaneAddress ext scr a st') (GetPlaneAddress ext scr b st')
                             (GetPlaneAddress ext scr c st') (GetPlaneAddress ext scr d st');
                slMapNbg scr (MapAddress s) (MapAddress s) (MapAddress s) (MapAddress s)]
           end
       end.
Proof.
  destruct (loads_LoadTilemap ext scr tilemap st) as [pre [Fpre Htrace]].
  rewrite Htrace, !filter_app.
  rewrite (filter_bookkeeping is_plane_write pre)
    by (try exact Fpre; intros [] He; try discriminate He; reflexivity).
  cbn [app]. f_equal.
  destruct (fst (LoadTilemap ext scr tilemap st)); [| reflexivity].
  unfold finish_events. cbv zeta. rewrite !filter_app.
  rewrite (filter_none is_plane_write (Cell2VRAM_events _ _ _))
    by (intros e He; apply In_Cell2VRAM_events in He; destruct He as [a [v ->]];
        reflexivity).
  rewrite (filter_none is_plane_write (Map2VRAM_events _ _ _ _ _))
    by (intros e He; apply In_Map2VRAM_events in He; destruct e; try discriminate He;
        reflexivity).
  destruct scr; try reflexivity;
    destruct (default_layout _ _ _ _ _) as [[[a b] c] d]; reflexivity.
Qed.

(** C7.  [SetPlanesDefault] sets the planes of a layout that depends on
    the map's width and height, the cell size and the plane size alone,
    and that is one of four: one plane, a horizontal pair, a vertical
    pair, four planes.  Where a plane covers 64 by 64 cells, a map of 64
    by 64 cells gets the one-plane layout and a map of 128 by 64 cells
    the horizontal pair.  A call of [LoadTilemap] that runs to its end
    sets the plane addresses twice for a normal screen, first to the
    default layout and then in [Init], and once for RBG0, in [Init]
    alone: the default layout is not computed for RBG0. *)
Theorem SetPlanesDefault_selects_layout ext :
  (forall scr info st,
     SetPlanesDefault ext scr info st =
       let '(a, b, c, d) :=
         default_layout ext (MapWidth info) (MapHeight info) (CharSize info)
                        (PlaneSize info) in
       SetMapLayout ext scr a b c d st)
  /\ (forall w h cs ps,
        In (default_layout ext w h cs ps)
           [(0, 0, 0, 0); (0, 1, 0, 1); (0, 0, 1, 1); (0, 1, 2, 3)])
  /\ (forall cs ps,
        plane_capacity ext cs ps = (64, 64) ->
        default_layout ext 64 64 cs ps = (0, 0, 0, 0)
        /\ default_layout ext 128 64 cs ps = (0, 1, 0, 1))
  /\ (forall scr tilemap st,
        let r := LoadTilemap ext scr tilemap st in
        let s := the_screen scr (snd r) in
        filter is_plane_write (trace (snd r))
        = filter is_plane_write (trace st)
          ++ match fst r with
             | Aborted => []
             | Loaded =>
                 match scr with
                 | RBG0 => [sl1MapRA (MapAddress s)]
                 | _ =>
                     let '(a, b, c, d) :=
                       default_layout ext (MapWidth (Info s)) (MapHeight (Info s))
                                      (CharSize (Info s)) (PlaneSize (Info s)) in
                     [slMapNbg scr (GetPlaneAddress ext scr a (snd r))
                               (GetPlaneAddress ext scr b (snd r))
                               (GetPlaneAddress ext scr c (snd r))
                               (GetPlaneAddress ext scr d (snd r));
                      slMapNbg scr (MapAddress s) (MapAddress s) (MapAddress s)
                               (MapAddress s)]
                 end
             end).
Proof.
  split; [| split; [| split]].
  - intros scr info st. apply SetPlanesDefault_layout.
  - intros w h cs ps. unfold default_layout.
    destruct (plane_capacity ext cs ps) as [capX capY].
    destruct (w >? capX), (h >? capY); cbn; tauto.
  - intros cs ps Hcap. unfold default_layout. rewrite Hcap. split; reflexivity.
  - intros scr tilemap st r s. subst r s. apply LoadTilemap_plane_writes.
Qed.

(** A plane covers 64 by 64 cells on the console for 1x1 cells and 1x1
    planes, and for 2x2 cells and 2x2 planes. *)
Example default_layout_64 :
  plane_capacity saturn 0 0 = (64, 64) /\ plane_capacity saturn 1 3 = (64, 64)
  /\ default_layout saturn 64 64 0 0 = (0, 0, 0, 0)
  /\ default_layout saturn 128 64 0 0 = (0, 1, 0, 1)
  /\ default_layout saturn 64 128 0 0 = (0, 0, 1, 1)
  /\ default_layout saturn 128 128 0 0 = (0, 1, 2, 3).
Proof. repeat split. Qed.

(** ** Cell offset and map transfer *)

(** The map entries a call of [LoadTilemap] stores. *)
Lemma LoadTilemap_map_stores ext scr tilemap st :
  filter is_map_store (trace (snd (LoadTilemap ext scr tilemap st)))
  = filter is_map_store (trace st)
    ++ match fst (LoadTilemap ext scr tilemap st) with
       | Aborted => []
       | Loaded =>
           let st' := snd (LoadTilemap ext scr tilemap st) in
           let s := the_screen scr st' in
           Map2VRAM_events (Info s) (GetMapData tilemap) (MapAddress s)
             (Palette_GetId ext (TilePalette s))
             (GetCellOffset ext scr (Info s) (CellAddress s) st')
       end.
Proof.
  destruct (loads_LoadTilemap ext scr tilemap st) as [pre [Fpre Htrace]].
  rewrite Htrace, !filter_app.
  rewrite (filter_bookkeeping is_map_store pre)
    by (try exact Fpre; intros [] He; try discriminate He; reflexivity).
  cbn [app]. f_equal.
  destruct (fst (LoadTilemap ext scr tilemap st)); [| reflexivity].
  unfold finish_events. cbv zeta. rewrite !filter_app.
  rewrite (filter_none is_map_store (Cell2VRAM_events _ _ _))
    by (intros e He; apply In_Cell2VRAM_events in He; destruct He as [a [v ->]];
        reflexivity).
  rewrite (filter_all is_map_store (Map2VRAM_events _ _ _ _ _))
    by (intros e He; apply In_Map2VRAM_events in He; exact He).
  replace (filter is_map_store (Init_events _ _ _)) with (@nil Event)
    by (destruct scr; reflexivity).
  rewrite app_nil_r.
  destruct scr; try reflexivity;
    destruct (default_layout _ _ _ _ _) as [[[a b] c] d]; reflexivity.
Qed.

(** A value shifted to bit [k] and or-ed into a word of [w] bits shows
    at bit [k + i] and leaves the bits below [k] alone. *)
Lemma packed_bits x pal k w i :
  0 <= k -> 0 <= i -> k + i < w ->
  Z.testbit ((Z.lor x (Z.shiftl pal k)) mod 2 ^ w) (k + i)
  = Z.testbit x (k + i) || Z.testbit pal i.
Proof.
  intros Hk Hi Hw.
  rewrite Z.mod_pow2_bits_low by lia.
  rewrite Z.lor_spec, Z.shiftl_spec by lia.
  replace (k + i - k) with i by lia. reflexivity.
Qed.

Lemma packed_low_bits x pal k w i :
  0 <= i < k -> k <= w ->
  Z.testbit ((Z.lor x (Z.shiftl pal k)) mod 2 ^ w) i = Z.testbit x i.
Proof.
  intros Hi Hw.
  rewrite Z.mod_pow2_bits_low by lia.
  rewrite Z.lor_spec, Z.shiftl_spec_low by lia.
  apply Bool.orb_false_r.
Qed.

(** C8 (amended).  With [VDP2_VRAM_A0], the base of the first bank, as
    the base: for a two-word map ([MapMode] 0) the cell offset is
    (cellAddress - base) >> 5; for a one-word map in the first one-word
    mode ([MapMode] 0x8000) with 1x1 cells it is
    ((cellAddress - base) & 0x7FFF) >> 5, and in the other one-word mode
    with 1x1 cells it is ((cellAddress - base) & 0x1FFFF) >> 5.  The map
    transfer of [LoadTilemap] stores, for every entry, the entry plus the
    cell offset of the screen's cell address, or-ed with the palette id
    shifted left by 20 in a two-word entry and by 12 in a one-word entry:
    bit i of the palette id shows at bit 20 + i, or 12 + i, and the bits
    below are those of the sum. *)
Theorem GetCellOffset_and_map_transfer ext scr tile cellAddress st :
  0 <= VDP2_VRAM_A0 ext <= cellAddress -> cellAddress < 2 ^ 32 ->
  let info := Info (the_screen scr st) in
  (MapMode info = 0 ->
     GetCellOffset ext scr tile cellAddress st
     = Z.shiftr (cellAddress - VDP2_VRAM_A0 ext) 5)
  /\ (MapMode info = 0x8000 -> CharSize info = 0 ->
        GetCellOffset ext scr tile cellAddress st
        = Z.shiftr (Z.land (cellAddress - VDP2_VRAM_A0 ext) 0x7FFF) 5)
  /\ (MapMode info <> 0 -> MapMode info <> 0x8000 -> CharSize info = 0 ->
        GetCellOffset ext scr tile cellAddress st
        = Z.shiftr (Z.land (cellAddress - VDP2_VRAM_A0 ext) 0x1FFFF) 5)
  /\ (forall tilemap,
        let r := LoadTilemap ext scr tilemap st in
        let s := the_screen scr (snd r) in
        filter is_map_store (trace (snd r))
        = filter is_map_store (trace st)
          ++ match fst r with
             | Aborted => []
             | Loaded =>
                 Map2VRAM_events (Info s) (GetMapData tilemap) (MapAddress s)
                   (Palette_GetId ext (TilePalette s))
                   (GetCellOffset ext scr (Info s) (CellAddress s) (snd r))
             end)
  /\ (forall i mapData mapAdr paloff mapoff n,
        map_store i mapData mapAdr paloff mapoff n
        = if MapMode i =? 0
          then Store32 (uint32_t (mapAdr + 4 * Z.of_nat n))
                 (uint32_t (Z.lor (uint32_t (nth n mapData 0 + uint32_t mapoff))
                                  (Z.shiftl (uint8_t paloff) 20)))
          else Store16 (uint32_t (mapAdr + 2 * Z.of_nat n))
                 (uint16_t (Z.lor (uint32_t (nth n mapData 0 + uint32_t mapoff))
                                  (Z.shiftl (uint8_t paloff) 12))))
  /\ (forall x paloff i,
        (0 <= i < 8 ->
           Z.testbit (uint32_t (Z.lor x (Z.shiftl (uint8_t paloff) 20))) (20 + i)
           = Z.testbit x (20 + i) || Z.testbit (uint8_t paloff) i)
        /\ (0 <= i < 4 ->
              Z.testbit (uint16_t (Z.lor x (Z.shiftl (uint8_t paloff) 12))) (12 + i)
              = Z.testbit x (12 + i) || Z.testbit (uint8_t paloff) i)
        /\ (0 <= i < 20 ->
              Z.testbit (uint32_t (Z.lor x (Z.shiftl (uint8_t paloff) 20))) i
              = Z.testbit x i)
        /\ (0 <= i < 12 ->
              Z.testbit (uint16_t (Z.lor x (Z.shiftl (uint8_t paloff) 12))) i
              = Z.testbit x i)).
Proof.
  intros HA0 Hcell info. subst info.
  assert (Hdiff : uint32_t (uint32_t cellAddress - VDP2_VRAM_A0 ext)
                  = cellAddress - VDP2_VRAM_A0 ext).
  { rewrite (uint32_small cellAddress) by lia. apply uint32_small. lia. }
  split; [| split; [| split; [| split; [| split]]]].
  - intros Hmode. unfold GetCellOffset. cbv zeta. rewrite Hmode, Hdiff. reflexivity.
  - intros Hmode Hchar. unfold GetCellOffset. cbv zeta.
    rewrite Hmode, Hchar, Hdiff. reflexivity.
  - intros Hm0 Hm1 Hchar. unfold GetCellOffset. cbv zeta.
    apply Z.eqb_neq in Hm0. apply Z.eqb_neq in Hm1.
    rewrite Hm0, Hm1, Hchar, Hdiff. reflexivity.
  - intros tilemap r s. subst r s. apply LoadTilemap_map_stores.
  - intros i mapData mapAdr paloff mapoff n. unfold map_store.
    destruct (MapMode i =? 0); reflexivity.
  - intros x paloff i. unfold uint32_t, uint16_t.
    repeat split; intros Hi.
    + apply packed_bits; lia.
    + apply packed_bits; lia.
    + apply packed_low_bits; lia.
    + apply packed_low_bits; lia.
Qed.

Lemma GetCellOffset_and_map_transfer_witness :
  let ext := saturn in
  let scr := NBG0 in
  let tile := GetInfo one_word_mode1 in
  let cellAddress := VDP2_VRAM_A0 saturn + 0x8000 in
  let st := after_one_word_load in
  let info := Info (the_screen scr st) in
  (MapMode info = 0 ->
     GetCellOffset ext scr tile cellAddress st
     = Z.shiftr (cellAddress - VDP2_VRAM_A0 ext) 5)
  /\ (MapMode info = 0x8000 -> CharSize info = 0 ->
        GetCellOffset ext scr tile cellAddress st
        = Z.shiftr (Z.land (cellAddress - VDP2_VRAM_A0 ext) 0x7FFF) 5)
  /\ (MapMode info <> 0 -> MapMode info <> 0x8000 -> CharSize info = 0 ->
        GetCellOffset ext scr tile cellAddress st
        = Z.shiftr (Z.land (cellAddress - VDP2_VRAM_A0 ext) 0x1FFFF) 5)
  /\ (forall tilemap,
        let r := LoadTilemap ext scr tilemap st in
        let s := the_screen scr (snd r) in
        filter is_map_store (trace (snd r))
        = filter is_map_store (trace st)
          ++ match fst r with
             | Aborted => []
             | Loaded =>
                 Map2VRAM_events (Info s) (GetMapData tilemap) (MapAddress s)
                   (Palette_GetId ext (TilePalette s))
                   (GetCellOffset ext scr (Info s) (CellAddress s) (snd r))
             end)
  /\ (forall i mapData mapAdr paloff mapoff n,
        map_store i mapData mapAdr paloff mapoff n
        = if MapMode i =? 0
          then Store32 (uint32_t (mapAdr + 4 * Z.of_nat n))
                 (uint32_t (Z.lor (uint32_t (nth n mapData 0 + uint32_t mapoff))
                                  (Z.shiftl (uint8_t paloff) 20)))
          else Store16 (uint32_t (mapAdr + 2 * Z.of_nat n))
                 (uint16_t (Z.lor (uint32_t (nth n mapData 0 + uint32_t mapoff))
                                  (Z.shiftl (uint8_t paloff) 12))))
  /\ (forall x paloff i,
        (0 <= i < 8 ->
           Z.testbit (uint32_t (Z.lor x (Z.shiftl (uint8_t paloff) 20))) (20 + i)
           = Z.testbit x (20 + i) || Z.testbit (uint8_t paloff) i)
        /\ (0 <= i < 4 ->
              Z.testbit (uint16_t (Z.lor x (Z.shiftl (uint8_t paloff) 12))) (12 + i)
              = Z.testbit x (12 + i) || Z.testbit (uint8_t paloff) i)
        /\ (0 <= i < 20 ->
              Z.testbit (uint32_t (Z.lor x (Z.shiftl (uint8_t paloff) 20))) i
              = Z.testbit x i)
        /\ (0 <= i < 12 ->
              Z.testbit (uint16_t (Z.lor x (Z.shiftl (uint8_t paloff) 12))) i
              = Z.testbit x i)).
Proof.
  apply (GetCellOffset_and_map_transfer saturn NBG0 (GetInfo one_word_mode1)
           (VDP2_VRAM_A0 saturn + 0x8000) after_one_word_load); by_evaluation.
Defined.

(** C8 as stated fails for a one-word map with 1x1 cells in the second
    one-word mode: with cells 0x8000 bytes above [VDP2_VRAM_A0] the cell
    offset is 0x400, where the mask 0x7FFF would give 0. *)
Lemma GetCellOffset_one_word_mode_1 :
  let st := after_one_word_load in
  let cellAddress := VDP2_VRAM_A0 saturn + 0x8000 in
  MapMode (Info (the_screen NBG0 st)) <> 0
  /\ CharSize (Info (the_screen NBG0 st)) = 0
  /\ GetCellOffset saturn NBG0 (GetInfo one_word_mode1) cellAddress st = 0x400
  /\ GetCellOffset saturn NBG0 (GetInfo one_word_mode1) cellAddress st
     <> Z.shiftr (Z.land (cellAddress - VDP2_VRAM_A0 saturn) 0x7FFF) 5.
Proof. by_evaluation. Qed.

(** ** Loading two normal screens after [ClearVRAM] *)

Ltac simpl_state :=
  cbn [vram screens NBG0_LineAddress NBG1_LineAddress RBG0_KtableAddress
       ColorCalcScrolls VDP2_RAMCTL cram_free trace
       set_vram set_screens set_trace set_cram_free set_ColorCalcScrolls
       the_screen set_screen screen_get screen_set
       at_NBG0 at_NBG1 at_NBG2 at_NBG3 at_RBG0
       MapAddress CellAddress TilePalette Info CellAllocSize MapAllocSize
       with_MapAddress with_CellAddress with_TilePalette with_Info fst snd] in *.

(** What [ClearVRAM] leaves of the allocator, the screens and the
    collaborator's answers. *)
Lemma ClearVRAM_frame ext st :
  vram (snd (ClearVRAM ext st))
  = mkVRAM (bankBot ext) (bankTop ext) (mkBanks (-1) (-1) (-1) 1)
  /\ (forall scr,
        MapAddress (the_screen scr (snd (ClearVRAM ext st))) = unallocated ext
        /\ CellAddress (the_screen scr (snd (ClearVRAM ext st))) = unallocated ext
        /\ TilePalette (the_screen scr (snd (ClearVRAM ext st))) = Palette_default)
  /\ cram_free (snd (ClearVRAM ext st)) = cram_free st.
Proof.
  destruct st as [v [s0 s1 s2 s3 s4] l0 l1 kt cc rc fr tr].
  destruct s0 as [m0 c0 p0 i0 ca0 ma0], s1 as [m1 c1 p1 i1 ca1 ma1],
           s2 as [m2 c2 p2 i2 ca2 ma2], s3 as [m3 c3 p3 i3 ca3 ma3],
           s4 as [m4 c4 p4 i4 ca4 ma4].
  destruct p0, p1, p2, p3, p4;
    (split; [reflexivity |]; split; [| reflexivity];
     intros scr; destruct scr; repeat split).
Qed.

(** The map of a normal screen goes to bank A0 when that bank is not
    taken by RBG0 and [Allocate] succeeds there. *)
Lemma AutoAllocateMap_banks_A0 sz page_sz scr st amap v1 :
  scr <> RBG0 -> (bankCycles (vram st)).[A0] <> 7 ->
  Allocate sz page_sz A0 1 (vram st) = (amap, v1) -> amap <> nullptr ->
  AutoAllocateMap_banks sz page_sz scr st = (amap, set_vram v1 st).
Proof.
  intros Hscr Hcyc Halloc Hne.
  apply Z.eqb_neq in Hcyc. apply Z.eqb_neq in Hne.
  unfold AutoAllocateMap_banks. cbv zeta.
  destruct scr; try congruence;
    unfold bind, get, in_vram, ret; rewrite Hcyc; cbn [negb];
    rewrite Halloc; cbv beta iota; rewrite !Hne; reflexivity.
Qed.

(** The palette step for a screen without palette whose colour mode
    needs one, when the collaborator has a free bank. *)
Lemma LoadTilemap_palette_fresh scr tilemap st p rest :
  ColorMode (Info (the_screen scr st)) = Paletted256 ->
  TilePalette (the_screen scr st) = Palette_default ->
  cram_free st = p :: rest -> 0 <= p ->
  exists st1,
    LoadTilemap_palette scr tilemap st = (true, st1)
    /\ vram st1 = vram st /\ cram_free st1 = rest
    /\ the_screen scr st1
       = with_TilePalette (Palette_of Paletted256 p) (the_screen scr st)
    /\ (forall s, s <> scr -> the_screen s st1 = the_screen s st).
Proof.
  intros Hmode Hpal Hfree Hp.
  unfold LoadTilemap_palette, bind, get. rewrite Hmode, Hpal. cbn [Palette_has_data negb].
  unfold CRAM_GetFreeBank. rewrite Hfree.
  replace (p <? 0) with false by (symmetry; apply Z.ltb_ge; exact Hp).
  unfold emit, update_screen, modify, ret. cbv beta iota.
  eexists. split; [reflexivity |].
  destruct scr; simpl_state; repeat split;
    intros s Hs; destruct s; try reflexivity; congruence.
Qed.

(** [LoadTilemap_finish] after a palette step that succeeds. *)
Lemma LoadTilemap_finish_ok ext scr tilemap st st1 :
  LoadTilemap_palette scr tilemap st = (true, st1) ->
  LoadTilemap_finish ext scr tilemap st
  = (Loaded, set_trace (trace st1 ++ finish_events ext scr tilemap st1) st1).
Proof.
  intros Hpal. unfold LoadTilemap_finish, bind. rewrite Hpal.
  pose proof (LoadTilemap_transfer ext scr tilemap st1) as Ht.
  unfold bind in Ht. exact Ht.
Qed.

Lemma the_screen_set_same scr x st : the_screen scr (set_screen scr x st) = x.
Proof. destruct scr; reflexivity. Qed.

Lemma the_screen_set_other scr s x st :
  s <> scr -> the_screen s (set_screen scr x st) = the_screen s st.
Proof. intros H. destruct scr, s; try reflexivity; congruence. Qed.

(** One call of [LoadTilemap] for a normal screen with 256 colours that
    has no addresses and no palette yet: the map goes where [Allocate]
    puts it in bank A0, the cells where the first fit puts them, and no
    other screen changes. *)
Lemma LoadTilemap_normal_auto ext scr tilemap st p rest amap v1 bank acell v2 :
  scr <> RBG0 ->
  0 < VDP2_VRAM_A0 ext ->
  uint32_t (MapAddress (the_screen scr st)) < VDP2_VRAM_A0 ext ->
  uint32_t (CellAddress (the_screen scr st)) < VDP2_VRAM_A0 ext ->
  TilePalette (the_screen scr st) = Palette_default ->
  ColorMode (GetInfo tilemap) = Paletted256 ->
  0 <= MapWidth (GetInfo tilemap) -> 0 <= MapHeight (GetInfo tilemap) ->
  MapWidth (GetInfo tilemap) * MapHeight (GetInfo tilemap) * 4 < 2 ^ 32 ->
  0 <= CellByteSize (GetInfo tilemap) < 2 ^ 32 - 32 ->
  cram_free st = p :: rest -> 0 <= p ->
  (bankCycles (vram st)).[A0] <> 7 ->
  Allocate (map_size ext (GetInfo tilemap)) (map_boundary ext (GetInfo tilemap)) A0 1
           (vram st) = (amap, v1) ->
  VDP2_VRAM_A0 ext <= amap < 2 ^ 32 ->
  vram_wf v1 ->
  first_fit (cell_bank_order scr) (CellByteSize (GetInfo tilemap)) 32 2 v1
  = Some (bank, acell, v2) ->
  VDP2_VRAM_A0 ext <= acell < 2 ^ 32 ->
  exists st',
    LoadTilemap ext scr tilemap st = (Loaded, st')
    /\ vram st' = v2 /\ cram_free st' = rest
    /\ MapAddress (the_screen scr st') = amap
    /\ CellAddress (the_screen scr st') = acell
    /\ (forall s, s <> scr -> the_screen s st' = the_screen s st).
Proof.
  intros Hscr HA0 Hmap Hcell Hpal Hmode Hw Hh Hwh Hc Hfree Hp Hcyc Halloc Hamap
         Hwf1 Hfit Hacell.
  set (info := GetInfo tilemap) in *.
  set (st_a := set_screen scr (with_Info info (the_screen scr st)) st).
  set (st_b := set_screen scr (with_MapAddress amap (the_screen scr (set_vram v1 st_a)))
                          (set_vram v1 st_a)).
  set (st_c := set_screen scr (with_CellAddress acell (the_screen scr (set_vram v2 st_b)))
                          (set_vram v2 st_b)).
  (* the map *)
  assert (Hmap_run : AutoAllocateMap ext info scr st_a = (amap, set_vram v1 st_a)).
  { rewrite AutoAllocateMap_run by assumption.
    apply AutoAllocateMap_banks_A0; try assumption. unfold nullptr. lia. }
  (* the cells *)
  assert (Hcell_run : AutoAllocateCell info scr st_b = (acell, set_vram v2 st_b)).
  { rewrite AutoAllocateCell_run by (try assumption; exact Hwf1).
    change (vram st_b) with v1. rewrite Hmode.
    replace (cell_cycles scr Paletted256) with 2
      by (destruct scr; try reflexivity; congruence).
    rewrite Hfit. reflexivity. }
  (* the palette *)
  assert (Hscr_c : the_screen scr st_c
                   = mkScreen amap acell Palette_default info
                              (CellAllocSize (the_screen scr st))
                              (MapAllocSize (the_screen scr st))).
  { unfold st_c. rewrite the_screen_set_same.
    change (the_screen scr (set_vram v2 st_b)) with (the_screen scr st_b).
    unfold st_b. rewrite the_screen_set_same.
    change (the_screen scr (set_vram v1 st_a)) with (the_screen scr st_a).
    unfold st_a. rewrite the_screen_set_same.
    unfold with_CellAddress, with_MapAddress, with_Info.
    cbn [MapAddress CellAddress TilePalette Info CellAllocSize MapAllocSize].
    rewrite Hpal. reflexivity. }
  destruct (LoadTilemap_palette_fresh scr tilemap st_c p rest) as
    [st1 [Hpal_run [Hv1 [Hf1 [Hs1 Ho1]]]]];
    try (rewrite Hscr_c; reflexivity); try assumption.
  { rewrite Hscr_c. exact Hmode. }
  (* the whole call *)
  exists (set_trace (trace st1 ++ finish_events ext scr tilemap st1) st1).
  split.
  - unfold LoadTilemap. cbv zeta. fold info.
    unfold bind at 1. unfold update_screen at 1, modify at 1. fold st_a.
    unfold bind at 1, get at 1.
    replace (the_screen scr st_a) with (with_Info info (the_screen scr st))
      by (unfold st_a; rewrite the_screen_set_same; reflexivity).
    cbn [MapAddress with_Info].
    replace (uint32_t (MapAddress (the_screen scr st)) <? VDP2_VRAM_A0 ext) with true
      by (symmetry; apply Z.ltb_lt; exact Hmap).
    unfold bind at 1. rewrite Hmap_run.
    unfold bind at 1. unfold update_screen at 1, modify at 1. fold st_b.
    rewrite (uint32_small amap) by lia.
    replace (amap <? VDP2_VRAM_A0 ext) with false by (symmetry; apply Z.ltb_ge; lia).
    unfold LoadTilemap_cells. unfold bind at 1, get at 1. cbv zeta.
    replace (CellAddress (the_screen scr st_b)) with (CellAddress (the_screen scr st))
      by (unfold st_b; rewrite the_screen_set_same;
          change (the_screen scr (set_vram v1 st_a)) with (the_screen scr st_a);
          unfold st_a; rewrite the_screen_set_same; reflexivity).
    replace (uint32_t (CellAddress (the_screen scr st)) <? VDP2_VRAM_A0 ext) with true
      by (symmetry; apply Z.ltb_lt; exact Hcell).
    unfold bind at 1. rewrite Hcell_run.
    unfold bind at 1. unfold update_screen at 1, modify at 1. fold st_c.
    rewrite (uint32_small acell) by lia.
    replace (acell <? VDP2_VRAM_A0 ext) with false by (symmetry; apply Z.ltb_ge; lia).
    apply LoadTilemap_finish_ok. exact Hpal_run.
  - assert (Hother : forall s, s <> scr -> the_screen s st_c = the_screen s st).
    { intros s Hs. unfold st_c. rewrite the_screen_set_other by exact Hs.
      change (the_screen s (set_vram v2 st_b)) with (the_screen s st_b).
      unfold st_b. rewrite the_screen_set_other by exact Hs.
      change (the_screen s (set_vram v1 st_a)) with (the_screen s st_a).
      unfold st_a. rewrite the_screen_set_other by exact Hs. reflexivity. }
    change (vram (set_trace ?t st1)) with (vram st1).
    change (cram_free (set_trace ?t st1)) with (cram_free st1).
    change (the_screen ?s (set_trace ?t st1)) with (the_screen s st1).
    rewrite Hv1, Hf1, Hs1, Hscr_c.
    repeat split.
    intros s Hs. change (the_screen s (set_trace ?t st1)) with (the_screen s st1).
    rewrite Ho1 by exact Hs. apply Hother. exact Hs.
Qed.

Lemma Allocate_success size boundary bank cycles v :
  bank_wf v bank -> 0 <= size ->
  (currentBot v).[bank] + padding (currentBot v).[bank] boundary + size
    <= (currentTop v).[bank] ->
  - 2 ^ 7 <= (bankCycles v).[bank] + cycles < 8 ->
  Allocate size boundary bank cycles v
  = ((currentBot v).[bank] + padding (currentBot v).[bank] boundary,
     mkVRAM (bank_set (currentBot v) bank
               ((currentBot v).[bank] + padding (currentBot v).[bank] boundary + size))
            (currentTop v)
            (bank_set (bankCycles v) bank ((bankCycles v).[bank] + cycles))).
Proof.
  intros Hwf Hs Hfit Hcyc.
  pose proof (padding_nonneg (currentBot v).[bank] boundary) as Hp.
  pose proof Hwf as [[Hbot _] Htop].
  rewrite Allocate_spec by (try assumption; lia). cbv zeta.
  replace (_ <=? _) with true by (symmetry; apply Z.leb_le; lia).
  replace (_ <? 8) with true by (symmetry; apply Z.ltb_lt; lia).
  cbn [andb]. rewrite int8_small by lia. reflexivity.
Qed.

Lemma Allocate_no_room size boundary bank cycles v :
  bank_wf v bank -> 0 <= size ->
  size + padding (currentBot v).[bank] boundary < 2 ^ 32 ->
  (currentBot v).[bank] + padding (currentBot v).[bank] boundary + size
    > (currentTop v).[bank] ->
  Allocate size boundary bank cycles v = (nullptr, v).
Proof.
  intros Hwf Hs Hfit Hroom.
  rewrite Allocate_spec by assumption. cbv zeta.
  replace (_ <=? _) with false by (symmetry; apply Z.leb_gt; lia).
  reflexivity.
Qed.

(** The requests for a map of 64 by 64 cells on the console: 0x2000 or
    0x4000 bytes, no padding at the start of bank A0, and room for a
    second such map behind a first one. *)
Lemma map_request_64 info :
  MapWidth info = 64 -> MapHeight info = 64 ->
  (map_size saturn info = 0x2000 \/ map_size saturn info = 0x4000)
  /\ padding (VDP2_VRAM_A0 saturn) (map_boundary saturn info) = 0
  /\ (forall m, m = 0x2000 \/ m = 0x4000 ->
        m + padding (VDP2_VRAM_A0 saturn + m) (map_boundary saturn info)
          + map_size saturn info <= 0x20000).
Proof.
  intros Hw Hh. unfold map_size, map_boundary. rewrite Hw, Hh.
  destruct (CharSize info =? CHAR_SIZE_1x1 saturn),
           (MapMode info =? PNB_2WORD saturn),
           (PlaneSize info =? PL_SIZE_2x2 saturn),
           (PlaneSize info =? PL_SIZE_2x1 saturn);
    (split; [vm_compute; tauto |]; split; [reflexivity |];
     intros m [-> | ->]; vm_compute; discriminate).
Qed.

(** C4 (amended).  After [ClearVRAM], loading two different normal
    screens with 256-colour tilemaps of 64 by 64 cells, each with at most
    one bank of cell data and with a free palette bank for each,
    succeeds both times.  The two maps lie in bank A0, the first at its
    start and the second behind it, and each costs that bank one cycle:
    A0, the bank RBG0 tries first, ends with both maps and a counter of
    1.  The cells of the first screen lie at the start of bank B0; those
    of the second lie behind them in B0, which then holds a counter of 3
    (2 cycles for each screen), or, when B0 has no room left, at the
    start of bank A1, and then B0 and A1 hold a counter of 1 each.  The
    four regions do not overlap, and bank B1 is as [ClearVRAM] left it. *)
Theorem LoadTilemap_two_normal_screens scr1 scr2 tm1 tm2 st0 p1 p2 rest :
  scr1 <> RBG0 -> scr2 <> RBG0 -> scr1 <> scr2 ->
  ColorMode (GetInfo tm1) = Paletted256 -> ColorMode (GetInfo tm2) = Paletted256 ->
  MapWidth (GetInfo tm1) = 64 -> MapHeight (GetInfo tm1) = 64 ->
  MapWidth (GetInfo tm2) = 64 -> MapHeight (GetInfo tm2) = 64 ->
  0 <= CellByteSize (GetInfo tm1) <= 0x20000 ->
  0 <= CellByteSize (GetInfo tm2) <= 0x20000 ->
  cram_free st0 = p1 :: p2 :: rest -> 0 <= p1 -> 0 <= p2 ->
  let st := snd (ClearVRAM saturn st0) in
  let r1 := LoadTilemap saturn scr1 tm1 st in
  let r2 := LoadTilemap saturn scr2 tm2 (snd r1) in
  let v := vram (snd r2) in
  let map1 := MapAddress (the_screen scr1 (snd r2)) in
  let map2 := MapAddress (the_screen scr2 (snd r2)) in
  let cell1 := CellAddress (the_screen scr1 (snd r2)) in
  let cell2 := CellAddress (the_screen scr2 (snd r2)) in
  fst r1 = Loaded /\ fst r2 = Loaded
  /\ map1 = VDP2_VRAM_A0 saturn
  /\ map1 + map_size saturn (GetInfo tm1) <= map2
  /\ map2 + map_size saturn (GetInfo tm2) = (currentBot v).[A0]
  /\ (currentBot v).[A0] <= VDP2_VRAM_A1 saturn
  /\ (bankCycles v).[A0] = 1
  /\ cell1 = VDP2_VRAM_B0 saturn
  /\ cell1 + CellByteSize (GetInfo tm1) <= VDP2_VRAM_B1 saturn
  /\ ((cell1 + CellByteSize (GetInfo tm1) <= cell2
       /\ cell2 + CellByteSize (GetInfo tm2) <= VDP2_VRAM_B1 saturn
       /\ (bankCycles v).[B0] = 3
       /\ (bankCycles v).[A1] = -1 /\ (currentBot v).[A1] = VDP2_VRAM_A1 saturn)
      \/ (cell2 = VDP2_VRAM_A1 saturn
          /\ cell2 + CellByteSize (GetInfo tm2) <= VDP2_VRAM_B0 saturn
          /\ (bankCycles v).[B0] = 1 /\ (bankCycles v).[A1] = 1))
  /\ (currentBot v).[B1] = VDP2_VRAM_B1 saturn /\ (bankCycles v).[B1] = 1.
Proof.
  intros Hs1 Hs2 Hs12 Hmode1 Hmode2 Hw1 Hh1 Hw2 Hh2 Hc1 Hc2 Hfree Hp1 Hp2.
  intros st r1 r2 v map1 map2 cell1 cell2.
  destruct (ClearVRAM_frame saturn st0) as [Hv [Hscr Hfree0]]. fold st in Hv, Hscr, Hfree0.
  destruct (map_request_64 (GetInfo tm1) Hw1 Hh1) as [Hm1 [Hpad1 _]].
  destruct (map_request_64 (GetInfo tm2) Hw2 Hh2) as [Hm2 [_ Hroom2]].
  specialize (Hroom2 (map_size saturn (GetInfo tm1)) Hm1).
  pose proof (padding_nonneg (VDP2_VRAM_A0 saturn + map_size saturn (GetInfo tm1))
                (map_boundary saturn (GetInfo tm2))) as Hpm.
  pose proof (padding_nonneg (VDP2_VRAM_B0 saturn + CellByteSize (GetInfo tm1)) 32) as Hpc.
  pose proof (padding_32 (VDP2_VRAM_B0 saturn + CellByteSize (GetInfo tm1))) as Hpc32.
  assert (HpB0 : padding (VDP2_VRAM_B0 saturn) 32 = 0) by reflexivity.
  assert (HpA1 : padding (VDP2_VRAM_A1 saturn) 32 = 0) by reflexivity.
  assert (Hsent : uint32_t (unallocated saturn) < VDP2_VRAM_A0 saturn) by reflexivity.
  unfold bankBot, bankTop in Hv.
  replace (uint32_t (VDP2_VRAM_B1 saturn + 98304)) with (VDP2_VRAM_B1 saturn + 98304)
    in Hv by reflexivity.
  set (msz1 := map_size saturn (GetInfo tm1)) in *.
  set (msz2 := map_size saturn (GetInfo tm2)) in *.
  set (c1 := CellByteSize (GetInfo tm1)) in *.
  set (c2 := CellByteSize (GetInfo tm2)) in *.
  set (padm := padding (VDP2_VRAM_A0 saturn + msz1) (map_boundary saturn (GetInfo tm2)))
    in *.
  set (padc := padding (VDP2_VRAM_B0 saturn + c1) 32) in *.
  remember (VDP2_VRAM_A0 saturn) as a0 eqn:Ea0.
  remember (VDP2_VRAM_A1 saturn) as a1 eqn:Ea1.
  remember (VDP2_VRAM_B0 saturn) as b0 eqn:Eb0.
  remember (VDP2_VRAM_B1 saturn) as b1 eqn:Eb1.
  vm_compute in Ea0, Ea1, Eb0, Eb1.
  assert (Hlay : a0 + 131072 = a1 /\ a1 + 131072 = b0 /\ b0 + 131072 = b1) by lia.
  set (top := mkBanks a1 b0 b1 (b1 + 98304)) in *.
  set (v1 := mkVRAM (mkBanks (a0 + msz1) a1 b0 b1) top (mkBanks 0 (-1) (-1) 1)).
  set (v2 := mkVRAM (mkBanks (a0 + msz1) a1 (b0 + c1) b1) top (mkBanks 0 (-1) 1 1)).
  assert (Horder : forall s, s <> RBG0 -> cell_bank_order s = [B0; A1; A0; B1])
    by (intros s Hs; destruct s; try reflexivity; congruence).
  (* the first screen *)
  assert (Hload1 : exists st1,
    LoadTilemap saturn scr1 tm1 st = (Loaded, st1)
    /\ vram st1 = v2 /\ cram_free st1 = p2 :: rest
    /\ MapAddress (the_screen scr1 st1) = a0
    /\ CellAddress (the_screen scr1 st1) = b0
    /\ (forall s, s <> scr1 -> the_screen s st1 = the_screen s st)).
  { apply (LoadTilemap_normal_auto saturn scr1 tm1 st p1 (p2 :: rest) a0 v1 B0 b0 v2).
    - exact Hs1.
    - reflexivity.
    - destruct (Hscr scr1) as [-> _]. reflexivity.
    - destruct (Hscr scr1) as [_ [-> _]]. reflexivity.
    - apply Hscr.
    - exact Hmode1.
    - rewrite Hw1. lia.
    - rewrite Hh1. lia.
    - rewrite Hw1, Hh1. reflexivity.
    - fold c1. lia.
    - rewrite Hfree0. exact Hfree.
    - exact Hp1.
    - rewrite Hv. cbn. discriminate.
    - fold msz1. rewrite Hv.
      rewrite Allocate_success;
        unfold bank_wf; cbn [currentBot currentTop bankCycles bank_get bank_set
                             at_A0 at_A1 at_B0 at_B1 top];
        rewrite ?Hpad1; try lia.
      unfold v1. repeat f_equal; lia.
    - change (VDP2_VRAM_A0 saturn) with 635437056. lia.
    - intros b. unfold bank_wf. destruct b; cbn; lia.
    - fold c1. rewrite (Horder scr1 Hs1). cbn [first_fit].
      rewrite Allocate_success;
        unfold bank_wf; cbn [v1 currentBot currentTop bankCycles bank_get bank_set
                             at_A0 at_A1 at_B0 at_B1 top];
        rewrite ?HpB0; try lia.
      cbn [fst snd].
      replace (b0 + 0 =? nullptr) with false
        by (symmetry; apply Z.eqb_neq; unfold nullptr; lia).
      unfold v2. repeat f_equal; lia.
    - change (VDP2_VRAM_A0 saturn) with 635437056. lia. }
  destruct Hload1 as [st1 [Hr1 [Hv2 [Hf1 [Hmap1 [Hcell1 Hoth1]]]]]].
  (* the second screen *)
  set (v3 := mkVRAM (mkBanks (a0 + msz1 + padm + msz2) a1 (b0 + c1) b1) top
                    (mkBanks 1 (-1) 1 1)).
  assert (Hload2 : forall bank acell v4,
    first_fit [B0; A1; A0; B1] c2 32 2 v3 = Some (bank, acell, v4) ->
    635437056 <= acell < 2 ^ 32 ->
    exists st2,
      LoadTilemap saturn scr2 tm2 st1 = (Loaded, st2)
      /\ vram st2 = v4
      /\ MapAddress (the_screen scr2 st2) = a0 + msz1 + padm
      /\ CellAddress (the_screen scr2 st2) = acell
      /\ (forall s, s <> scr2 -> the_screen s st2 = the_screen s st1)).
  { intros bank acell v4 Hfit Hacell.
    destruct (LoadTilemap_normal_auto saturn scr2 tm2 st1 p2 rest (a0 + msz1 + padm) v3
                bank acell v4) as [st2 [Hr2 [Hv4 [_ [Hmap2 [Hcell2 Hoth2]]]]]].
    - exact Hs2.
    - reflexivity.
    - rewrite (Hoth1 scr2) by congruence. destruct (Hscr scr2) as [-> _]. reflexivity.
    - rewrite (Hoth1 scr2) by congruence. destruct (Hscr scr2) as [_ [-> _]].
      reflexivity.
    - rewrite (Hoth1 scr2) by congruence. apply Hscr.
    - exact Hmode2.
    - rewrite Hw2. lia.
    - rewrite Hh2. lia.
    - rewrite Hw2, Hh2. reflexivity.
    - fold c2. lia.
    - exact Hf1.
    - exact Hp2.
    - rewrite Hv2. cbn. discriminate.
    - fold msz2. rewrite Hv2.
      rewrite Allocate_success;
        unfold bank_wf; cbn [v2 currentBot currentTop bankCycles bank_get bank_set
                             at_A0 at_A1 at_B0 at_B1 top];
        fold padm; try lia.
      unfold v3. repeat f_equal; lia.
    - change (VDP2_VRAM_A0 saturn) with 635437056. lia.
    - intros b. unfold bank_wf. destruct b; cbn; lia.
    - fold c2. rewrite (Horder scr2 Hs2). exact Hfit.
    - change (VDP2_VRAM_A0 saturn) with 635437056. exact Hacell.
    - exists st2. repeat split; assumption. }
  assert (Hfinal : forall st2,
    LoadTilemap saturn scr2 tm2 st1 = (Loaded, st2) ->
    MapAddress (the_screen scr2 st2) = a0 + msz1 + padm ->
    (forall s, s <> scr2 -> the_screen s st2 = the_screen s st1) ->
    fst r1 = Loaded /\ fst r2 = Loaded /\ snd r2 = st2
    /\ map1 = a0 /\ map2 = a0 + msz1 + padm /\ cell1 = b0).
  { intros st2 Hr2 Hmap2 Hoth2.
    assert (E1 : r1 = (Loaded, st1)) by exact Hr1.
    assert (E2 : r2 = (Loaded, st2)) by (unfold r2; rewrite E1; exact Hr2).
    unfold map1, map2, cell1. rewrite E1, E2. cbn [fst snd].
    rewrite (Hoth2 scr1) by exact Hs12. repeat split; assumption. }
  destruct (Z_le_gt_dec (b0 + c1 + padc + c2) b1) as [Hroom | Hfull].
  - (* both screens' cells in bank B0 *)
    destruct (Hload2 B0 (b0 + c1 + padc)
                (mkVRAM (mkBanks (a0 + msz1 + padm + msz2) a1 (b0 + c1 + padc + c2) b1)
                        top (mkBanks 1 (-1) 3 1)))
      as [st2 [Hr2 [Hv4 [Hmap2 [Hcell2 Hoth2]]]]]; [| lia |].
    { cbn [first_fit].
      rewrite Allocate_success;
        unfold bank_wf; cbn [v3 currentBot currentTop bankCycles bank_get bank_set
                             at_A0 at_A1 at_B0 at_B1 top];
        fold padc; try lia.
      cbn [fst snd].
      replace (b0 + c1 + padc =? nullptr) with false
        by (symmetry; apply Z.eqb_neq; unfold nullptr; lia).
      repeat f_equal; lia. }
    destruct (Hfinal st2 Hr2 Hmap2 Hoth2) as [F1 [F2 [F3 [F4 [F5 F6]]]]].
    unfold v, cell2. rewrite F3, Hv4, Hcell2, F4, F5, F6.
    cbn [currentBot currentTop bankCycles bank_get at_A0 at_A1 at_B0 at_B1].
    repeat split; try assumption; lia.
  - (* no room left in bank B0: the second screen's cells in bank A1 *)
    destruct (Hload2 A1 a1
                (mkVRAM (mkBanks (a0 + msz1 + padm + msz2) (a1 + c2) (b0 + c1) b1)
                        top (mkBanks 1 1 1 1)))
      as [st2 [Hr2 [Hv4 [Hmap2 [Hcell2 Hoth2]]]]]; [| lia |].
    { cbn [first_fit].
      rewrite Allocate_no_room;
        unfold bank_wf; cbn [v3 currentBot currentTop bankCycles bank_get bank_set
                             at_A0 at_A1 at_B0 at_B1 top];
        fold padc; try lia.
      cbn [fst]. rewrite Z.eqb_refl.
      rewrite Allocate_success;
        unfold bank_wf; cbn [v3 currentBot currentTop bankCycles bank_get bank_set
                             at_A0 at_A1 at_B0 at_B1 top];
        rewrite ?HpA1; try lia.
      cbn [fst snd].
      replace (a1 + 0 =? nullptr) with false
        by (symmetry; apply Z.eqb_neq; unfold nullptr; lia).
      repeat f_equal; lia. }
    destruct (Hfinal st2 Hr2 Hmap2 Hoth2) as [F1 [F2 [F3 [F4 [F5 F6]]]]].
    unfold v, cell2. rewrite F3, Hv4, Hcell2, F4, F5, F6.
    cbn [currentBot currentTop bankCycles bank_get at_A0 at_A1 at_B0 at_B1].
    repeat split; try assumption; lia.
Qed.

Lemma LoadTilemap_two_normal_screens_witness :
  let st := snd (ClearVRAM saturn start) in
  let r1 := LoadTilemap saturn NBG0 tilemap_64 st in
  let r2 := LoadTilemap saturn NBG1 tilemap_64 (snd r1) in
  let v := vram (snd r2) in
  let map1 := MapAddress (the_screen NBG0 (snd r2)) in
  let map2 := MapAddress (the_screen NBG1 (snd r2)) in
  let cell1 := CellAddress (the_screen NBG0 (snd r2)) in
  let cell2 := CellAddress (the_screen NBG1 (snd r2)) in
  fst r1 = Loaded /\ fst r2 = Loaded
  /\ map1 = VDP2_VRAM_A0 saturn
  /\ map1 + map_size saturn (GetInfo tilemap_64) <= map2
  /\ map2 + map_size saturn (GetInfo tilemap_64) = (currentBot v).[A0]
  /\ (currentBot v).[A0] <= VDP2_VRAM_A1 saturn
  /\ (bankCycles v).[A0] = 1
  /\ cell1 = VDP2_VRAM_B0 saturn
  /\ cell1 + CellByteSize (GetInfo tilemap_64) <= VDP2_VRAM_B1 saturn
  /\ ((cell1 + CellByteSize (GetInfo tilemap_64) <= cell2
       /\ cell2 + CellByteSize (GetInfo tilemap_64) <= VDP2_VRAM_B1 saturn
       /\ (bankCycles v).[B0] = 3
       /\ (bankCycles v).[A1] = -1 /\ (currentBot v).[A1] = VDP2_VRAM_A1 saturn)
      \/ (cell2 = VDP2_VRAM_A1 saturn
          /\ cell2 + CellByteSize (GetInfo tilemap_64) <= VDP2_VRAM_B0 saturn
          /\ (bankCycles v).[B0] = 1 /\ (bankCycles v).[A1] = 1))
  /\ (currentBot v).[B1] = VDP2_VRAM_B1 saturn /\ (bankCycles v).[B1] = 1.
Proof.
  apply (LoadTilemap_two_normal_screens NBG0 NBG1 tilemap_64 tilemap_64 start 1 2 [3]);
    by_evaluation.
Defined.

(** C4 as stated fails for the tilemap above loaded into NBG0 and NBG1
    after [ClearVRAM]: both calls run to their end, and bank A0, the first
    bank RBG0 tries, then holds the two maps: its cursor has moved and its
    counter has gone from -1 to 1. *)
Lemma LoadTilemap_maps_go_to_bank_A0 :
  hd B1 (cell_bank_order RBG0) = A0
  /\ fst (LoadTilemap saturn NBG0 tilemap_64 after_reset) = Loaded
  /\ fst (LoadTilemap saturn NBG1 tilemap_64
            (snd (LoadTilemap saturn NBG0 tilemap_64 after_reset))) = Loaded
  /\ ~ ((currentBot (vram after_two_loads)).[A0] = (currentBot (vram after_reset)).[A0]
        /\ (bankCycles (vram after_two_loads)).[A0]
           = (bankCycles (vram after_reset)).[A0]).
Proof.
  split; [reflexivity |]. split; [vm_compute; reflexivity |].
  split; [vm_compute; reflexivity |].
  intros [H _]. vm_compute in H. discriminate H.
Qed.

(** * Further properties *)

(** ** Relations kept by the steps of a call *)

(** A relation that is kept by every step of a call is kept by the call:
    the lemmas follow the constructs of the model. *)
Lemma pres_ret {A : Type} R (a : A) : frame_relation R -> preserves R (ret a).
Proof. intros HR st. apply HR. Qed.

Lemma pres_get R : frame_relation R -> preserves R get.
Proof. intros HR st. apply HR. Qed.

Lemma pres_bind {A B : Type} R (f : M A) (k : A -> M B) :
  frame_relation R ->
  preserves R f -> (forall a, preserves R (k a)) -> preserves R (bind f k).
Proof.
  intros (_ & Htrans & _) Hf Hk st. unfold bind. specialize (Hf st).
  destruct (f st) as [a st1]. cbn [snd] in Hf.
  apply (Htrans _ _ _ Hf). apply Hk.
Qed.

Lemma pres_if {A : Type} R (c : bool) (f g : M A) :
  preserves R f -> preserves R g -> preserves R (if c then f else g).
Proof. destruct c; auto. Qed.

Lemma pres_in_vram {A : Type} R (f : VRAM -> A * VRAM) :
  (forall st, R st (set_vram (snd (f (vram st))) st)) -> preserves R (in_vram f).
Proof.
  intros H st. unfold in_vram. specialize (H st).
  destruct (f (vram st)) as [a v]. exact H.
Qed.

Lemma pres_emit R e : frame_relation R -> preserves R (emit e).
Proof. intros HR st. apply HR. Qed.

Lemma pres_emits R f evs : frame_relation R -> emits f evs -> preserves R f.
Proof. intros HR H st. rewrite H. apply HR. Qed.

(** The two placement functions keep every relation that each call of
    [Allocate] and each assert keep. *)
Lemma pres_AutoAllocateCell R info screen :
  frame_relation R -> over_Allocate R -> preserves R (AutoAllocateCell info screen).
Proof.
  intros HR HA. unfold AutoAllocateCell, Assert.
  destruct screen;
    repeat first
      [ apply (pres_bind R _ _ HR); [| intros ?]
      | apply pres_in_vram; intros ?; apply HA
      | apply pres_if
      | apply (pres_emit R _ HR)
      | apply (pres_ret R _ HR) ].
Qed.

Lemma pres_AutoAllocateMap R ext info screen :
  frame_relation R -> over_Allocate R -> preserves R (AutoAllocateMap ext info screen).
Proof.
  intros HR HA. unfold AutoAllocateMap, AutoAllocateMap_banks, Assert. cbv zeta.
  destruct screen;
    repeat first
      [ apply (pres_bind R _ _ HR); [| intros ?]
      | apply (pres_get R HR)
      | apply pres_in_vram; intros ?; apply HA
      | apply pres_if
      | apply (pres_emit R _ HR)
      | apply (pres_ret R _ HR) ].
Qed.

(** ** The allocator only grows *)

Lemma int8_range x : - 2 ^ 7 <= int8_t x < 2 ^ 7.
Proof.
  unfold int8_t. pose proof (Z.mod_pos_bound (x + 2 ^ 7) (2 ^ 8) eq_refl). lia.
Qed.

(** In the bank it is asked for, [Allocate] moves the cursor forward, if
    at all, and not past the ceiling. *)
Lemma Allocate_cursor size boundary bank cycles v :
  bank_wf v bank ->
  (currentBot v).[bank] <= (currentBot (snd (Allocate size boundary bank cycles v))).[bank]
  /\ (currentBot (snd (Allocate size boundary bank cycles v))).[bank]
     <= (currentTop v).[bank].
Proof.
  intros [[Hbot Hle] Htop]. unfold Allocate, GetAvailable. cbv zeta.
  set (off := if negb _ then _ else 0).
  rewrite (uint32_small ((currentTop v).[bank] - (currentBot v).[bank])) by lia.
  pose proof (uint32_range (size + off)) as Hw.
  destruct (Z.geb_spec ((currentTop v).[bank] - (currentBot v).[bank])
                       (uint32_t (size + off))) as [Hfit | Hno];
    [| cbn [snd]; lia].
  destruct (_ <? 8); [| cbn [snd]; lia].
  cbn [snd currentBot]. rewrite bank_get_set_same.
  rewrite uint32_small by lia. lia.
Qed.

(** It leaves the other banks and all ceilings alone. *)
Lemma Allocate_other_banks size boundary bank cycles v b :
  b <> bank ->
  (currentBot (snd (Allocate size boundary bank cycles v))).[b] = (currentBot v).[b]
  /\ (bankCycles (snd (Allocate size boundary bank cycles v))).[b] = (bankCycles v).[b].
Proof.
  intros Hb. unfold Allocate. cbv zeta.
  destruct (_ >=? _); [| split; reflexivity].
  destruct (_ <? 8); [| split; reflexivity].
  cbn [snd currentBot bankCycles].
  rewrite !bank_get_set_other by congruence. split; reflexivity.
Qed.

Lemma Allocate_ceilings size boundary bank cycles v :
  currentTop (snd (Allocate size boundary bank cycles v)) = currentTop v.
Proof.
  unfold Allocate. cbv zeta.
  destruct (_ >=? _); [| reflexivity]. destruct (_ <? 8); reflexivity.
Qed.

(** Together: the allocator only grows, whatever the arguments. *)
Lemma Allocate_grows size boundary bank cycles v :
  vram_grows v (snd (Allocate size boundary bank cycles v)).
Proof.
  split; [apply Allocate_ceilings |]. intros Hwf.
  assert (Hbots : forall b,
    (currentBot v).[b] <= (currentBot (snd (Allocate size boundary bank cycles v))).[b]
    /\ (currentBot (snd (Allocate size boundary bank cycles v))).[b]
       <= (currentTop v).[b]).
  { intros b. destruct (Hwf b) as [Hb _].
    assert (Hdec : b = bank \/ b <> bank) by (destruct b, bank; auto; right; discriminate).
    destruct Hdec as [-> | Hne]; [apply Allocate_cursor; exact Hb |].
    destruct (Allocate_other_banks size boundary bank cycles v b Hne) as [-> _].
    destruct Hb as [[_ Hle] _]. lia. }
  split; [| intros b; apply Hbots].
  intros b. destruct (Hwf b) as [[[Hbot Hle] Htop] Hcyc].
  destruct (Hbots b) as [H1 H2].
  unfold bank_wf. rewrite Allocate_ceilings.
  split; [lia |].
  assert (Hdec : b = bank \/ b <> bank) by (destruct b, bank; auto; right; discriminate).
  destruct Hdec as [-> | Hne].
  - unfold Allocate. cbv zeta.
    destruct (_ >=? _); [| exact Hcyc]. destruct (_ <? 8); [| exact Hcyc].
    cbn [snd bankCycles currentBot currentTop]. rewrite bank_get_set_same.
    apply int8_range.
  - destruct (Allocate_other_banks size boundary bank cycles v b Hne) as [_ ->].
    exact Hcyc.
Qed.

Lemma vram_grows_refl v : vram_grows v v.
Proof. split; [reflexivity |]. intros H. split; [exact H | intros b; lia]. Qed.

Lemma vram_grows_trans a b c : vram_grows a b -> vram_grows b c -> vram_grows a c.
Proof.
  intros [Ht1 H1] [Ht2 H2]. split; [congruence |].
  intros Hwf. destruct (H1 Hwf) as [Hwb Hb1]. destruct (H2 Hwb) as [Hwc Hb2].
  split; [exact Hwc |]. intros x. specialize (Hb1 x). specialize (Hb2 x). lia.
Qed.

(** ** What [LoadTilemap] leaves alone *)

(** [load_frame] is a relation of the kind above, kept by [Allocate], by
    the updates of the screen and by the palette collaborator. *)
Lemma load_frame_refl scr st : load_frame scr st st.
Proof.
  unfold load_frame.
  repeat (split; [first [reflexivity | intros; reflexivity] |]). apply vram_grows_refl.
Qed.

Lemma load_frame_trans scr a b c :
  load_frame scr a b -> load_frame scr b c -> load_frame scr a c.
Proof.
  unfold load_frame.
  intros (H1 & H2 & H3 & H4 & H5 & H6 & H7 & H8 & H9)
         (G1 & G2 & G3 & G4 & G5 & G6 & G7 & G8 & G9).
  split; [intros s Hs; rewrite G1, H1 by exact Hs; reflexivity |].
  repeat (split; [congruence |]). exact (vram_grows_trans _ _ _ H9 G9).
Qed.

Lemma load_frame_relation scr : frame_relation (load_frame scr).
Proof.
  split; [apply load_frame_refl |]. split; [apply load_frame_trans |].
  intros st t. exact (load_frame_refl scr st).
Qed.

Lemma load_frame_Allocate scr : over_Allocate (load_frame scr).
Proof.
  intros size boundary bank cycles st. unfold load_frame.
  repeat (split; [first [reflexivity | intros; reflexivity] |]). apply Allocate_grows.
Qed.

Lemma load_frame_update scr f :
  (forall s, MapAllocSize (f s) = MapAllocSize s /\ CellAllocSize (f s) = CellAllocSize s) ->
  preserves (load_frame scr) (update_screen scr f).
Proof.
  intros Hf st. unfold update_screen, modify. cbn [snd]. unfold load_frame.
  rewrite the_screen_set_same. destruct (Hf (the_screen scr st)) as [-> ->].
  split; [intros s Hs; apply the_screen_set_other; exact Hs |].
  repeat (split; [reflexivity |]). apply vram_grows_refl.
Qed.

Lemma load_frame_GetFreeBank scr mode : preserves (load_frame scr) (CRAM_GetFreeBank mode).
Proof.
  intros st. unfold CRAM_GetFreeBank.
  destruct (cram_free st); exact (load_frame_refl scr st).
Qed.

Lemma with_keep_sizes :
  (forall a s, MapAllocSize (with_MapAddress a s) = MapAllocSize s
               /\ CellAllocSize (with_MapAddress a s) = CellAllocSize s)
  /\ (forall a s, MapAllocSize (with_CellAddress a s) = MapAllocSize s
                  /\ CellAllocSize (with_CellAddress a s) = CellAllocSize s)
  /\ (forall p s, MapAllocSize (with_TilePalette p s) = MapAllocSize s
                  /\ CellAllocSize (with_TilePalette p s) = CellAllocSize s)
  /\ (forall i s, MapAllocSize (with_Info i s) = MapAllocSize s
                  /\ CellAllocSize (with_Info i s) = CellAllocSize s).
Proof. repeat split. Qed.

Ltac frame_step scr :=
  lazymatch goal with
  | |- preserves _ (bind _ _) =>
      apply (pres_bind _ _ _ (load_frame_relation scr)); [| intros ?]
  | |- preserves _ get => apply (pres_get _ (load_frame_relation scr))
  | |- preserves _ (ret _) => apply (pres_ret _ _ (load_frame_relation scr))
  | |- preserves _ (emit _) => apply (pres_emit _ _ (load_frame_relation scr))
  | |- preserves _ (CRAM_GetFreeBank _) => apply load_frame_GetFreeBank
  | |- preserves _ (update_screen _ _) => apply load_frame_update; apply with_keep_sizes
  | |- preserves _ (AutoAllocateCell _ _) =>
      apply (pres_AutoAllocateCell _ _ _ (load_frame_relation scr) (load_frame_Allocate scr))
  | |- preserves _ (AutoAllocateMap _ _ _) =>
      apply (pres_AutoAllocateMap _ _ _ _ (load_frame_relation scr) (load_frame_Allocate scr))
  | |- preserves _ (Cell2VRAM _ _ _) =>
      apply (pres_emits _ _ _ (load_frame_relation scr) (Cell2VRAM_emits _ _ _))
  | |- preserves _ (Map2VRAM _ _ _ _ _) =>
      apply (pres_emits _ _ _ (load_frame_relation scr) (Map2VRAM_emits _ _ _ _ _))
  | |- preserves _ (Init _ _) =>
      apply (pres_emits _ _ _ (load_frame_relation scr) (Init_emits _ _))
  | |- preserves _ (if _ then _ else _) => apply pres_if
  end.

Lemma load_frame_SetPlanesDefault ext scr info :
  preserves (load_frame scr) (SetPlanesDefault ext scr info).
Proof.
  intros st. rewrite SetPlanesDefault_layout.
  destruct (default_layout _ _ _ _ _) as [[[a b] c] d].
  rewrite (SetMapLayout_emits ext scr a b c d st). apply load_frame_relation.
Qed.

Lemma load_frame_palette scr tilemap :
  preserves (load_frame scr) (LoadTilemap_palette scr tilemap).
Proof.
  unfold LoadTilemap_palette, Assert.
  frame_step scr; [frame_step scr |].
  destruct (ColorMode _); repeat frame_step scr.
Qed.

Lemma load_frame_finish ext scr tilemap :
  preserves (load_frame scr) (LoadTilemap_finish ext scr tilemap).
Proof.
  unfold LoadTilemap_finish.
  frame_step scr; [apply load_frame_palette |].
  destruct a; [| frame_step scr].
  frame_step scr; [frame_step scr |].
  frame_step scr;
    [destruct scr;
       first [apply load_frame_SetPlanesDefault | apply pres_ret, load_frame_relation] |].
  cbv zeta. repeat frame_step scr.
Qed.

Lemma load_frame_cells ext scr tilemap myInfo :
  preserves (load_frame scr) (LoadTilemap_cells ext scr tilemap myInfo).
Proof.
  unfold LoadTilemap_cells, Assert.
  frame_step scr; [frame_step scr |]. cbv zeta.
  repeat first [apply load_frame_finish | frame_step scr].
Qed.

Lemma load_frame_LoadTilemap ext scr tilemap :
  preserves (load_frame scr) (LoadTilemap ext scr tilemap).
Proof.
  unfold LoadTilemap, Assert. cbv zeta.
  repeat first [apply load_frame_cells | frame_step scr].
Qed.

(** ** What the placement functions and the palette leave alone *)

Lemma placement_frame_relation : frame_relation placement_frame.
Proof.
  unfold placement_frame. split; [intros st; split; reflexivity |].
  split; [intros a b c [H1 H2] [G1 G2]; split; congruence |].
  intros st t. split; reflexivity.
Qed.

Lemma placement_frame_Allocate : over_Allocate placement_frame.
Proof. intros size boundary bank cycles st. split; reflexivity. Qed.

Lemma with_TilePalette_same s : with_TilePalette (TilePalette s) s = s.
Proof. destruct s; reflexivity. Qed.

Lemma palette_frame_relation : frame_relation palette_frame.
Proof.
  unfold palette_frame. split; [| split].
  - intros st. split; [reflexivity |]. intros s. symmetry. apply with_TilePalette_same.
  - intros a b c [H1 H2] [G1 G2]. split; [congruence |].
    intros s. rewrite (G2 s) at 1. rewrite (H2 s). reflexivity.
  - intros st t. split; [reflexivity |]. intros s. symmetry. apply with_TilePalette_same.
Qed.

Lemma palette_frame_update scr p :
  preserves palette_frame (update_screen scr (with_TilePalette p)).
Proof.
  intros st. unfold update_screen, modify. cbn [snd]. split; [reflexivity |].
  intros s. assert (Hdec : s = scr \/ s <> scr) by (destruct s, scr; auto; right; discriminate).
  destruct Hdec as [-> | Hne].
  - rewrite the_screen_set_same. reflexivity.
  - rewrite the_screen_set_other by exact Hne. symmetry. apply with_TilePalette_same.
Qed.

Lemma palette_frame_GetFreeBank mode : preserves palette_frame (CRAM_GetFreeBank mode).
Proof.
  intros st. unfold CRAM_GetFreeBank.
  destruct (cram_free st); exact (proj1 palette_frame_relation st).
Qed.

Ltac palette_step :=
  lazymatch goal with
  | |- preserves _ (bind _ _) =>
      apply (pres_bind _ _ _ palette_frame_relation); [| intros ?]
  | |- preserves _ get => apply (pres_get _ palette_frame_relation)
  | |- preserves _ (ret _) => apply (pres_ret _ _ palette_frame_relation)
  | |- preserves _ (emit _) => apply (pres_emit _ _ palette_frame_relation)
  | |- preserves _ (CRAM_GetFreeBank _) => apply palette_frame_GetFreeBank
  | |- preserves _ (update_screen _ (with_TilePalette _)) => apply palette_frame_update
  | |- preserves _ (Cell2VRAM _ _ _) =>
      apply (pres_emits _ _ _ palette_frame_relation (Cell2VRAM_emits _ _ _))
  | |- preserves _ (Map2VRAM _ _ _ _ _) =>
      apply (pres_emits _ _ _ palette_frame_relation (Map2VRAM_emits _ _ _ _ _))
  | |- preserves _ (Init _ _) =>
      apply (pres_emits _ _ _ palette_frame_relation (Init_emits _ _))
  | |- preserves _ (if _ then _ else _) => apply pres_if
  end.

Lemma palette_frame_palette scr tilemap :
  preserves palette_frame (LoadTilemap_palette scr tilemap).
Proof.
  unfold LoadTilemap_palette, Assert.
  palette_step; [palette_step |].
  destruct (ColorMode _); repeat palette_step.
Qed.

Lemma palette_frame_SetPlanesDefault ext scr info :
  preserves palette_frame (SetPlanesDefault ext scr info).
Proof.
  intros st. rewrite SetPlanesDefault_layout.
  destruct (default_layout _ _ _ _ _) as [[[a b] c] d].
  rewrite (SetMapLayout_emits ext scr a b c d st). apply palette_frame_relation.
Qed.

Lemma palette_frame_finish ext scr tilemap :
  preserves palette_frame (LoadTilemap_finish ext scr tilemap).
Proof.
  unfold LoadTilemap_finish.
  palette_step; [apply palette_frame_palette |].
  destruct a; [| palette_step].
  palette_step; [palette_step |].
  palette_step;
    [destruct scr;
       first [apply palette_frame_SetPlanesDefault
             | apply pres_ret, palette_frame_relation] |].
  cbv zeta. repeat palette_step.
Qed.

(** The palette a successful palette step leaves. *)
Lemma LoadTilemap_palette_present scr tilemap st :
  fst (LoadTilemap_palette scr tilemap st) = true ->
  ColorMode (Info (the_screen scr st)) <> RGB555 ->
  Palette_has_data (TilePalette (the_screen scr (snd (LoadTilemap_palette scr tilemap st))))
  = true.
Proof.
  unfold LoadTilemap_palette, bind, get, Assert, emit, modify, ret, update_screen,
    CRAM_GetFreeBank.
  destruct (ColorMode (Info (the_screen scr st))) eqn:Hmode;
    try (intros _ H; contradiction H; reflexivity);
    intros Hok _;
    (destruct (Palette_has_data (TilePalette (the_screen scr st))) eqn:Hdata;
     cbn [negb] in *;
     [ cbn [fst snd]; exact Hdata |]);
    (destruct (cram_free st) as [| c rest];
     [ cbn in Hok; discriminate Hok |]);
    (destruct (c <? 0); [cbn in Hok; discriminate Hok |]);
    cbn [fst snd]; unfold the_screen, set_screen, set_screens, set_trace, set_cram_free;
    cbn [screens]; destruct scr; reflexivity.
Qed.

(** ** What a call that ends with [Loaded] has established *)

(** The end of [LoadTilemap], from the palette on. *)
Lemma LoadTilemap_finish_loaded ext scr tilemap st :
  fst (LoadTilemap_finish ext scr tilemap st) = Loaded ->
  let s' := the_screen scr (snd (LoadTilemap_finish ext scr tilemap st)) in
  MapAddress s' = MapAddress (the_screen scr st)
  /\ CellAddress s' = CellAddress (the_screen scr st)
  /\ Info s' = Info (the_screen scr st)
  /\ (ColorMode (Info (the_screen scr st)) <> RGB555 ->
      Palette_has_data (TilePalette s') = true).
Proof.
  intros Hok s'. subst s'.
  destruct (palette_frame_finish ext scr tilemap st) as [_ Hs].
  rewrite (Hs scr). cbn [with_TilePalette MapAddress CellAddress Info TilePalette].
  repeat (split; [reflexivity |]). intros Hmode.
  pose proof (LoadTilemap_palette_present scr tilemap st) as Hp.
  destruct (LoadTilemap_palette scr tilemap st) as [ok st1] eqn:E.
  cbn [fst snd] in Hp. destruct ok.
  - rewrite (LoadTilemap_finish_ok ext scr tilemap st st1 E). cbn [snd].
    apply Hp; [reflexivity | exact Hmode].
  - revert Hok. unfold LoadTilemap_finish, bind. rewrite E. intros H; discriminate H.
Qed.

(** The placement functions change no member of any screen. *)
Lemma AutoAllocateCell_screens info scr st :
  screens (snd (AutoAllocateCell info scr st)) = screens st.
Proof.
  apply (pres_AutoAllocateCell _ info scr placement_frame_relation placement_frame_Allocate).
Qed.

Lemma AutoAllocateMap_screens ext info scr st :
  screens (snd (AutoAllocateMap ext info scr st)) = screens st.
Proof.
  apply (pres_AutoAllocateMap _ ext info scr placement_frame_relation
                              placement_frame_Allocate).
Qed.

(** From the test of the cell address on. *)
Lemma LoadTilemap_cells_loaded ext scr tilemap myInfo st :
  fst (LoadTilemap_cells ext scr tilemap myInfo st) = Loaded ->
  let s' := the_screen scr (snd (LoadTilemap_cells ext scr tilemap myInfo st)) in
  MapAddress s' = MapAddress (the_screen scr st)
  /\ VDP2_VRAM_A0 ext <= uint32_t (CellAddress s')
  /\ Info s' = Info (the_screen scr st)
  /\ (ColorMode (Info (the_screen scr st)) <> RGB555 ->
      Palette_has_data (TilePalette s') = true).
Proof.
  unfold LoadTilemap_cells, bind, get, update_screen, modify, Assert, emit, ret.
  destruct (Z.ltb_spec (uint32_t (CellAddress (the_screen scr st))) (VDP2_VRAM_A0 ext))
    as [Hauto | Hset].
  - pose proof (AutoAllocateCell_screens myInfo scr st) as Hscr.
    destruct (AutoAllocateCell myInfo scr st) as [a st2]. cbn [snd] in Hscr.
    assert (Hs : the_screen scr st2 = the_screen scr st)
      by (unfold the_screen; rewrite Hscr; reflexivity).
    rewrite Hs.
    destruct (Z.ltb_spec (uint32_t a) (VDP2_VRAM_A0 ext)) as [Hbad | Hgood];
      [intros H; discriminate H |].
    intros Hok.
    destruct (LoadTilemap_finish_loaded ext scr tilemap _ Hok) as (H1 & H2 & H3 & H4).
    rewrite the_screen_set_same in H1, H2, H3, H4.
    cbn [with_CellAddress MapAddress CellAddress Info] in H1, H2, H3, H4.
    cbv zeta. rewrite H1, H2, H3. repeat split; try reflexivity; try lia. exact H4.
  - destruct (_ <? _); [intros H; discriminate H |].
    intros Hok.
    destruct (LoadTilemap_finish_loaded ext scr tilemap _ Hok) as (H1 & H2 & H3 & H4).
    cbv zeta. rewrite H1, H2, H3. repeat split; try reflexivity; try lia. exact H4.
Qed.

(** The whole call. *)
Lemma LoadTilemap_loaded ext scr tilemap st :
  fst (LoadTilemap ext scr tilemap st) = Loaded ->
  let s' := the_screen scr (snd (LoadTilemap ext scr tilemap st)) in
  VDP2_VRAM_A0 ext <= uint32_t (MapAddress s')
  /\ VDP2_VRAM_A0 ext <= uint32_t (CellAddress s')
  /\ Info s' = GetInfo tilemap
  /\ (ColorMode (GetInfo tilemap) <> RGB555 -> Palette_has_data (TilePalette s') = true).
Proof.
  unfold LoadTilemap, bind, get, update_screen, modify, Assert, emit, ret. cbv zeta.
  rewrite !the_screen_set_same. cbn [with_Info MapAddress Info MapAllocSize].
  set (st1 := set_screen scr _ st).
  assert (Hst1 : the_screen scr st1
                 = with_Info (GetInfo tilemap) (the_screen scr st))
    by (apply the_screen_set_same).
  destruct (Z.ltb_spec (uint32_t (MapAddress (the_screen scr st))) (VDP2_VRAM_A0 ext))
    as [Hauto | Hset].
  - pose proof (AutoAllocateMap_screens ext (GetInfo tilemap) scr st1) as Hscr.
    destruct (AutoAllocateMap ext (GetInfo tilemap) scr st1) as [a st2].
    cbn [snd] in Hscr.
    assert (Hs : the_screen scr st2 = the_screen scr st1)
      by (unfold the_screen; rewrite Hscr; reflexivity).
    rewrite Hs, Hst1.
    destruct (Z.ltb_spec (uint32_t a) (VDP2_VRAM_A0 ext)) as [Hbad | Hgood];
      [intros H; discriminate H |].
    intros Hok.
    destruct (LoadTilemap_cells_loaded ext scr tilemap _ _ Hok) as (H1 & H2 & H3 & H4).
    rewrite the_screen_set_same in H1, H3, H4.
    cbn [with_MapAddress with_Info MapAddress CellAddress Info] in H1, H3, H4.
    rewrite H1, H3. repeat split; try reflexivity; try lia; assumption.
  - destruct (_ <? _); [intros H; discriminate H |].
    intros Hok.
    destruct (LoadTilemap_cells_loaded ext scr tilemap _ _ Hok) as (H1 & H2 & H3 & H4).
    rewrite Hst1 in H1, H3, H4.
    cbn [with_Info MapAddress CellAddress Info] in H1, H3, H4.
    rewrite H1, H3. repeat split; try reflexivity; try lia; assumption.
Qed.

(** ** Manual regions *)

Lemma int32_small x : - 2 ^ 31 <= x < 2 ^ 31 -> int32_t x = x.
Proof.
  intros H. unfold int32_t. rewrite Z.mod_small by lia. lia.
Qed.

(** The size [LoadTilemap] compares a map region with is the byte count
    of the map, two bytes per entry or four when [MapMode] is 0, as long
    as that count is an [int]. *)
Lemma map_region_test_small info :
  0 <= MapWidth info -> 0 <= MapHeight info ->
  MapWidth info * MapHeight info * (if MapMode info =? 0 then 4 else 2) < 2 ^ 31 ->
  int32_t (Z.shiftl (int32_t (MapWidth info * MapHeight info))
                    (1 + (if MapMode info =? 0 then 1 else 0)))
  = MapWidth info * MapHeight info * (if MapMode info =? 0 then 4 else 2).
Proof.
  intros Hw Hh Hlt.
  assert (Hwh : 0 <= MapWidth info * MapHeight info) by nia.
  rewrite (int32_small (MapWidth info * MapHeight info))
    by (destruct (MapMode info =? 0); lia).
  destruct (MapMode info =? 0); cbn [Z.add Pos.add Pos.succ];
    rewrite Z.shiftl_mul_pow2 by lia; apply int32_small;
    [change (2 ^ 2) with 4 | change (2 ^ 1) with 2]; lia.
Qed.

(** A count that is no [int] wraps: 32768 by 32768 one-word entries
    come out as the least [int], which no [MapAllocSize] lies below. *)
Example map_region_test_wraps :
  int32_t (Z.shiftl (int32_t (32768 * 32768)) (1 + (if 1 =? 0 then 1 else 0)))
  = - 2 ^ 31.
Proof. reflexivity. Qed.

(** The test of a region set with [SetMapAddress]. *)
Lemma LoadTilemap_map_region_short ext scr tilemap st :
  VDP2_VRAM_A0 ext <= uint32_t (MapAddress (the_screen scr st)) ->
  MapAllocSize (the_screen scr st)
    < int32_t (Z.shiftl (int32_t (MapWidth (GetInfo tilemap) * MapHeight (GetInfo tilemap)))
                        (1 + (if MapMode (GetInfo tilemap) =? 0 then 1 else 0))) ->
  LoadTilemap ext scr tilemap st
  = (Aborted,
     snd (Assert "Tilemap Load Failed- MAP DATA exceeds existing VRAM allocation"
            (set_screen scr (with_Info (GetInfo tilemap) (the_screen scr st)) st))).
Proof.
  intros Hvalid Hshort.
  unfold LoadTilemap, bind, get, update_screen, modify, ret. cbv zeta.
  rewrite !the_screen_set_same. cbn [with_Info MapAddress Info MapAllocSize].
  destruct (Z.ltb_spec (uint32_t (MapAddress (the_screen scr st))) (VDP2_VRAM_A0 ext));
    [lia |].
  destruct (Z.ltb_spec (MapAllocSize (the_screen scr st))
              (int32_t
                 (Z.shiftl (int32_t (MapWidth (GetInfo tilemap) * MapHeight (GetInfo tilemap)))
                           (1 + (if MapMode (GetInfo tilemap) =? 0 then 1 else 0)))));
    [| lia].
  destruct (Assert _ _) as [[] st2]. reflexivity.
Qed.

(** With both regions set by hand and large enough, the call goes
    straight to the palette. *)
Lemma LoadTilemap_manual ext scr tilemap st :
  VDP2_VRAM_A0 ext <= uint32_t (MapAddress (the_screen scr st)) ->
  VDP2_VRAM_A0 ext <= uint32_t (CellAddress (the_screen scr st)) ->
  int32_t (Z.shiftl (int32_t (MapWidth (GetInfo tilemap) * MapHeight (GetInfo tilemap)))
                    (1 + (if MapMode (GetInfo tilemap) =? 0 then 1 else 0)))
    <= MapAllocSize (the_screen scr st) ->
  CellByteSize (GetInfo tilemap) <= CellAllocSize (the_screen scr st) ->
  LoadTilemap ext scr tilemap st
  = LoadTilemap_finish ext scr tilemap
      (set_screen scr (with_Info (GetInfo tilemap) (the_screen scr st)) st).
Proof.
  intros Hmap Hcell Hms Hcs.
  unfold LoadTilemap, LoadTilemap_cells, bind, get, update_screen, modify, ret. cbv zeta.
  rewrite !the_screen_set_same.
  cbn [with_Info MapAddress CellAddress Info MapAllocSize CellAllocSize].
  destruct (Z.ltb_spec (uint32_t (MapAddress (the_screen scr st))) (VDP2_VRAM_A0 ext));
    [lia |].
  destruct (Z.ltb_spec (MapAllocSize (the_screen scr st))
              (int32_t
                 (Z.shiftl (int32_t (MapWidth (GetInfo tilemap) * MapHeight (GetInfo tilemap)))
                           (1 + (if MapMode (GetInfo tilemap) =? 0 then 1 else 0)))));
    [lia |].
  cbv beta iota. rewrite !the_screen_set_same.
  cbn [with_Info MapAddress CellAddress Info MapAllocSize CellAllocSize].
  destruct (Z.ltb_spec (uint32_t (CellAddress (the_screen scr st))) (VDP2_VRAM_A0 ext));
    [lia |].
  destruct (Z.ltb_spec (CellAllocSize (the_screen scr st)) (CellByteSize (GetInfo tilemap)));
    [lia |].
  reflexivity.
Qed.

(** ** Where the transfers write *)

(** The stores of the two transfers and of the end of [LoadTilemap]. *)
Lemma Cell2VRAM_events_within cellData cell csize map msize :
  0 <= cell -> 0 <= csize -> cell + csize <= 2 ^ 32 ->
  Forall (store_within cell csize map msize) (Cell2VRAM_events cellData cell csize).
Proof.
  intros Hc Hs Hlim. unfold Cell2VRAM_events. apply Forall_forall. intros e He.
  apply in_map_iff in He. destruct He as (i & <- & Hi). apply in_seq in Hi.
  assert (Hsz : uint32_t csize = csize \/ csize = 2 ^ 32).
  { destruct (Z.eq_dec csize (2 ^ 32)) as [-> | Hne]; [right; reflexivity |].
    left. apply uint32_small. lia. }
  cbn [store_within].
  destruct Hsz as [Hsz | ->].
  - rewrite Hsz in Hi. rewrite uint32_small by lia. lia.
  - exfalso. change (uint32_t (2 ^ 32)) with 0 in Hi. cbn in Hi. lia.
Qed.

Lemma Map2VRAM_events_within info mapData cell csize map paloff mapoff :
  0 <= map -> 0 <= MapWidth info -> 0 <= MapHeight info ->
  map + MapWidth info * MapHeight info * 2 * (if MapMode info =? 0 then 2 else 1)
    <= 2 ^ 32 ->
  Forall (store_within cell csize map
            (MapWidth info * MapHeight info * 2 * (if MapMode info =? 0 then 2 else 1)))
         (Map2VRAM_events info mapData map paloff mapoff).
Proof.
  intros Hm Hw Hh Hlim. unfold Map2VRAM_events. apply Forall_forall. intros e He.
  apply in_flat_map in He. destruct He as (i & Hi & He).
  apply in_map_iff in He. destruct He as (j & <- & Hj).
  apply in_seq in Hi. apply in_seq in Hj.
  assert (Hn : 0 <= Z.of_nat (i * Z.to_nat (MapWidth info) + j)
               < MapWidth info * MapHeight info).
  { rewrite Nat2Z.inj_add, Nat2Z.inj_mul, Z2Nat.id by lia.
    assert (Z.of_nat i < MapHeight info) by lia.
    assert (Z.of_nat j < MapWidth info) by lia. nia. }
  set (n := (i * Z.to_nat (MapWidth info) + j)%nat) in *.
  unfold map_store. destruct (MapMode info =? 0); cbn [negb store_within];
    rewrite uint32_small by lia; lia.
Qed.

Lemma bookkeeping_within cell csize map msize pre :
  forallb is_bookkeeping pre = true -> Forall (store_within cell csize map msize) pre.
Proof.
  intros H. apply Forall_forall. intros e He.
  rewrite forallb_forall in H. specialize (H e He). destruct e; try discriminate H; exact I.
Qed.

Lemma finish_events_within ext scr tilemap st :
  let s := the_screen scr st in
  0 <= CellAddress s -> 0 <= CellByteSize (Info s) ->
  CellAddress s + CellByteSize (Info s) <= 2 ^ 32 ->
  0 <= MapAddress s -> 0 <= MapWidth (Info s) -> 0 <= MapHeight (Info s) ->
  MapAddress s + MapWidth (Info s) * MapHeight (Info s) * 2
                 * (if MapMode (Info s) =? 0 then 2 else 1) <= 2 ^ 32 ->
  Forall (store_within (CellAddress s) (CellByteSize (Info s)) (MapAddress s)
            (MapWidth (Info s) * MapHeight (Info s) * 2
             * (if MapMode (Info s) =? 0 then 2 else 1)))
         (finish_events ext scr tilemap st).
Proof.
  intros s Hc Hcs Hcl Hm Hw Hh Hml. unfold finish_events. fold s.
  repeat (apply Forall_app; split).
  - destruct scr;
      try (destruct (default_layout _ _ _ _ _) as [[[a b] c] d]);
      cbn [SetPlanes_events]; repeat constructor.
  - apply Cell2VRAM_events_within; assumption.
  - apply Map2VRAM_events_within; assumption.
  - destruct scr; cbn [Init_events]; repeat constructor.
Qed.

(** ** The banks of a map *)

(** The padding for a boundary that is a power of two: less than the
    boundary, and the padded address is a multiple of it. *)
Lemma padding_pow2 bot k :
  0 <= bot < 2 ^ 32 -> 0 <= k < 32 ->
  0 <= padding bot (2 ^ k) < 2 ^ k
  /\ (bot + padding bot (2 ^ k)) mod 2 ^ k = 0.
Proof.
  intros Hbot Hk. unfold padding.
  assert (Hpow : 0 < 2 ^ k) by (apply Z.pow_pos_nonneg; lia).
  assert (Hp32 : 2 ^ k < 2 ^ 32) by (apply Z.pow_lt_mono_r; lia).
  rewrite (uint32_small bot) by exact Hbot.
  rewrite (uint32_small (2 ^ k - 1)) by lia.
  replace (2 ^ k - 1) with (Z.ones k) by (rewrite Z.ones_equiv; lia).
  rewrite Z.land_ones by lia.
  pose proof (Z.mod_pos_bound bot (2 ^ k) Hpow) as Hm.
  destruct (Z.eqb_spec (bot mod 2 ^ k) 0) as [E | E].
  - rewrite Z.add_0_r. split; [lia | exact E].
  - rewrite uint32_small by lia. split; [lia |].
    replace (bot + (2 ^ k - bot mod 2 ^ k))
      with (bot - bot mod 2 ^ k + 1 * 2 ^ k) by lia.
    rewrite Z.mod_add by lia.
    rewrite Zminus_mod, Z.mod_mod, Z.sub_diag by lia. reflexivity.
Qed.

(** The boundary of a map is a power of two from 0x800 to 0x40000. *)
Lemma map_boundary_pow2 ext info :
  exists k, 11 <= k <= 18 /\ map_boundary ext info = 2 ^ k.
Proof.
  unfold map_boundary.
  destruct (CharSize info =? _), (PlaneSize info =? PL_SIZE_2x2 ext),
    (PlaneSize info =? PL_SIZE_2x1 ext), (MapMode info =? _);
    first [ exists 11; split; [lia | reflexivity] | exists 12; split; [lia | reflexivity]
          | exists 13; split; [lia | reflexivity] | exists 14; split; [lia | reflexivity]
          | exists 15; split; [lia | reflexivity] | exists 16; split; [lia | reflexivity]
          | exists 17; split; [lia | reflexivity] | exists 18; split; [lia | reflexivity] ].
Qed.

Lemma map_padding_small ext info bot :
  0 <= bot < 2 ^ 32 -> 0 <= padding bot (map_boundary ext info) < 2 ^ 18.
Proof.
  intros Hbot. destruct (map_boundary_pow2 ext info) as (k & Hk & ->).
  destruct (padding_pow2 bot k Hbot) as [Hp _]; [lia |].
  assert (2 ^ k <= 2 ^ 18) by (apply Z.pow_le_mono_r; lia). lia.
Qed.

(** The last statement of [AutoAllocateMap] as a first fit. *)
Lemma AutoAllocateMap_banks_run sz page_sz screen st :
  vram_wf (vram st) -> 0 <= sz ->
  (forall bank, sz + padding (currentBot (vram st)).[bank] page_sz < 2 ^ 32) ->
  AutoAllocateMap_banks sz page_sz screen st =
    match first_fit (map_bank_order screen (vram st)) sz page_sz (map_cycles screen)
                    (vram st) with
    | Some (bank, a, v') => (a, set_vram v' st)
    | None => (nullptr, snd (Assert (map_failure screen) st))
    end.
Proof.
  intros Hwf Hs Hlim.
  assert (Htry : forall bank cycles,
    in_vram (Allocate sz page_sz bank cycles) st =
      if fst (Allocate sz page_sz bank cycles (vram st)) =? nullptr
      then (nullptr, st)
      else (fst (Allocate sz page_sz bank cycles (vram st)),
            set_vram (snd (Allocate sz page_sz bank cycles (vram st))) st)).
  { intros bank cycles. apply in_vram_Allocate; [apply Hwf | exact Hs | apply Hlim]. }
  unfold AutoAllocateMap_banks. cbv zeta.
  destruct screen; cbn [map_bank_order map_cycles map_failure]; unfold bind, get;
    try (destruct ((bankCycles (vram st)).[A0] =? 7); cbn [negb]);
    cbn [first_fit]; rewrite ?Z.eqb_refl; cbv beta iota;
    repeat (rewrite ?Htry;
            match goal with
            | |- context [fst (Allocate ?s ?b ?k ?c ?v) =? nullptr] =>
                destruct (fst (Allocate s b k c v) =? nullptr) eqn:?
            end;
            unfold ret; cbv beta iota;
            rewrite ?Z.eqb_refl;
            repeat match goal with
                   | H : (?a =? nullptr) = false |- context [?a =? nullptr] =>
                       rewrite H; cbv beta iota
                   end);
    unfold ret; cbv beta iota; rewrite ?Z.eqb_refl; first [reflexivity | congruence].
Qed.

Lemma AutoAllocateMap_first_fit_run ext info screen st :
  vram_wf (vram st) ->
  0 <= MapWidth info -> 0 <= MapHeight info ->
  MapWidth info * MapHeight info * 4 < 2 ^ 32 - 2 ^ 18 ->
  AutoAllocateMap ext info screen st =
    match first_fit (map_bank_order screen (vram st)) (map_size ext info)
                    (map_boundary ext info) (map_cycles screen) (vram st) with
    | Some (bank, a, v') => (a, set_vram v' st)
    | None => (nullptr, snd (Assert (map_failure screen) st))
    end.
Proof.
  intros Hwf Hw Hh Hlim.
  rewrite AutoAllocateMap_run by lia.
  assert (Hms : 0 <= map_size ext info <= MapWidth info * MapHeight info * 4)
    by (unfold map_size; destruct (MapMode info =? _); nia).
  apply AutoAllocateMap_banks_run; [exact Hwf | lia |].
  intros bank. destruct (Hwf bank) as [[[Hb Hle] Ht] _].
  pose proof (map_padding_small ext info (currentBot (vram st)).[bank]). lia.
Qed.

(** ** RBG0 and the banks it reserves *)

(** A request whose cycles do not fit fails whatever its size. *)
Lemma Allocate_out_of_cycles size boundary bank cycles v :
  8 <= (bankCycles v).[bank] + cycles ->
  Allocate size boundary bank cycles v = (nullptr, v).
Proof.
  intros H. unfold Allocate. cbv zeta.
  destruct (_ >=? _); [| reflexivity].
  destruct (Z.ltb_spec ((bankCycles v).[bank] + cycles) 8); [lia | reflexivity].
Qed.

Lemma AutoAllocateMap_RBG0_blocked ext info st :
  0 <= (bankCycles (vram st)).[A0] ->
  AutoAllocateMap ext info RBG0 st
  = (nullptr, snd (Assert "RBG Map Allocation failed: insufficient VRAM" st)).
Proof.
  intros H. unfold AutoAllocateMap, AutoAllocateMap_banks, bind, in_vram. cbv zeta.
  rewrite Allocate_out_of_cycles by lia. rewrite set_vram_same.
  rewrite Z.eqb_refl. reflexivity.
Qed.

(** The palette step succeeds when no palette is needed, when the screen
    has one, or when the collaborator has a free bank. *)
Lemma LoadTilemap_palette_ok scr tilemap st :
  ColorMode (Info (the_screen scr st)) = RGB555
  \/ Palette_has_data (TilePalette (the_screen scr st)) = true
  \/ (exists p rest, cram_free st = p :: rest /\ 0 <= p) ->
  fst (LoadTilemap_palette scr tilemap st) = true.
Proof.
  intros H.
  unfold LoadTilemap_palette, bind, get, Assert, emit, modify, ret, update_screen,
    CRAM_GetFreeBank.
  destruct (ColorMode (Info (the_screen scr st))) eqn:Hmode; try reflexivity;
    (destruct (Palette_has_data (TilePalette (the_screen scr st))) eqn:Hdata;
     cbn [negb]; [reflexivity |]);
    (destruct H as [H | [H | (p & rest & Hfree & Hp)]]; [discriminate H | discriminate H |]);
    rewrite Hfree;
    (destruct (Z.ltb_spec p 0); [lia | reflexivity]).
Qed.

(** A call that places both the map and the cells. *)
Lemma LoadTilemap_auto ext scr tilemap st amap st2 acell st4 :
  uint32_t (MapAddress (the_screen scr st)) < VDP2_VRAM_A0 ext ->
  uint32_t (CellAddress (the_screen scr st)) < VDP2_VRAM_A0 ext ->
  AutoAllocateMap ext (GetInfo tilemap) scr
    (set_screen scr (with_Info (GetInfo tilemap) (the_screen scr st)) st) = (amap, st2) ->
  VDP2_VRAM_A0 ext <= uint32_t amap ->
  AutoAllocateCell (GetInfo tilemap) scr
    (set_screen scr (with_MapAddress amap (the_screen scr st2)) st2) = (acell, st4) ->
  VDP2_VRAM_A0 ext <= uint32_t acell ->
  fst (LoadTilemap_palette scr tilemap
         (set_screen scr (with_CellAddress acell (the_screen scr st4)) st4)) = true ->
  fst (LoadTilemap ext scr tilemap st) = Loaded
  /\ vram (snd (LoadTilemap ext scr tilemap st)) = vram st4
  /\ MapAddress (the_screen scr (snd (LoadTilemap ext scr tilemap st))) = amap
  /\ CellAddress (the_screen scr (snd (LoadTilemap ext scr tilemap st))) = acell.
Proof.
  intros Hmap Hcell Hm Hmv Hc Hcv Hpal.
  pose proof (AutoAllocateMap_screens ext (GetInfo tilemap) scr
                (set_screen scr (with_Info (GetInfo tilemap) (the_screen scr st)) st))
    as Hs2.
  rewrite Hm in Hs2. cbn [snd] in Hs2.
  assert (H2 : the_screen scr st2 = with_Info (GetInfo tilemap) (the_screen scr st))
    by (unfold the_screen at 1; rewrite Hs2; apply the_screen_set_same).
  pose proof (AutoAllocateCell_screens (GetInfo tilemap) scr
                (set_screen scr (with_MapAddress amap (the_screen scr st2)) st2)) as Hs4.
  rewrite Hc in Hs4. cbn [snd] in Hs4.
  assert (H4 : the_screen scr st4 = with_MapAddress amap (the_screen scr st2))
    by (unfold the_screen at 1; rewrite Hs4; apply the_screen_set_same).
  set (st5 := set_screen scr (with_CellAddress acell (the_screen scr st4)) st4) in *.
  assert (Hrun : LoadTilemap ext scr tilemap st = LoadTilemap_finish ext scr tilemap st5).
  { unfold LoadTilemap, bind, get, update_screen, modify, ret. cbv zeta.
    rewrite !the_screen_set_same. cbn [with_Info MapAddress].
    destruct (Z.ltb_spec (uint32_t (MapAddress (the_screen scr st))) (VDP2_VRAM_A0 ext));
      [| lia].
    rewrite Hm.
    destruct (Z.ltb_spec (uint32_t amap) (VDP2_VRAM_A0 ext)); [lia |].
    unfold LoadTilemap_cells, bind, get, update_screen, modify, ret.
    rewrite !the_screen_set_same, H2.
    cbn [with_MapAddress with_Info CellAddress].
    destruct (Z.ltb_spec (uint32_t (CellAddress (the_screen scr st))) (VDP2_VRAM_A0 ext));
      [| lia].
    rewrite <- H2. rewrite Hc.
    destruct (Z.ltb_spec (uint32_t acell) (VDP2_VRAM_A0 ext)); [lia |].
    reflexivity. }
  rewrite Hrun.
  destruct (LoadTilemap_palette scr tilemap st5) as [ok st6] eqn:E.
  cbn [fst] in Hpal. subst ok.
  destruct (palette_frame_finish ext scr tilemap st5) as [Hv Hs].
  rewrite (LoadTilemap_finish_ok ext scr tilemap st5 st6 E) in *. cbn [fst snd] in *.
  split; [reflexivity |]. split; [exact Hv |].
  rewrite (Hs scr). unfold st5. rewrite the_screen_set_same, H4.
  split; reflexivity.
Qed.

(** Bank A0 of the console starts on every boundary a map can have. *)
Lemma padding_A0_map info :
  padding (VDP2_VRAM_A0 saturn) (map_boundary saturn info) = 0.
Proof.
  unfold map_boundary.
  destruct (CharSize info =? CHAR_SIZE_1x1 saturn),
           (MapMode info =? PNB_2WORD saturn),
           (PlaneSize info =? PL_SIZE_2x2 saturn),
           (PlaneSize info =? PL_SIZE_2x1 saturn); reflexivity.
Qed.

(** ** The request for a map *)

(** One call of [Allocate] in a well-formed bank: it succeeds exactly
    when the bank takes the request. *)
Lemma Allocate_when_taken size boundary bank cycles v :
  bank_wf v bank -> 0 <= size ->
  size + padding (currentBot v).[bank] boundary < 2 ^ 32 ->
  - 2 ^ 7 <= (bankCycles v).[bank] + cycles ->
  (bank_takes v bank size boundary cycles
   /\ Allocate size boundary bank cycles v
      = ((currentBot v).[bank] + padding (currentBot v).[bank] boundary,
         mkVRAM (bank_set (currentBot v) bank
                   ((currentBot v).[bank] + padding (currentBot v).[bank] boundary + size))
                (currentTop v)
                (bank_set (bankCycles v) bank ((bankCycles v).[bank] + cycles))))
  \/ (~ bank_takes v bank size boundary cycles
      /\ Allocate size boundary bank cycles v = (nullptr, v)).
Proof.
  intros Hwf Hs Hlim Hcyc. unfold bank_takes.
  destruct (Z_le_gt_dec ((currentBot v).[bank]
                         + padding (currentBot v).[bank] boundary + size)
                        (currentTop v).[bank]) as [Hfit | Hnofit].
  - destruct (Z_lt_ge_dec ((bankCycles v).[bank] + cycles) 8) as [Hc | Hc].
    + left. split; [split; assumption |].
      apply Allocate_success; try assumption. lia.
    + right. split; [lia |]. apply Allocate_out_of_cycles. lia.
  - right. split; [lia |]. apply Allocate_no_room; assumption.
Qed.

(** The first bank of a list that takes the request gives the address,
    and the request is taken from that bank alone. *)
Lemma first_fit_taken order size boundary cycles v :
  (forall b, bank_wf v b) -> 0 <= size ->
  (forall b, size + padding (currentBot v).[b] boundary < 2 ^ 32) ->
  (forall b, - 2 ^ 7 <= (bankCycles v).[b] + cycles) ->
  match first_fit order size boundary cycles v with
  | Some (bank, a, v') =>
      In bank order /\ bank_takes v bank size boundary cycles
      /\ a = (currentBot v).[bank] + padding (currentBot v).[bank] boundary
      /\ v' = mkVRAM (bank_set (currentBot v) bank (a + size)) (currentTop v)
                     (bank_set (bankCycles v) bank ((bankCycles v).[bank] + cycles))
  | None => forall bank, In bank order -> ~ bank_takes v bank size boundary cycles
  end.
Proof.
  intros Hwf Hs Hlim Hcyc. induction order as [| b rest IH]; cbn [first_fit].
  - intros bank [].
  - destruct (Allocate_when_taken size boundary b cycles v (Hwf b) Hs (Hlim b) (Hcyc b))
      as [[Ht Heq] | [Hnt Heq]]; rewrite Heq; cbn [fst snd].
    + pose proof (padding_nonneg (currentBot v).[b] boundary) as Hp.
      destruct (Hwf b) as [[Hb _] _].
      destruct (Z.eqb_spec ((currentBot v).[b] + padding (currentBot v).[b] boundary)
                           nullptr) as [He | _];
        [unfold nullptr in He; lia |].
      repeat split; [left; reflexivity | apply Ht | apply Ht].
    + rewrite Z.eqb_refl.
      destruct (first_fit rest size boundary cycles v) as [[[bank a] v'] |].
      * destruct IH as (Hin & IH). split; [right; exact Hin | exact IH].
      * intros bank [<- | Hin]; [exact Hnt | apply IH; exact Hin].
Qed.

(** C6.  What [AutoAllocateMap] asks the allocator for is fixed by the
    geometry: a size of width times height times 2 bytes, doubled for
    two-word entries, at a boundary of 0x800 bytes, times 4 for 1x1
    cells, times 2 for 2x1 planes or 4 for 2x2 planes, times 2 for
    two-word entries.  In every reachable state of the allocator and for
    every map of less than 2^32 - 2^18 bytes, the call succeeds exactly
    when one of the banks it may use takes that size at that boundary;
    the address it then returns is that bank's cursor moved up to the
    next multiple of the boundary, the cursor afterwards stands exactly
    the size above the address, and the cursors of the other banks
    stay.  No other field of the tilemap's [Info] enters: two tilemaps
    of the same width, height, cell size, plane size and map mode get
    the same answer in the same state. *)
Theorem AutoAllocateMap_request ext info screen st :
  vram_wf (vram st) ->
  0 <= MapWidth info -> 0 <= MapHeight info ->
  MapWidth info * MapHeight info * 4 < 2 ^ 32 - 2 ^ 18 ->
  let size :=
    MapWidth info * MapHeight info * 2
    * (if MapMode info =? PNB_2WORD ext then 2 else 1) in
  let boundary :=
    0x800
    * (if CharSize info =? CHAR_SIZE_1x1 ext then 4 else 1)
    * (if PlaneSize info =? PL_SIZE_2x2 ext then 4
       else if PlaneSize info =? PL_SIZE_2x1 ext then 2 else 1)
    * (if MapMode info =? PNB_2WORD ext then 2 else 1) in
  let v := vram st in
  let r := AutoAllocateMap ext info screen st in
  (fst r <> nullptr <->
     exists bank, In bank (map_bank_order screen v)
                  /\ bank_takes v bank size boundary (map_cycles screen))
  /\ (fst r <> nullptr ->
      exists bank, In bank (map_bank_order screen v)
        /\ fst r = (currentBot v).[bank] + padding (currentBot v).[bank] boundary
        /\ fst r mod boundary = 0
        /\ (currentBot v).[bank] <= fst r < (currentBot v).[bank] + boundary
        /\ (currentBot (vram (snd r))).[bank] = fst r + size
        /\ (forall b, b <> bank ->
              (currentBot (vram (snd r))).[b] = (currentBot v).[b]))
  /\ (forall info',
        MapWidth info' = MapWidth info -> MapHeight info' = MapHeight info ->
        CharSize info' = CharSize info -> PlaneSize info' = PlaneSize info ->
        MapMode info' = MapMode info ->
        AutoAllocateMap ext info' screen st = r).
Proof.
  intros Hwf Hw Hh Hlim size boundary v r.
  assert (Hpure : forall info',
            MapWidth info' = MapWidth info -> MapHeight info' = MapHeight info ->
            CharSize info' = CharSize info -> PlaneSize info' = PlaneSize info ->
            MapMode info' = MapMode info ->
            AutoAllocateMap ext info' screen st = r).
  { intros info' Ew Eh Ec Ep Em. unfold r, AutoAllocateMap.
    rewrite Ew, Eh, Ec, Ep, Em. reflexivity. }
  cut ((fst r <> nullptr <->
          exists bank, In bank (map_bank_order screen v)
                       /\ bank_takes v bank size boundary (map_cycles screen))
       /\ (fst r <> nullptr ->
           exists bank, In bank (map_bank_order screen v)
             /\ fst r = (currentBot v).[bank] + padding (currentBot v).[bank] boundary
             /\ fst r mod boundary = 0
             /\ (currentBot v).[bank] <= fst r < (currentBot v).[bank] + boundary
             /\ (currentBot (vram (snd r))).[bank] = fst r + size
             /\ (forall b, b <> bank ->
                   (currentBot (vram (snd r))).[b] = (currentBot v).[b])));
    [intros [Hiff Hplace]; split; [exact Hiff | split; [exact Hplace | exact Hpure]] |].
  clear Hpure.
  change size with (map_size ext info) in *.
  change boundary with (map_boundary ext info) in *.
  assert (Hms : 0 <= map_size ext info <= MapWidth info * MapHeight info * 4)
    by (unfold map_size; destruct (MapMode info =? _); nia).
  assert (Hpad : forall b, 0 <= padding (currentBot v).[b] (map_boundary ext info) < 2 ^ 18).
  { intros b. destruct (Hwf b) as [[[Hb Hle] Ht] _].
    apply map_padding_small. subst v. lia. }
  pose proof (first_fit_taken (map_bank_order screen v) (map_size ext info)
                (map_boundary ext info) (map_cycles screen) v) as Hff.
  assert (Hr : r = match first_fit (map_bank_order screen v) (map_size ext info)
                           (map_boundary ext info) (map_cycles screen) v with
                   | Some (bank, a, v') => (a, set_vram v' st)
                   | None => (nullptr, snd (Assert (map_failure screen) st))
                   end)
    by (apply AutoAllocateMap_first_fit_run; assumption).
  destruct (first_fit _ _ _ _ _) as [[[bank a] v'] |].
  - destruct Hff as (Hin & Htakes & Ha & Hv').
    + intros b. apply Hwf.
    + lia.
    + intros b. specialize (Hpad b). lia.
    + intros b. destruct (Hwf b) as [_ Hc]. subst v. destruct screen; cbn [map_cycles]; lia.
    + rewrite Hr. cbn [fst snd].
      assert (Hnn : a <> nullptr).
      { destruct (Hwf bank) as [[[Hb _] _] _]. specialize (Hpad bank).
        subst v. unfold nullptr. lia. }
      split.
      * split; [intros _; exists bank; split; assumption | intros _; exact Hnn].
      * intros _. exists bank.
        destruct (map_boundary_pow2 ext info) as (k & Hk & Hbk).
        destruct (Hwf bank) as [[[Hb Hle] Ht] _].
        destruct (padding_pow2 (currentBot v).[bank] k) as [Hp Hal];
          [subst v; lia | lia |].
        rewrite <- Hbk in Hp, Hal.
        assert (Hvv : vram (set_vram v' st) = v') by (destruct st; reflexivity).
        rewrite Hvv, Hv'. cbn [currentBot].
        repeat split.
        -- exact Hin.
        -- exact Ha.
        -- rewrite Ha. exact Hal.
        -- lia.
        -- lia.
        -- apply bank_get_set_same.
        -- intros b Hb'. apply bank_get_set_other. congruence.
  - assert (Hnone : forall bank, In bank (map_bank_order screen v) ->
                ~ bank_takes v bank (map_size ext info) (map_boundary ext info)
                    (map_cycles screen)).
    { apply Hff.
      - intros b. apply Hwf.
      - lia.
      - intros b. specialize (Hpad b). lia.
      - intros b. destruct (Hwf b) as [_ Hc]. subst v.
        destruct screen; cbn [map_cycles]; lia. }
    rewrite Hr. cbn [fst].
    split.
    + split; [intros H; contradiction H; reflexivity |].
      intros (bank & Hin & Ht). exfalso. exact (Hnone bank Hin Ht).
    + intros H. contradiction H. reflexivity.
Qed.

Lemma AutoAllocateMap_request_witness :
  let ext := saturn in
  let info := mkInfo Paletted256 0 3 0 64 64 0x1000 in
  let st := after_reset in
  let size :=
    MapWidth info * MapHeight info * 2
    * (if MapMode info =? PNB_2WORD ext then 2 else 1) in
  let boundary :=
    0x800
    * (if CharSize info =? CHAR_SIZE_1x1 ext then 4 else 1)
    * (if PlaneSize info =? PL_SIZE_2x2 ext then 4
       else if PlaneSize info =? PL_SIZE_2x1 ext then 2 else 1)
    * (if MapMode info =? PNB_2WORD ext then 2 else 1) in
  let v := vram st in
  let r := AutoAllocateMap ext info NBG0 st in
  (fst r <> nullptr <->
     exists bank, In bank (map_bank_order NBG0 v)
                  /\ bank_takes v bank size boundary (map_cycles NBG0))
  /\ (fst r <> nullptr ->
      exists bank, In bank (map_bank_order NBG0 v)
        /\ fst r = (currentBot v).[bank] + padding (currentBot v).[bank] boundary
        /\ fst r mod boundary = 0
        /\ (currentBot v).[bank] <= fst r < (currentBot v).[bank] + boundary
        /\ (currentBot (vram (snd r))).[bank] = fst r + size
        /\ (forall b, b <> bank ->
              (currentBot (vram (snd r))).[b] = (currentBot v).[b]))
  /\ (forall info',
        MapWidth info' = MapWidth info -> MapHeight info' = MapHeight info ->
        CharSize info' = CharSize info -> PlaneSize info' = PlaneSize info ->
        MapMode info' = MapMode info ->
        AutoAllocateMap ext info' NBG0 st = r).
Proof.
  apply (AutoAllocateMap_request saturn (mkInfo Paletted256 0 3 0 64 64 0x1000) NBG0
           after_reset);
    [intros b; destruct b; by_evaluation | by_evaluation ..].
Defined.

(** On the console, after [ClearVRAM], the request of a map of 64 by 64
    two-word entries with 1x1 cells and 2x2 planes is 0x4000 bytes at a
    boundary of 0x10000 bytes: NBG0 is given the floor of bank A0, the
    cursor of A0 ends 0x4000 bytes above it, and the same request for
    NBG1 skips to the next multiple of 0x10000. *)
Example map_request_on_console :
  let info := mkInfo Paletted256 0 3 0 64 64 0x1000 in
  let r := AutoAllocateMap saturn info NBG0 after_reset in
  fst r = VDP2_VRAM_A0 saturn
  /\ (currentBot (vram (snd r))).[A0] = VDP2_VRAM_A0 saturn + 0x4000
  /\ fst (AutoAllocateMap saturn info NBG1 (snd r)) = VDP2_VRAM_A0 saturn + 0x10000.
Proof. by_evaluation. Qed.

(** ** The allocator: invariant, alignment, accounting *)

(** X1.  [Allocate] keeps the allocator well formed, whatever its
    arguments and whether it succeeds or not: no ceiling changes, no
    cursor moves back or passes its ceiling, and every counter stays an
    [int8_t]. *)
Theorem Allocate_keeps_vram_wf size boundary bank cycles v :
  vram_wf v ->
  vram_wf (snd (Allocate size boundary bank cycles v))
  /\ currentTop (snd (Allocate size boundary bank cycles v)) = currentTop v
  /\ (forall b, (currentBot v).[b]
                <= (currentBot (snd (Allocate size boundary bank cycles v))).[b]).
Proof.
  intros Hwf. destruct (Allocate_grows size boundary bank cycles v) as [Htop Hgrow].
  destruct (Hgrow Hwf) as [Hwf' Hbot].
  split; [exact Hwf' |]. split; [exact Htop | exact Hbot].
Qed.

Lemma Allocate_keeps_vram_wf_witness :
  vram_wf (snd (Allocate 0x2000 0x800 A0 1 (vram after_reset)))
  /\ currentTop (snd (Allocate 0x2000 0x800 A0 1 (vram after_reset)))
     = currentTop (vram after_reset)
  /\ (forall b, (currentBot (vram after_reset)).[b]
                <= (currentBot (snd (Allocate 0x2000 0x800 A0 1 (vram after_reset)))).[b]).
Proof.
  apply (Allocate_keeps_vram_wf 0x2000 0x800 A0 1 (vram after_reset)).
  intros b. destruct b; by_evaluation.
Defined.

(** X2.  For a boundary that is a power of two, the address a
    successful [Allocate] returns is a multiple of the boundary, it lies
    less than one boundary above the cursor the call found, and the
    bytes from it up to the new cursor are exactly the size asked for. *)
Theorem Allocate_aligned size k bank cycles v :
  bank_wf v bank -> 0 <= k < 32 -> 0 <= size -> size + 2 ^ k <= 2 ^ 32 ->
  fst (Allocate size (2 ^ k) bank cycles v) <> nullptr ->
  fst (Allocate size (2 ^ k) bank cycles v) mod 2 ^ k = 0
  /\ (currentBot v).[bank] <= fst (Allocate size (2 ^ k) bank cycles v)
     < (currentBot v).[bank] + 2 ^ k
  /\ fst (Allocate size (2 ^ k) bank cycles v) + size
     = (currentBot (snd (Allocate size (2 ^ k) bank cycles v))).[bank].
Proof.
  intros Hwf Hk Hs Hlim Hok.
  pose proof Hwf as [[Hbot Hle] Htop].
  destruct (padding_pow2 (currentBot v).[bank] k) as [Hpad Hmod]; [lia | exact Hk |].
  revert Hok. rewrite Allocate_spec by (try assumption; lia). cbv zeta.
  destruct (_ && _); cbn [fst snd currentBot]; [| intros H; contradiction H; reflexivity].
  intros _. rewrite bank_get_set_same. repeat split; lia.
Qed.

Lemma Allocate_aligned_witness :
  fst (Allocate 0x2000 (2 ^ 11) A0 1 (vram after_reset)) mod 2 ^ 11 = 0
  /\ (currentBot (vram after_reset)).[A0]
     <= fst (Allocate 0x2000 (2 ^ 11) A0 1 (vram after_reset))
     < (currentBot (vram after_reset)).[A0] + 2 ^ 11
  /\ fst (Allocate 0x2000 (2 ^ 11) A0 1 (vram after_reset)) + 0x2000
     = (currentBot (snd (Allocate 0x2000 (2 ^ 11) A0 1 (vram after_reset)))).[A0].
Proof.
  apply (Allocate_aligned 0x2000 11 A0 1 (vram after_reset)); by_evaluation.
Defined.

(** X3.  [Allocate] touches the bank it is asked for and no other, and
    [GetAvailable] accounts for it: a request that does not wrap around
    takes padding plus size from the available bytes of its bank when it
    succeeds and nothing when it fails. *)
Theorem Allocate_takes_from_its_bank size boundary bank cycles v :
  bank_wf v bank -> 0 <= size ->
  size + padding (currentBot v).[bank] boundary < 2 ^ 32 ->
  (forall b, b <> bank ->
     GetAvailable (snd (Allocate size boundary bank cycles v)) b = GetAvailable v b
     /\ (bankCycles (snd (Allocate size boundary bank cycles v))).[b]
        = (bankCycles v).[b])
  /\ GetAvailable (snd (Allocate size boundary bank cycles v)) bank
     = if fst (Allocate size boundary bank cycles v) =? nullptr
       then GetAvailable v bank
       else GetAvailable v bank - (padding (currentBot v).[bank] boundary + size).
Proof.
  intros Hwf Hs Hfit. split.
  - intros b Hb. unfold GetAvailable. rewrite Allocate_ceilings.
    destruct (Allocate_other_banks size boundary bank cycles v b Hb) as [-> ->].
    split; reflexivity.
  - pose proof Hwf as [[Hbot Hle] Htop].
    pose proof (padding_nonneg (currentBot v).[bank] boundary) as Hp.
    rewrite Allocate_spec by assumption. cbv zeta.
    destruct (Z.leb_spec ((currentBot v).[bank] + padding (currentBot v).[bank] boundary
                          + size) (currentTop v).[bank]) as [Hroom | Hfull];
      [| cbn [andb fst snd]; reflexivity].
    destruct (_ <? 8); cbn [andb fst snd]; [| reflexivity].
    replace (_ =? nullptr) with false
      by (symmetry; apply Z.eqb_neq; unfold nullptr; lia).
    unfold GetAvailable. cbn [currentBot currentTop]. rewrite bank_get_set_same.
    rewrite !uint32_small by lia. lia.
Qed.

Lemma Allocate_takes_from_its_bank_witness :
  (forall b, b <> B0 ->
     GetAvailable (snd (Allocate 100 32 B0 2 (vram after_reset))) b
     = GetAvailable (vram after_reset) b
     /\ (bankCycles (snd (Allocate 100 32 B0 2 (vram after_reset)))).[b]
        = (bankCycles (vram after_reset)).[b])
  /\ GetAvailable (snd (Allocate 100 32 B0 2 (vram after_reset))) B0
     = if fst (Allocate 100 32 B0 2 (vram after_reset)) =? nullptr
       then GetAvailable (vram after_reset) B0
       else GetAvailable (vram after_reset) B0
            - (padding (currentBot (vram after_reset)).[B0] 32 + 100).
Proof.
  apply (Allocate_takes_from_its_bank 100 32 B0 2 (vram after_reset)); by_evaluation.
Defined.

(** ** Placement of maps; RBG0 *)

(** X4.  [AutoAllocateMap] asks for one cycle in bank A0 and, when that
    fails, in bank B1 for a normal screen, leaving A0 out when its
    counter stands at 7 (the mark of a bank that RBG0 holds); for RBG0 it
    asks for all 8 cycles of bank A0 and tries no other bank.  It
    returns the address of the first bank whose [Allocate] succeeds,
    with that call's effect on the state and no other; when no bank
    takes the request it raises the assert of the screen kind and
    returns [nullptr], the allocator unchanged. *)
Theorem AutoAllocateMap_first_fit ext info screen st :
  vram_wf (vram st) ->
  0 <= MapWidth info -> 0 <= MapHeight info ->
  MapWidth info * MapHeight info * 4 < 2 ^ 32 - 2 ^ 18 ->
  AutoAllocateMap ext info screen st =
    match first_fit (map_bank_order screen (vram st)) (map_size ext info)
                    (map_boundary ext info) (map_cycles screen) (vram st) with
    | Some (bank, a, v') => (a, set_vram v' st)
    | None => (nullptr, snd (Assert (map_failure screen) st))
    end.
Proof. apply AutoAllocateMap_first_fit_run. Qed.

Lemma AutoAllocateMap_first_fit_witness :
  AutoAllocateMap saturn (GetInfo tilemap_64) NBG1 after_NBG0_load =
    match first_fit (map_bank_order NBG1 (vram after_NBG0_load))
                    (map_size saturn (GetInfo tilemap_64))
                    (map_boundary saturn (GetInfo tilemap_64)) (map_cycles NBG1)
                    (vram after_NBG0_load) with
    | Some (bank, a, v') => (a, set_vram v' after_NBG0_load)
    | None => (nullptr, snd (Assert (map_failure NBG1) after_NBG0_load))
    end.
Proof.
  apply (AutoAllocateMap_first_fit saturn (GetInfo tilemap_64) NBG1 after_NBG0_load);
    [intros b; destruct b; by_evaluation | by_evaluation ..].
Defined.

(** X5.  Once a cycle of bank A0 is in use (its counter is 0 or more,
    as after the map of any normal screen was placed there), every load
    of RBG0 that has to place its map aborts: the call raises the RBG
    map assert, allocates nothing, and leaves [nullptr] as the map
    address of RBG0. *)
Theorem RBG0_load_needs_unused_A0 ext tilemap st :
  0 < VDP2_VRAM_A0 ext ->
  uint32_t (MapAddress (the_screen RBG0 st)) < VDP2_VRAM_A0 ext ->
  0 <= (bankCycles (vram st)).[A0] ->
  fst (LoadTilemap ext RBG0 tilemap st) = Aborted
  /\ vram (snd (LoadTilemap ext RBG0 tilemap st)) = vram st
  /\ MapAddress (the_screen RBG0 (snd (LoadTilemap ext RBG0 tilemap st))) = nullptr
  /\ trace (snd (LoadTilemap ext RBG0 tilemap st))
     = trace st ++ [Debug_Assert "RBG Map Allocation failed: insufficient VRAM"].
Proof.
  intros HA0 Hmap Hcyc.
  unfold LoadTilemap, bind, get, update_screen, modify, ret. cbv zeta.
  rewrite !the_screen_set_same. cbn [with_Info MapAddress].
  destruct (Z.ltb_spec (uint32_t (MapAddress (the_screen RBG0 st))) (VDP2_VRAM_A0 ext));
    [| lia].
  rewrite AutoAllocateMap_RBG0_blocked by exact Hcyc.
  change (uint32_t nullptr) with 0.
  destruct (Z.ltb_spec 0 (VDP2_VRAM_A0 ext)); [| lia].
  repeat split.
Qed.

Lemma RBG0_load_needs_unused_A0_witness :
  fst (LoadTilemap saturn RBG0 tilemap_64 after_NBG0_load) = Aborted
  /\ vram (snd (LoadTilemap saturn RBG0 tilemap_64 after_NBG0_load))
     = vram after_NBG0_load
  /\ MapAddress (the_screen RBG0 (snd (LoadTilemap saturn RBG0 tilemap_64 after_NBG0_load)))
     = nullptr
  /\ trace (snd (LoadTilemap saturn RBG0 tilemap_64 after_NBG0_load))
     = trace after_NBG0_load
       ++ [Debug_Assert "RBG Map Allocation failed: insufficient VRAM"].
Proof.
  apply (RBG0_load_needs_unused_A0 saturn tilemap_64 after_NBG0_load); by_evaluation.
Defined.

(** X6.  Loaded first after [ClearVRAM], RBG0 takes two whole banks: its
    map lies at the start of bank A0 and its cells at the start of bank
    A1 (bank A0, tried first, has no cycle left for them), and both
    banks end with a counter of 7, so that no other request with a cycle
    succeeds in them; banks B0 and B1 are as [ClearVRAM] left them.
    This holds for any tilemap whose map and cells each fit in one bank,
    when its colour mode needs no palette or a palette bank is free. *)
Theorem RBG0_load_reserves_A0_and_A1 tilemap st0 :
  ColorMode (GetInfo tilemap) = RGB555
  \/ (exists p rest, cram_free st0 = p :: rest /\ 0 <= p) ->
  0 <= MapWidth (GetInfo tilemap) -> 0 <= MapHeight (GetInfo tilemap) ->
  map_size saturn (GetInfo tilemap) <= 0x20000 ->
  0 <= CellByteSize (GetInfo tilemap) <= 0x20000 ->
  let st := snd (ClearVRAM saturn st0) in
  let r := LoadTilemap saturn RBG0 tilemap st in
  fst r = Loaded
  /\ MapAddress (the_screen RBG0 (snd r)) = VDP2_VRAM_A0 saturn
  /\ CellAddress (the_screen RBG0 (snd r)) = VDP2_VRAM_A1 saturn
  /\ vram (snd r)
     = mkVRAM (mkBanks (VDP2_VRAM_A0 saturn + map_size saturn (GetInfo tilemap))
                       (VDP2_VRAM_A1 saturn + CellByteSize (GetInfo tilemap))
                       (VDP2_VRAM_B0 saturn) (VDP2_VRAM_B1 saturn))
              (bankTop saturn) (mkBanks 7 7 (-1) 1).
Proof.
  intros Hpal Hw Hh Hms Hc st r.
  destruct (ClearVRAM_frame saturn st0) as [Hv [Hscr Hfree0]]. fold st in Hv, Hscr, Hfree0.
  pose proof (padding_A0_map (GetInfo tilemap)) as Hpad.
  assert (HpA1 : padding (VDP2_VRAM_A1 saturn) 32 = 0) by reflexivity.
  assert (Hsent : uint32_t (unallocated saturn) < VDP2_VRAM_A0 saturn) by reflexivity.
  assert (Hmsz : 0 <= map_size saturn (GetInfo tilemap)
                 /\ MapWidth (GetInfo tilemap) * MapHeight (GetInfo tilemap) * 2
                    <= map_size saturn (GetInfo tilemap))
    by (unfold map_size; destruct (MapMode _ =? _); nia).
  unfold bankBot, bankTop in Hv.
  replace (uint32_t (VDP2_VRAM_B1 saturn + 98304)) with (VDP2_VRAM_B1 saturn + 98304)
    in Hv by reflexivity.
  unfold bankTop.
  replace (uint32_t (VDP2_VRAM_B1 saturn + 98304)) with (VDP2_VRAM_B1 saturn + 98304)
    by reflexivity.
  set (msz := map_size saturn (GetInfo tilemap)) in *.
  set (c := CellByteSize (GetInfo tilemap)) in *.
  remember (VDP2_VRAM_A0 saturn) as a0 eqn:Ea0.
  remember (VDP2_VRAM_A1 saturn) as a1 eqn:Ea1.
  remember (VDP2_VRAM_B0 saturn) as b0 eqn:Eb0.
  remember (VDP2_VRAM_B1 saturn) as b1 eqn:Eb1.
  vm_compute in Ea0, Ea1, Eb0, Eb1.
  set (top := mkBanks a1 b0 b1 (b1 + 98304)) in *.
  set (v1 := mkVRAM (mkBanks (a0 + msz) a1 b0 b1) top (mkBanks 7 (-1) (-1) 1)).
  set (v2 := mkVRAM (mkBanks (a0 + msz) (a1 + c) b0 b1) top (mkBanks 7 7 (-1) 1)).
  set (st1 := set_screen RBG0 (with_Info (GetInfo tilemap) (the_screen RBG0 st)) st).
  assert (Hmap : AutoAllocateMap saturn (GetInfo tilemap) RBG0 st1
                 = (a0, set_vram v1 st1)).
  { rewrite AutoAllocateMap_first_fit_run;
      [| change (vram st1) with (vram st); rewrite Hv; intros b; unfold bank_wf;
         destruct b; cbn; lia
       | exact Hw | exact Hh | lia].
    change (vram st1) with (vram st). rewrite Hv.
    cbn [map_bank_order map_cycles first_fit]. fold msz.
    rewrite Allocate_success;
      unfold bank_wf; cbn [currentBot currentTop bankCycles bank_get bank_set
                           at_A0 at_A1 at_B0 at_B1 top];
      rewrite ?Hpad; try lia.
    cbn [fst snd].
    replace (a0 + 0 =? nullptr) with false
      by (symmetry; apply Z.eqb_neq; unfold nullptr; lia).
    unfold v1. repeat f_equal; lia. }
  set (st3 := set_screen RBG0 (with_MapAddress a0 (the_screen RBG0 (set_vram v1 st1)))
                (set_vram v1 st1)).
  assert (Hcell : AutoAllocateCell (GetInfo tilemap) RBG0 st3 = (a1, set_vram v2 st3)).
  { rewrite AutoAllocateCell_run;
      [| change (vram st3) with v1; intros b; unfold bank_wf; destruct b; cbn; lia
       | fold c; lia].
    change (vram st3) with v1. fold c.
    cbn [cell_bank_order cell_cycles first_fit].
    rewrite (Allocate_out_of_cycles c 32 A0 8 v1) by (cbn; lia).
    cbn [fst snd]. rewrite Z.eqb_refl.
    rewrite Allocate_success;
      unfold bank_wf; cbn [v1 currentBot currentTop bankCycles bank_get bank_set
                           at_A0 at_A1 at_B0 at_B1 top];
      rewrite ?HpA1; try lia.
    cbn [fst snd].
    replace (a1 + 0 =? nullptr) with false
      by (symmetry; apply Z.eqb_neq; unfold nullptr; lia).
    unfold v2. repeat f_equal; lia. }
  destruct (LoadTilemap_auto saturn RBG0 tilemap st a0 (set_vram v1 st1) a1
              (set_vram v2 st3)) as (H1 & H2 & H3 & H4).
  - destruct (Hscr RBG0) as [-> _]. reflexivity.
  - destruct (Hscr RBG0) as [_ [-> _]]. reflexivity.
  - exact Hmap.
  - change (VDP2_VRAM_A0 saturn) with 635437056. rewrite uint32_small; lia.
  - exact Hcell.
  - change (VDP2_VRAM_A0 saturn) with 635437056. rewrite uint32_small; lia.
  - apply LoadTilemap_palette_ok.
    destruct Hpal as [Hrgb | (p & rest & Hf & Hp)].
    + left. rewrite the_screen_set_same. exact Hrgb.
    + right. right. exists p, rest. split; [| exact Hp].
      change (cram_free st = p :: rest). rewrite Hfree0. exact Hf.
  - fold r in H1, H2, H3, H4. repeat split; assumption.
Qed.

Lemma RBG0_load_reserves_A0_and_A1_witness :
  let st := snd (ClearVRAM saturn start) in
  let r := LoadTilemap saturn RBG0 tilemap_64 st in
  fst r = Loaded
  /\ MapAddress (the_screen RBG0 (snd r)) = VDP2_VRAM_A0 saturn
  /\ CellAddress (the_screen RBG0 (snd r)) = VDP2_VRAM_A1 saturn
  /\ vram (snd r)
     = mkVRAM (mkBanks (VDP2_VRAM_A0 saturn + map_size saturn (GetInfo tilemap_64))
                       (VDP2_VRAM_A1 saturn + CellByteSize (GetInfo tilemap_64))
                       (VDP2_VRAM_B0 saturn) (VDP2_VRAM_B1 saturn))
              (bankTop saturn) (mkBanks 7 7 (-1) 1).
Proof.
  apply (RBG0_load_reserves_A0_and_A1 tilemap_64 start);
    [right; exists 1, [2; 3]; split; [reflexivity | lia] | by_evaluation ..].
Defined.

(** ** [LoadTilemap]: what a call establishes and what it leaves alone *)

Lemma appends_silent {A : Type} p (f : M A) :
  (forall st, trace (snd (f st)) = trace st) -> appends p f.
Proof. intros H st. exists []. rewrite app_nil_r. split; [apply H | reflexivity]. Qed.

Lemma appends_emit p e : p e = true -> appends p (emit e).
Proof. intros H st. exists [e]. split; [reflexivity | cbn; rewrite H; reflexivity]. Qed.

Lemma appends_bind {A B : Type} p (f : M A) (k : A -> M B) :
  appends p f -> (forall a, appends p (k a)) -> appends p (bind f k).
Proof.
  intros Hf Hk st. unfold bind.
  destruct (Hf st) as [p1 [H1 F1]]. destruct (f st) as [a st1]. cbn [snd] in H1.
  destruct (Hk a st1) as [p2 [H2 F2]].
  exists (p1 ++ p2). rewrite H2, H1, app_assoc, forallb_app, F1, F2.
  split; reflexivity.
Qed.

Lemma appends_if {A : Type} p (b : bool) (f g : M A) :
  appends p f -> appends p g -> appends p (if b then f else g).
Proof. destruct b; intros; assumption. Qed.

Lemma appends_in_vram {A : Type} p (f : VRAM -> A * VRAM) : appends p (in_vram f).
Proof.
  apply appends_silent. intros st. unfold in_vram. destruct (f (vram st)). reflexivity.
Qed.

Lemma appends_Assert m : appends is_assert (Assert m).
Proof. apply appends_emit. reflexivity. Qed.

Ltac appends_step :=
  lazymatch goal with
  | |- appends _ (bind _ _) => apply appends_bind; [| intros ?]
  | |- appends _ (if _ then _ else _) => apply appends_if
  | |- appends _ (Assert _) => apply appends_Assert
  | |- appends _ (in_vram _) => apply appends_in_vram
  | |- appends _ _ => apply appends_silent; intros; reflexivity
  end.

Lemma asserts_AutoAllocateCell info screen :
  appends is_assert (AutoAllocateCell info screen).
Proof. unfold AutoAllocateCell. destruct screen; cbv zeta; repeat appends_step. Qed.

Lemma asserts_AutoAllocateMap ext info screen :
  appends is_assert (AutoAllocateMap ext info screen).
Proof.
  unfold AutoAllocateMap, AutoAllocateMap_banks. cbv zeta.
  destruct screen; repeat appends_step.
Qed.

Lemma aborted_bind {A : Type} p (f : M A) (k : A -> M LoadResult) :
  appends p f -> (forall a, appends_if_aborted p (k a)) ->
  appends_if_aborted p (bind f k).
Proof.
  intros Hf Hk st. unfold bind.
  destruct (Hf st) as [p1 [H1 F1]]. destruct (f st) as [a st1]. cbn [snd] in H1.
  intros Hab. destruct (Hk a st1 Hab) as [p2 [H2 F2]].
  exists (p1 ++ p2). rewrite H2, H1, app_assoc, forallb_app, F1, F2.
  split; reflexivity.
Qed.

Lemma aborted_if p (b : bool) (f g : M LoadResult) :
  appends_if_aborted p f -> appends_if_aborted p g ->
  appends_if_aborted p (if b then f else g).
Proof. destruct b; intros; assumption. Qed.

Lemma aborted_ret p r : appends_if_aborted p (ret r).
Proof. intros st _. exists []. rewrite app_nil_r. split; reflexivity. Qed.

(** Where the palette part returns [false] it has raised its assert and
    done nothing else. *)
Lemma LoadTilemap_palette_refused scr tilemap st :
  fst (LoadTilemap_palette scr tilemap st) = false ->
  snd (LoadTilemap_palette scr tilemap st)
  = snd (Assert "Tilemap Palette Load Failed- no CRAM Palettes available"
           (snd (CRAM_GetFreeBank (ColorMode (Info (the_screen scr st))) st))).
Proof.
  unfold LoadTilemap_palette, bind, get. cbv zeta.
  destruct (ColorMode (Info (the_screen scr st))) eqn:Hmode;
    try (intros H; discriminate H);
    (destruct (Palette_has_data (TilePalette (the_screen scr st)));
     cbn [negb]; [intros H; discriminate H |]);
    destruct (CRAM_GetFreeBank _ st) as [colorID st1];
    (destruct (colorID <? 0); [intros _; reflexivity | intros H; discriminate H]).
Qed.

Lemma aborted_finish ext scr tilemap :
  appends_if_aborted is_assert (LoadTilemap_finish ext scr tilemap).
Proof.
  intros st. unfold LoadTilemap_finish, bind.
  pose proof (LoadTilemap_palette_refused scr tilemap st) as Href.
  destruct (LoadTilemap_palette scr tilemap st) as [[|] st1]; cbn [fst snd] in *.
  - pose proof (LoadTilemap_transfer ext scr tilemap st1) as Ht.
    unfold bind in Ht. rewrite Ht. intros H; discriminate H.
  - intros _. rewrite (Href eq_refl).
    exists [Debug_Assert "Tilemap Palette Load Failed- no CRAM Palettes available"].
    split; [| reflexivity].
    unfold CRAM_GetFreeBank. destruct (cram_free st); reflexivity.
Qed.

Ltac aborted_step :=
  lazymatch goal with
  | |- appends_if_aborted _ (bind _ _) => apply aborted_bind; [| intros ?]
  | |- appends_if_aborted _ (if _ then _ else _) => apply aborted_if
  | |- appends_if_aborted _ (ret _) => apply aborted_ret
  | |- appends_if_aborted _ (LoadTilemap_finish _ _ _) => apply aborted_finish
  | |- appends _ (AutoAllocateCell _ _) => apply asserts_AutoAllocateCell
  | |- appends _ (AutoAllocateMap _ _ _) => apply asserts_AutoAllocateMap
  | |- appends _ _ => appends_step
  end.

Lemma aborted_cells ext scr tilemap myInfo :
  appends_if_aborted is_assert (LoadTilemap_cells ext scr tilemap myInfo).
Proof. unfold LoadTilemap_cells. cbv zeta. repeat aborted_step. Qed.

Lemma aborted_LoadTilemap ext scr tilemap :
  appends_if_aborted is_assert (LoadTilemap ext scr tilemap).
Proof.
  unfold LoadTilemap. cbv zeta.
  repeat lazymatch goal with
         | |- appends_if_aborted _ (LoadTilemap_cells _ _ _ _) => apply aborted_cells
         | |- _ => aborted_step
         end.
Qed.

Lemma asserts_messages pre :
  forallb is_assert pre = true -> exists messages, pre = map Debug_Assert messages.
Proof.
  induction pre as [| e pre IH]; cbn; intros H.
  - exists []. reflexivity.
  - apply andb_prop in H. destruct H as [He Hpre].
    destruct (IH Hpre) as [ms ->].
    destruct e; try discriminate He. exists (message :: ms). reflexivity.
Qed.

(** X7.  A call of [LoadTilemap] that returns early has added nothing
    to the trace but calls of [Debug::Assert]: up to its [return] the
    load itself has made no store to VRAM, no call of an SGL function
    and no call of [SetBankUsedState] or [Palette::Load].  What the
    asserts do is not part of the statement: without [DEBUG] nothing,
    with [DEBUG] each one draws the assert screen, which sets the back
    colour at [VDP2_VRAM_A1 + 0x1fffe] and calls SGL. *)
Theorem LoadTilemap_aborted_only_asserts ext scr tilemap st :
  fst (LoadTilemap ext scr tilemap st) = Aborted ->
  exists messages,
    trace (snd (LoadTilemap ext scr tilemap st))
    = trace st ++ map Debug_Assert messages.
Proof.
  intros Hab. destruct (aborted_LoadTilemap ext scr tilemap st Hab) as (pre & Htr & Hpre).
  destruct (asserts_messages pre Hpre) as [ms ->]. exists ms. exact Htr.
Qed.

Lemma LoadTilemap_aborted_only_asserts_witness :
  exists messages,
    trace (snd (LoadTilemap saturn NBG0 tilemap_64 after_NBG0_load))
    = trace after_NBG0_load ++ map Debug_Assert messages.
Proof.
  apply (LoadTilemap_aborted_only_asserts saturn NBG0 tilemap_64 after_NBG0_load).
  by_evaluation.
Defined.

(** The second load of NBG0 is such a call: it adds the MAP DATA assert
    and nothing else. *)
Example second_load_on_console :
  trace (snd (LoadTilemap saturn NBG0 tilemap_64 after_NBG0_load))
  = trace after_NBG0_load
    ++ [Debug_Assert "Tilemap Load Failed- MAP DATA exceeds existing VRAM allocation"].
Proof. by_evaluation. Qed.

(** X8.  A call of [LoadTilemap] that runs to its end leaves the screen
    with a map address and a cell address that are both allocated (not
    below [VDP2_VRAM_A0]), with the [Info] of the tilemap, and, unless
    the colour mode is RGB555, with a palette that has data. *)
Theorem LoadTilemap_loaded_screen ext scr tilemap st :
  fst (LoadTilemap ext scr tilemap st) = Loaded ->
  let s' := the_screen scr (snd (LoadTilemap ext scr tilemap st)) in
  VDP2_VRAM_A0 ext <= uint32_t (MapAddress s')
  /\ VDP2_VRAM_A0 ext <= uint32_t (CellAddress s')
  /\ Info s' = GetInfo tilemap
  /\ (ColorMode (GetInfo tilemap) <> RGB555 -> Palette_has_data (TilePalette s') = true).
Proof. apply LoadTilemap_loaded. Qed.

Lemma LoadTilemap_loaded_screen_witness :
  let s' := the_screen NBG0 (snd (LoadTilemap saturn NBG0 tilemap_64 after_reset)) in
  VDP2_VRAM_A0 saturn <= uint32_t (MapAddress s')
  /\ VDP2_VRAM_A0 saturn <= uint32_t (CellAddress s')
  /\ Info s' = GetInfo tilemap_64
  /\ (ColorMode (GetInfo tilemap_64) <> RGB555 -> Palette_has_data (TilePalette s') = true).
Proof.
  apply (LoadTilemap_loaded_screen saturn NBG0 tilemap_64 after_reset). by_evaluation.
Defined.

(** X9.  Whatever its outcome, [LoadTilemap] for a screen changes no
    member of any other screen, keeps the sizes [MapAllocSize] and
    [CellAllocSize] of its own (the automatic placement never records
    the size it allocated), keeps the line and coefficient table
    addresses, the colour calculation mask and the RAM control register,
    and only makes the allocator grow: ceilings fixed, and from a
    well-formed allocator a well-formed one with no cursor moved
    back. *)
Theorem LoadTilemap_frame ext scr tilemap st :
  load_frame scr st (snd (LoadTilemap ext scr tilemap st)).
Proof. apply load_frame_LoadTilemap. Qed.

(** X10.  A screen whose map was placed automatically cannot be loaded
    a second time: after a load that ran to its end on a screen that
    never had [SetMapAddress] called ([MapAllocSize] still negative),
    every further [LoadTilemap] of that screen with a tilemap whose map
    has fewer than 2^31 bytes (two per entry, four when [MapMode] is 0)
    finds a map address but no recorded size, raises the MAP DATA
    assert and returns, having changed [Info] and nothing else.  The
    bound is needed: the header computes the byte count as an [int],
    and a count that wraps to a negative [int] passes the test. *)
Theorem LoadTilemap_again_aborts ext scr tilemap1 tilemap2 st :
  MapAllocSize (the_screen scr st) < 0 ->
  fst (LoadTilemap ext scr tilemap1 st) = Loaded ->
  0 <= MapWidth (GetInfo tilemap2) -> 0 <= MapHeight (GetInfo tilemap2) ->
  MapWidth (GetInfo tilemap2) * MapHeight (GetInfo tilemap2)
    * (if MapMode (GetInfo tilemap2) =? 0 then 4 else 2) < 2 ^ 31 ->
  let st1 := snd (LoadTilemap ext scr tilemap1 st) in
  LoadTilemap ext scr tilemap2 st1
  = (Aborted,
     snd (Assert "Tilemap Load Failed- MAP DATA exceeds existing VRAM allocation"
            (set_screen scr (with_Info (GetInfo tilemap2) (the_screen scr st1)) st1))).
Proof.
  intros Hsize Hok Hw Hh Hint st1. subst st1.
  destruct (LoadTilemap_loaded ext scr tilemap1 st Hok) as (Hmap & _).
  destruct (load_frame_LoadTilemap ext scr tilemap1 st) as (_ & Hms & _).
  apply LoadTilemap_map_region_short; [exact Hmap |].
  rewrite Hms, map_region_test_small by assumption.
  destruct (MapMode (GetInfo tilemap2) =? 0); nia.
Qed.

Lemma LoadTilemap_again_aborts_witness :
  let st1 := snd (LoadTilemap saturn NBG0 tilemap_64 after_reset) in
  LoadTilemap saturn NBG0 one_word_mode1 st1
  = (Aborted,
     snd (Assert "Tilemap Load Failed- MAP DATA exceeds existing VRAM allocation"
            (set_screen NBG0 (with_Info (GetInfo one_word_mode1) (the_screen NBG0 st1))
                        st1))).
Proof.
  apply (LoadTilemap_again_aborts saturn NBG0 tilemap_64 one_word_mode1 after_reset);
    by_evaluation.
Defined.

(** X11.  With a map region and a cell region set by hand that are
    large enough (the map needs two bytes per entry, four when
    [MapMode] is 0), [LoadTilemap] does not use the allocator at all and
    keeps both addresses: the data goes where the caller said. *)
Theorem LoadTilemap_manual_regions ext scr tilemap st :
  VDP2_VRAM_A0 ext <= uint32_t (MapAddress (the_screen scr st)) ->
  VDP2_VRAM_A0 ext <= uint32_t (CellAddress (the_screen scr st)) ->
  Z.shiftl (MapWidth (GetInfo tilemap) * MapHeight (GetInfo tilemap))
           (1 + (if MapMode (GetInfo tilemap) =? 0 then 1 else 0))
    <= MapAllocSize (the_screen scr st) ->
  CellByteSize (GetInfo tilemap) <= CellAllocSize (the_screen scr st) ->
  let st' := snd (LoadTilemap ext scr tilemap st) in
  vram st' = vram st
  /\ MapAddress (the_screen scr st') = MapAddress (the_screen scr st)
  /\ CellAddress (the_screen scr st') = CellAddress (the_screen scr st).
Proof.
  intros Hmap Hcell Hms Hcs st'. subst st'.
  destruct (Z_lt_le_dec (MapAllocSize (the_screen scr st))
              (int32_t
                 (Z.shiftl (int32_t (MapWidth (GetInfo tilemap) * MapHeight (GetInfo tilemap)))
                           (1 + (if MapMode (GetInfo tilemap) =? 0 then 1 else 0)))))
    as [Hshort | Hfits].
  - rewrite LoadTilemap_map_region_short by assumption.
    unfold Assert, emit, modify. cbn [snd].
    change (the_screen scr (set_trace ?t ?s)) with (the_screen scr s).
    rewrite the_screen_set_same. repeat split.
  - rewrite LoadTilemap_manual by assumption.
    destruct (palette_frame_finish ext scr tilemap
                (set_screen scr (with_Info (GetInfo tilemap) (the_screen scr st)) st))
      as [Hv Hs].
    rewrite Hv, (Hs scr), the_screen_set_same. repeat split.
Qed.

Lemma LoadTilemap_manual_regions_witness :
  let st' := snd (LoadTilemap saturn NBG0 tilemap_64 with_manual_regions) in
  vram st' = vram with_manual_regions
  /\ MapAddress (the_screen NBG0 st') = MapAddress (the_screen NBG0 with_manual_regions)
  /\ CellAddress (the_screen NBG0 st') = CellAddress (the_screen NBG0 with_manual_regions).
Proof.
  apply (LoadTilemap_manual_regions saturn NBG0 tilemap_64 with_manual_regions);
    by_evaluation.
Defined.

(** X12.  The transfers of a load that ran to its end stay inside the
    regions of the screen: every byte of cell data is stored in
    [CellAddress, CellAddress + CellByteSize), and every map entry, two
    bytes wide or four, in [MapAddress, MapAddress + map_size), the size
    [AutoAllocateMap] asks for; the call stores nowhere else.  The
    regions are taken to lie in the 32-bit address space. *)
Theorem LoadTilemap_stores_within_regions ext scr tilemap st :
  PNB_2WORD ext = 0 ->
  fst (LoadTilemap ext scr tilemap st) = Loaded ->
  let s' := the_screen scr (snd (LoadTilemap ext scr tilemap st)) in
  0 <= MapWidth (GetInfo tilemap) -> 0 <= MapHeight (GetInfo tilemap) ->
  0 <= CellByteSize (GetInfo tilemap) ->
  0 <= CellAddress s' -> CellAddress s' + CellByteSize (GetInfo tilemap) <= 2 ^ 32 ->
  0 <= MapAddress s' -> MapAddress s' + map_size ext (GetInfo tilemap) <= 2 ^ 32 ->
  exists new,
    trace (snd (LoadTilemap ext scr tilemap st)) = trace st ++ new
    /\ Forall (store_within (CellAddress s') (CellByteSize (GetInfo tilemap))
                            (MapAddress s') (map_size ext (GetInfo tilemap))) new.
Proof.
  intros H2w Hok s' Hw Hh Hc Hca Hcl Hma Hml.
  destruct (LoadTilemap_loaded ext scr tilemap st Hok) as (_ & _ & Hinfo & _).
  fold s' in Hinfo.
  destruct (loads_LoadTilemap ext scr tilemap st) as (pre & Hpre & Htr).
  rewrite Hok in Htr.
  exists (pre ++ finish_events ext scr tilemap (snd (LoadTilemap ext scr tilemap st))).
  split; [exact Htr |].
  apply Forall_app. split; [apply bookkeeping_within; exact Hpre |].
  assert (Hsz : map_size ext (GetInfo tilemap)
                = MapWidth (Info s') * MapHeight (Info s') * 2
                  * (if MapMode (Info s') =? 0 then 2 else 1))
    by (rewrite Hinfo; unfold map_size; rewrite H2w; reflexivity).
  rewrite Hsz, <- Hinfo.
  apply finish_events_within; fold s'; rewrite ?Hinfo;
    first [assumption | rewrite Hsz, Hinfo in Hml; exact Hml].
Qed.

Lemma LoadTilemap_stores_within_regions_witness :
  let s' := the_screen NBG0 (snd (LoadTilemap saturn NBG0 tilemap_64 after_reset)) in
  exists new,
    trace (snd (LoadTilemap saturn NBG0 tilemap_64 after_reset))
    = trace after_reset ++ new
    /\ Forall (store_within (CellAddress s') (CellByteSize (GetInfo tilemap_64))
                            (MapAddress s') (map_size saturn (GetInfo tilemap_64))) new.
Proof.
  apply (LoadTilemap_stores_within_regions saturn NBG0 tilemap_64 after_reset);
    by_evaluation.
Defined.

(** ** [ClearVRAM]: the whole effect *)

Lemma ClearVRAM_result ext st :
  snd (ClearVRAM ext st)
  = mkState (mkVRAM (bankBot ext) (bankTop ext) (mkBanks (-1) (-1) (-1) 1))
            (mkScreens (reset_screen ext (the_screen NBG0 st))
                       (reset_screen ext (the_screen NBG1 st))
                       (reset_screen ext (the_screen NBG2 st))
                       (reset_screen ext (the_screen NBG3 st))
                       (reset_screen ext (the_screen RBG0 st)))
            (unallocated ext) (unallocated ext) (unallocated ext)
            (ColorCalcScrolls st)
            (uint16_t (Z.land (VDP2_RAMCTL st) 0xff00))
            (cram_free st)
            (((((trace st ++ released ext (the_screen NBG0 st))
                  ++ released ext (the_screen NBG1 st))
                 ++ released ext (the_screen NBG2 st))
                ++ released ext (the_screen NBG3 st))
               ++ released ext (the_screen RBG0 st)).
Proof.
  destruct st as [v [s0 s1 s2 s3 s4] l0 l1 kt cc rc fr tr].
  destruct s0 as [m0 c0 p0 i0 ca0 ma0], s1 as [m1 c1 p1 i1 ca1 ma1],
           s2 as [m2 c2 p2 i2 ca2 ma2], s3 as [m3 c3 p3 i3 ca3 ma3],
           s4 as [m4 c4 p4 i4 ca4 ma4].
  destruct p0, p1, p2, p3, p4;
    unfold released, reset_screen;
    cbn [the_screen screens screen_get at_NBG0 at_NBG1 at_NBG2 at_NBG3 at_RBG0
         TilePalette Palette_has_data Info CellAllocSize MapAllocSize trace
         ColorCalcScrolls VDP2_RAMCTL cram_free];
    rewrite ?app_nil_r; reflexivity.
Qed.

Lemma ClearVRAM_trace ext st :
  trace (snd (ClearVRAM ext st))
  = trace st ++ flat_map (fun scr => released ext (the_screen scr st))
                         [NBG0; NBG1; NBG2; NBG3; RBG0].
Proof.
  rewrite ClearVRAM_result. cbn [trace flat_map]. rewrite app_nil_r, <- !app_assoc.
  reflexivity.
Qed.

Lemma uint16_high_byte x :
  uint16_t (Z.land (uint16_t (Z.land x 0xff00)) 0xff00) = uint16_t (Z.land x 0xff00).
Proof.
  rewrite !uint16_land.
  rewrite <- !Z.land_assoc.
  change (Z.land 0xff00 (Z.ones 16)) with 0xff00.
  change (Z.land 0xff00 0xff00) with 0xff00. reflexivity.
Qed.

(** X13.  [ClearVRAM] gives back the palette of every screen that has
    one, and of no other: for each such screen, in the order NBG0 to
    NBG3 and then RBG0, one call of [CRAM::SetBankUsedState] with the
    id of the palette, the colour mode of the screen's [Info] and
    [false]; it makes no other call.  Afterwards every screen has the
    default palette and unallocated addresses, and keeps its [Info] and
    the sizes of the regions set by hand. *)
Theorem ClearVRAM_releases_palettes ext st :
  trace (snd (ClearVRAM ext st))
  = trace st ++ flat_map (fun scr => released ext (the_screen scr st))
                         [NBG0; NBG1; NBG2; NBG3; RBG0]
  /\ forall scr, the_screen scr (snd (ClearVRAM ext st))
                 = reset_screen ext (the_screen scr st).
Proof.
  split; [apply ClearVRAM_trace |].
  rewrite ClearVRAM_result. intros scr; destruct scr; reflexivity.
Qed.

(** X14.  [ClearVRAM] is idempotent: a second call right after the first
    changes no member and makes no call. *)
Theorem ClearVRAM_twice ext st :
  snd (ClearVRAM ext (snd (ClearVRAM ext st))) = snd (ClearVRAM ext st).
Proof.
  rewrite (ClearVRAM_result ext (snd (ClearVRAM ext st))).
  rewrite (ClearVRAM_result ext st).
  cbn [the_screen screens screen_get at_NBG0 at_NBG1 at_NBG2 at_NBG3 at_RBG0
       ColorCalcScrolls VDP2_RAMCTL cram_free trace].
  unfold released, reset_screen.
  cbn [TilePalette Palette_has_data Info CellAllocSize MapAllocSize].
  rewrite !app_nil_r, uint16_high_byte. reflexivity.
Qed.

(** X15.  [LoadTilemap] overwrites [Info] before it tests anything, and
    [ClearVRAM] reads the colour mode of the palette it gives back from
    [Info].  So when a screen that holds a palette and an automatically
    placed map is asked to load another tilemap, one whose map has fewer
    than 2^31 bytes (two per entry, four when [MapMode] is 0), the call
    is rejected (its map region has no recorded size), and the next
    [ClearVRAM] releases the palette under the colour mode of the
    rejected tilemap, whatever mode the palette was made for.  (A byte
    count of 2^31 or more wraps as an [int] and may pass the test; such
    a tilemap is left out.) *)
Theorem ClearVRAM_releases_under_last_Info ext scr tilemap st mode id :
  VDP2_VRAM_A0 ext <= uint32_t (MapAddress (the_screen scr st)) ->
  MapAllocSize (the_screen scr st) < 0 ->
  TilePalette (the_screen scr st) = Palette_of mode id ->
  0 <= MapWidth (GetInfo tilemap) -> 0 <= MapHeight (GetInfo tilemap) ->
  MapWidth (GetInfo tilemap) * MapHeight (GetInfo tilemap)
    * (if MapMode (GetInfo tilemap) =? 0 then 4 else 2) < 2 ^ 31 ->
  let st1 := snd (LoadTilemap ext scr tilemap st) in
  fst (LoadTilemap ext scr tilemap st) = Aborted
  /\ TilePalette (the_screen scr st1) = Palette_of mode id
  /\ In (CRAM_SetBankUsedState id (ColorMode (GetInfo tilemap)) false)
        (trace (snd (ClearVRAM ext st1))).
Proof.
  intros Hmap Hsize Hpal Hw Hh Hint st1. subst st1.
  assert (Hshort : MapAllocSize (the_screen scr st)
                   < int32_t
                       (Z.shiftl
                          (int32_t (MapWidth (GetInfo tilemap) * MapHeight (GetInfo tilemap)))
                          (1 + (if MapMode (GetInfo tilemap) =? 0 then 1 else 0)))).
  { rewrite map_region_test_small by assumption.
    destruct (MapMode (GetInfo tilemap) =? 0); nia. }
  rewrite (LoadTilemap_map_region_short ext scr tilemap st Hmap Hshort).
  cbn [fst snd]. split; [reflexivity |].
  set (st1 := snd (Assert _ _)).
  assert (Hs : the_screen scr st1 = with_Info (GetInfo tilemap) (the_screen scr st))
    by (apply the_screen_set_same).
  split; [rewrite Hs; exact Hpal |].
  rewrite ClearVRAM_trace. apply in_or_app. right.
  apply in_flat_map. exists scr. split; [destruct scr; cbn; auto 6 |].
  rewrite Hs. unfold released. cbn [with_Info TilePalette Info]. rewrite Hpal.
  left. reflexivity.
Qed.

Lemma ClearVRAM_releases_under_last_Info_witness :
  let st1 := snd (LoadTilemap saturn NBG0 one_word_mode1 after_NBG0_load) in
  fst (LoadTilemap saturn NBG0 one_word_mode1 after_NBG0_load) = Aborted
  /\ TilePalette (the_screen NBG0 st1) = Palette_of Paletted256 1
  /\ In (CRAM_SetBankUsedState 1 (ColorMode (GetInfo one_word_mode1)) false)
        (trace (snd (ClearVRAM saturn st1))).
Proof.
  apply (ClearVRAM_releases_under_last_Info saturn NBG0 one_word_mode1 after_NBG0_load
           Paletted256 1); by_evaluation.
Defined.

(** ** [LoadTilemap]: the planes it leaves, and a failure after the map *)

(** X16.  The default layout does not outlast the call that computes it:
    [LoadTilemap] sets the planes of a normal screen by
    [SetPlanesDefault] and then calls [Init], which sets all four planes
    to [MapAddress].  So the last plane addresses a load that ran to its
    end has given to SGL are four times [MapAddress], for a map of any
    size ([sl1MapRA(MapAddress)] for RBG0). *)
Theorem LoadTilemap_last_plane_write ext scr tilemap st :
  fst (LoadTilemap ext scr tilemap st) = Loaded ->
  let st' := snd (LoadTilemap ext scr tilemap st) in
  let m := MapAddress (the_screen scr st') in
  last (filter is_plane_write (trace st')) slPopMatrix
  = match scr with
    | RBG0 => sl1MapRA m
    | _ => slMapNbg scr m m m m
    end.
Proof.
  intros Hok st' m. subst st' m.
  rewrite LoadTilemap_plane_writes, Hok. cbv zeta.
  destruct scr;
    try (destruct (default_layout _ _ _ _ _) as [[[a b] c] d];
         match goal with
         | |- last (?l ++ [?x; ?y]) _ = _ =>
             change (l ++ [x; y]) with (l ++ [x] ++ [y]); rewrite app_assoc
         end);
    apply last_last.
Qed.

Lemma LoadTilemap_last_plane_write_witness :
  let st' := snd (LoadTilemap saturn NBG0 tilemap_64 after_reset) in
  let m := MapAddress (the_screen NBG0 st') in
  last (filter is_plane_write (trace st')) slPopMatrix = slMapNbg NBG0 m m m m.
Proof.
  apply (LoadTilemap_last_plane_write saturn NBG0 tilemap_64 after_reset). by_evaluation.
Defined.

(** A call that places the map and then fails to place the cells. *)
Lemma LoadTilemap_cells_fail ext scr tilemap st amap st2 acell st4 :
  uint32_t (MapAddress (the_screen scr st)) < VDP2_VRAM_A0 ext ->
  uint32_t (CellAddress (the_screen scr st)) < VDP2_VRAM_A0 ext ->
  AutoAllocateMap ext (GetInfo tilemap) scr
    (set_screen scr (with_Info (GetInfo tilemap) (the_screen scr st)) st) = (amap, st2) ->
  VDP2_VRAM_A0 ext <= uint32_t amap ->
  AutoAllocateCell (GetInfo tilemap) scr
    (set_screen scr (with_MapAddress amap (the_screen scr st2)) st2) = (acell, st4) ->
  uint32_t acell < VDP2_VRAM_A0 ext ->
  LoadTilemap ext scr tilemap st
  = (Aborted,
     snd (Assert "Tilemap Load Failed- CEL DATA exceeds existing VRAM allocation"
            (set_screen scr (with_CellAddress acell (the_screen scr st4)) st4))).
Proof.
  intros Hmap Hcell Hm Hmv Hc Hcv.
  pose proof (AutoAllocateMap_screens ext (GetInfo tilemap) scr
                (set_screen scr (with_Info (GetInfo tilemap) (the_screen scr st)) st))
    as Hs2.
  rewrite Hm in Hs2. cbn [snd] in Hs2.
  assert (H2 : the_screen scr st2 = with_Info (GetInfo tilemap) (the_screen scr st))
    by (unfold the_screen at 1; rewrite Hs2; apply the_screen_set_same).
  unfold LoadTilemap, bind, get, update_screen, modify, ret. cbv zeta.
  rewrite !the_screen_set_same. cbn [with_Info MapAddress].
  destruct (Z.ltb_spec (uint32_t (MapAddress (the_screen scr st))) (VDP2_VRAM_A0 ext));
    [| lia].
  rewrite Hm.
  destruct (Z.ltb_spec (uint32_t amap) (VDP2_VRAM_A0 ext)); [lia |].
  unfold LoadTilemap_cells, bind, get, update_screen, modify, ret.
  rewrite !the_screen_set_same, H2.
  cbn [with_MapAddress with_Info CellAddress].
  destruct (Z.ltb_spec (uint32_t (CellAddress (the_screen scr st))) (VDP2_VRAM_A0 ext));
    [| lia].
  rewrite <- H2. rewrite Hc.
  destruct (Z.ltb_spec (uint32_t acell) (VDP2_VRAM_A0 ext)); [| lia].
  destruct (Assert _ _) as [[] st5]. reflexivity.
Qed.

(** X17.  A load that fails after the map was placed takes nothing back.
    After [ClearVRAM], a tilemap for a normal screen whose cell data is
    larger than a bank gets its map placed at the start of bank A0, finds
    no bank for its cells and returns early: bank A0 has lost the bytes
    of the map and one cycle, the screen holds the map address and
    [nullptr] as cell address, and, on a screen that never had
    [SetMapAddress] called, every later [LoadTilemap] of a tilemap whose
    map has fewer than 2^31 bytes (two per entry, four when [MapMode] is
    0) is rejected for its map until [ClearVRAM] is called again.  (A
    byte count of 2^31 or more wraps as an [int] and may pass the test;
    nothing is said of such a tilemap.) *)
Theorem LoadTilemap_fails_without_rollback scr tilemap st0 :
  scr <> RBG0 ->
  0 <= MapWidth (GetInfo tilemap) -> 0 <= MapHeight (GetInfo tilemap) ->
  map_size saturn (GetInfo tilemap) <= 0x20000 ->
  0x20000 < CellByteSize (GetInfo tilemap) < 2 ^ 32 - 32 ->
  MapAllocSize (the_screen scr st0) < 0 ->
  let st := snd (ClearVRAM saturn st0) in
  let r := LoadTilemap saturn scr tilemap st in
  fst r = Aborted
  /\ MapAddress (the_screen scr (snd r)) = VDP2_VRAM_A0 saturn
  /\ CellAddress (the_screen scr (snd r)) = nullptr
  /\ vram (snd r)
     = mkVRAM (mkBanks (VDP2_VRAM_A0 saturn + map_size saturn (GetInfo tilemap))
                       (VDP2_VRAM_A1 saturn) (VDP2_VRAM_B0 saturn) (VDP2_VRAM_B1 saturn))
              (bankTop saturn) (mkBanks 0 (-1) (-1) 1)
  /\ (forall tilemap2,
        0 <= MapWidth (GetInfo tilemap2) -> 0 <= MapHeight (GetInfo tilemap2) ->
        MapWidth (GetInfo tilemap2) * MapHeight (GetInfo tilemap2)
          * (if MapMode (GetInfo tilemap2) =? 0 then 4 else 2) < 2 ^ 31 ->
        fst (LoadTilemap saturn scr tilemap2 (snd r)) = Aborted).
Proof.
  intros Hscr Hw Hh Hms Hc Hsize st r.
  destruct (ClearVRAM_frame saturn st0) as [Hv [Hscrs Hfree0]].
  fold st in Hv, Hscrs, Hfree0.
  assert (Hsize' : MapAllocSize (the_screen scr st) < 0).
  { unfold st. rewrite ClearVRAM_result. destruct scr; exact Hsize. }
  pose proof (padding_A0_map (GetInfo tilemap)) as Hpad.
  assert (Hsent : uint32_t (unallocated saturn) < VDP2_VRAM_A0 saturn) by reflexivity.
  assert (Hmsz : 0 <= map_size saturn (GetInfo tilemap)
                 /\ MapWidth (GetInfo tilemap) * MapHeight (GetInfo tilemap) * 2
                    <= map_size saturn (GetInfo tilemap))
    by (unfold map_size; destruct (MapMode _ =? _); nia).
  unfold bankBot, bankTop in Hv.
  replace (uint32_t (VDP2_VRAM_B1 saturn + 98304)) with (VDP2_VRAM_B1 saturn + 98304)
    in Hv by reflexivity.
  unfold bankTop.
  replace (uint32_t (VDP2_VRAM_B1 saturn + 98304)) with (VDP2_VRAM_B1 saturn + 98304)
    by reflexivity.
  set (msz := map_size saturn (GetInfo tilemap)) in *.
  set (c := CellByteSize (GetInfo tilemap)) in *.
  remember (VDP2_VRAM_A0 saturn) as a0 eqn:Ea0.
  remember (VDP2_VRAM_A1 saturn) as a1 eqn:Ea1.
  remember (VDP2_VRAM_B0 saturn) as b0 eqn:Eb0.
  remember (VDP2_VRAM_B1 saturn) as b1 eqn:Eb1.
  vm_compute in Ea0, Ea1, Eb0, Eb1.
  set (top := mkBanks a1 b0 b1 (b1 + 98304)) in *.
  set (v1 := mkVRAM (mkBanks (a0 + msz) a1 b0 b1) top (mkBanks 0 (-1) (-1) 1)).
  set (st1 := set_screen scr (with_Info (GetInfo tilemap) (the_screen scr st)) st).
  assert (Hmap : AutoAllocateMap saturn (GetInfo tilemap) scr st1
                 = (a0, set_vram v1 st1)).
  { rewrite AutoAllocateMap_first_fit_run;
      [| change (vram st1) with (vram st); rewrite Hv; intros b; unfold bank_wf;
         destruct b; cbn; lia
       | exact Hw | exact Hh | lia].
    change (vram st1) with (vram st). rewrite Hv.
    assert (Horder : map_bank_order scr
                       (mkVRAM (mkBanks a0 a1 b0 b1) top (mkBanks (-1) (-1) (-1) 1))
                     = [A0; B1])
      by (destruct scr; try reflexivity; congruence).
    assert (Hcyc : map_cycles scr = 1) by (destruct scr; try reflexivity; congruence).
    rewrite Horder, Hcyc. cbn [first_fit]. fold msz.
    rewrite Allocate_success;
      unfold bank_wf; cbn [currentBot currentTop bankCycles bank_get bank_set
                           at_A0 at_A1 at_B0 at_B1 top];
      rewrite ?Hpad; try lia.
    cbn [fst snd].
    replace (a0 + 0 =? nullptr) with false
      by (symmetry; apply Z.eqb_neq; unfold nullptr; lia).
    unfold v1. repeat f_equal; lia. }
  set (st3 := set_screen scr (with_MapAddress a0 (the_screen scr (set_vram v1 st1)))
                (set_vram v1 st1)).
  assert (Hcell : AutoAllocateCell (GetInfo tilemap) scr st3
                  = (nullptr, snd (Assert (cell_failure scr) st3))).
  { assert (Hwf1 : vram_wf v1)
      by (intros b; unfold bank_wf; destruct b; cbn; lia).
    rewrite AutoAllocateCell_run; [| exact Hwf1 | fold c; lia].
    change (vram st3) with v1. fold c.
    assert (Hno : forall bank cycles, Allocate c 32 bank cycles v1 = (nullptr, v1)).
    { intros bank cycles.
      pose proof (padding_nonneg (currentBot v1).[bank] 32) as Hp0.
      pose proof (padding_32 (currentBot v1).[bank]) as Hp1.
      apply Allocate_no_room; [apply Hwf1 | lia | lia |].
      destruct bank; cbn in *; lia. }
    assert (Horder : cell_bank_order scr = [B0; A1; A0; B1])
      by (destruct scr; try reflexivity; congruence).
    rewrite Horder. cbn [first_fit]. rewrite !Hno. cbn [fst]. rewrite Z.eqb_refl.
    reflexivity. }
  assert (Hrun : LoadTilemap saturn scr tilemap st
                 = (Aborted,
                    snd (Assert
                           "Tilemap Load Failed- CEL DATA exceeds existing VRAM allocation"
                           (set_screen scr
                              (with_CellAddress nullptr
                                 (the_screen scr (snd (Assert (cell_failure scr) st3))))
                              (snd (Assert (cell_failure scr) st3)))))).
  { apply (LoadTilemap_cells_fail saturn scr tilemap st a0 (set_vram v1 st1)).
    - destruct (Hscrs scr) as [-> _]. reflexivity.
    - destruct (Hscrs scr) as [_ [-> _]]. reflexivity.
    - exact Hmap.
    - change (VDP2_VRAM_A0 saturn) with 635437056. rewrite uint32_small; lia.
    - exact Hcell.
    - reflexivity. }
  assert (Hmapaddr : MapAddress (the_screen scr (snd r)) = a0).
  { unfold r. rewrite Hrun. cbn [snd]. unfold Assert, emit, modify. cbn [snd].
    change (the_screen scr (set_trace ?t ?s)) with (the_screen scr s).
    rewrite the_screen_set_same. cbn [with_CellAddress MapAddress].
    change (the_screen scr (set_trace ?t ?s)) with (the_screen scr s).
    unfold st3. rewrite the_screen_set_same. reflexivity. }
  split; [unfold r; rewrite Hrun; reflexivity |].
  split; [exact Hmapaddr |].
  split; [unfold r; rewrite Hrun; cbn [snd]; unfold Assert, emit, modify; cbn [snd];
          change (the_screen scr (set_trace ?t ?s)) with (the_screen scr s);
          rewrite the_screen_set_same; reflexivity |].
  split; [unfold r; rewrite Hrun; reflexivity |].
  intros tilemap2 Hw2 Hh2 Hint2.
  rewrite LoadTilemap_map_region_short; [reflexivity | |].
  - rewrite Hmapaddr. change (VDP2_VRAM_A0 saturn) with 635437056.
    rewrite uint32_small; lia.
  - destruct (load_frame_LoadTilemap saturn scr tilemap st) as (_ & Hkeep & _).
    fold r in Hkeep. rewrite Hkeep, map_region_test_small by assumption.
    destruct (MapMode (GetInfo tilemap2) =? 0); nia.
Qed.

Lemma LoadTilemap_fails_without_rollback_witness :
  let st := snd (ClearVRAM saturn start) in
  let r := LoadTilemap saturn NBG0 tilemap_oversized st in
  fst r = Aborted
  /\ MapAddress (the_screen NBG0 (snd r)) = VDP2_VRAM_A0 saturn
  /\ CellAddress (the_screen NBG0 (snd r)) = nullptr
  /\ vram (snd r)
     = mkVRAM (mkBanks (VDP2_VRAM_A0 saturn + map_size saturn (GetInfo tilemap_oversized))
                       (VDP2_VRAM_A1 saturn) (VDP2_VRAM_B0 saturn) (VDP2_VRAM_B1 saturn))
              (bankTop saturn) (mkBanks 0 (-1) (-1) 1)
  /\ (forall tilemap2,
        0 <= MapWidth (GetInfo tilemap2) -> 0 <= MapHeight (GetInfo tilemap2) ->
        MapWidth (GetInfo tilemap2) * MapHeight (GetInfo tilemap2)
          * (if MapMode (GetInfo tilemap2) =? 0 then 4 else 2) < 2 ^ 31 ->
        fst (LoadTilemap saturn NBG0 tilemap2 (snd r)) = Aborted).
Proof.
  apply (LoadTilemap_fails_without_rollback NBG0 tilemap_oversized start);
    by_evaluation.
Defined.

(** ** Masks with one bit per screen *)

Lemma land_disjoint_bits on other i :
  Z.land on other = 0 -> Z.testbit on i && Z.testbit other i = false.
Proof.
  intros H. rewrite <- Z.land_spec, H. apply Z.bits_0.
Qed.

(** Setting the bits of one mask leaves the bits of a disjoint mask. *)
Lemma mask_set_other c on other :
  Z.land on other = 0 ->
  Z.land (uint16_t (Z.lor c on)) other = Z.land (uint16_t c) other.
Proof.
  intros H. rewrite !uint16_land. apply Z.bits_inj'. intros i Hi.
  rewrite !Z.land_spec, Z.lor_spec.
  pose proof (land_disjoint_bits on other i H) as Hd.
  destruct (Z.testbit c i), (Z.testbit on i), (Z.testbit other i),
    (Z.testbit (Z.ones 16) i); cbn in *; congruence.
Qed.

(** Clearing the bits of one mask leaves the bits of a disjoint mask. *)
Lemma mask_cleared_other c on other :
  Z.land on other = 0 ->
  Z.land (uint16_t (Z.land c (Z.lnot on))) other = Z.land (uint16_t c) other.
Proof.
  intros H. rewrite !uint16_land. apply Z.bits_inj'. intros i Hi.
  rewrite !Z.land_spec, Z.lnot_spec by exact Hi.
  pose proof (land_disjoint_bits on other i H) as Hd.
  destruct (Z.testbit c i), (Z.testbit on i), (Z.testbit other i),
    (Z.testbit (Z.ones 16) i); cbn in *; congruence.
Qed.

(** Clearing bits that were set before gives the mask back when they
    were not in it, and setting them again afterwards is the same as
    setting them. *)
Lemma mask_set_then_cleared c on :
  uint16_t (Z.land (uint16_t (Z.lor c on)) (Z.lnot on)) = uint16_t (Z.land c (Z.lnot on)).
Proof.
  rewrite !uint16_land. apply Z.bits_inj'. intros i Hi.
  rewrite !Z.land_spec, Z.lor_spec, !Z.lnot_spec by exact Hi.
  destruct (Z.testbit c i), (Z.testbit on i), (Z.testbit (Z.ones 16) i); reflexivity.
Qed.

Lemma mask_cleared_then_set c on :
  uint16_t (Z.lor (uint16_t (Z.land c (Z.lnot on))) on) = uint16_t (Z.lor c on).
Proof.
  rewrite !uint16_land. apply Z.bits_inj'. intros i Hi.
  rewrite !Z.land_spec, !Z.lor_spec, !Z.land_spec, !Z.lnot_spec by exact Hi.
  destruct (Z.testbit c i), (Z.testbit on i), (Z.testbit (Z.ones 16) i); reflexivity.
Qed.

(** X18.  [ScrollEnable] sets the bit of its screen in [ActiveScrolls] and
    [ScrollDisable] clears it; neither changes the bits of a screen
    whose mask is disjoint, nor any other mask.  Each passes the whole
    new mask to [slScrAutoDisp] and raises the registration assert
    exactly when that call returns a negative value; the mask keeps the
    change also then.  Disabling after enabling leaves the mask as
    disabling alone. *)
Theorem ScrollEnable_ScrollDisable ext scr check m :
  0 <= ScreenON ext scr < 2 ^ 16 ->
  let on := ScreenON ext scr in
  let e := ScrollEnable ext scr check m in
  let d := ScrollDisable ext scr check m in
  Z.land (ActiveScrolls (snd e)) on = on
  /\ Z.land (ActiveScrolls (snd d)) on = 0
  /\ (forall other, Z.land on other = 0 ->
        Z.land (ActiveScrolls (snd e)) other = Z.land (uint16_t (ActiveScrolls m)) other
        /\ Z.land (ActiveScrolls (snd d)) other
           = Z.land (uint16_t (ActiveScrolls m)) other)
  /\ fst e = slScrAutoDisp (ActiveScrolls (snd e))
             :: (if check <? 0
                 then [Assert_raised "Scroll Registration Failed- Invalid cycle pattern"]
                 else [])
  /\ fst d = slScrAutoDisp (ActiveScrolls (snd d))
             :: (if check <? 0
                 then [Assert_raised "Scroll Registration Failed- Invalid cycle pattern"]
                 else [])
  /\ ActiveScrolls (snd (ScrollDisable ext scr check (snd e))) = ActiveScrolls (snd d)
  /\ (OffsetAScrolls (snd e), OffsetBScrolls (snd e), TransparentScrolls (snd e))
     = (OffsetAScrolls m, OffsetBScrolls m, TransparentScrolls m)
  /\ (OffsetAScrolls (snd d), OffsetBScrolls (snd d), TransparentScrolls (snd d))
     = (OffsetAScrolls m, OffsetBScrolls m, TransparentScrolls m).
Proof.
  intros Hon on e d. subst e d. unfold ScrollEnable, ScrollDisable. cbv zeta.
  cbn [fst snd ActiveScrolls OffsetAScrolls OffsetBScrolls TransparentScrolls]. fold on.
  split; [apply mask_set; exact Hon |].
  split; [apply mask_cleared |].
  split; [intros other Hd; split;
          [apply mask_set_other; exact Hd | apply mask_cleared_other; exact Hd] |].
  split; [reflexivity |]. split; [reflexivity |].
  split; [apply mask_set_then_cleared |].
  split; reflexivity.
Qed.

Lemma ScrollEnable_ScrollDisable_witness :
  let on := ScreenON saturn NBG0 in
  let e := ScrollEnable saturn NBG0 (-1) (Masks_initial saturn) in
  let d := ScrollDisable saturn NBG0 (-1) (Masks_initial saturn) in
  Z.land (ActiveScrolls (snd e)) on = on
  /\ Z.land (ActiveScrolls (snd d)) on = 0
  /\ (forall other, Z.land on other = 0 ->
        Z.land (ActiveScrolls (snd e)) other
        = Z.land (uint16_t (ActiveScrolls (Masks_initial saturn))) other
        /\ Z.land (ActiveScrolls (snd d)) other
           = Z.land (uint16_t (ActiveScrolls (Masks_initial saturn))) other)
  /\ fst e = slScrAutoDisp (ActiveScrolls (snd e))
             :: (if -1 <? 0
                 then [Assert_raised "Scroll Registration Failed- Invalid cycle pattern"]
                 else [])
  /\ fst d = slScrAutoDisp (ActiveScrolls (snd d))
             :: (if -1 <? 0
                 then [Assert_raised "Scroll Registration Failed- Invalid cycle pattern"]
                 else [])
  /\ ActiveScrolls (snd (ScrollDisable saturn NBG0 (-1) (snd e))) = ActiveScrolls (snd d)
  /\ (OffsetAScrolls (snd e), OffsetBScrolls (snd e), TransparentScrolls (snd e))
     = (OffsetAScrolls (Masks_initial saturn), OffsetBScrolls (Masks_initial saturn),
        TransparentScrolls (Masks_initial saturn))
  /\ (OffsetAScrolls (snd d), OffsetBScrolls (snd d), TransparentScrolls (snd d))
     = (OffsetAScrolls (Masks_initial saturn), OffsetBScrolls (Masks_initial saturn),
        TransparentScrolls (Masks_initial saturn)).
Proof.
  apply (ScrollEnable_ScrollDisable saturn NBG0 (-1) (Masks_initial saturn)).
  by_evaluation.
Defined.

(** X19.  After [UseColorOffset(mode)] the screen is in the mask of
    offset A exactly when the mode is [OffsetA] and in the mask of
    offset B exactly when it is [OffsetB], so never in both, while at
    program start NBG3 is in both; the bits of a screen whose mask is
    disjoint stay as they are in both masks.  The function then clears
    all offsets with [slColOffsetOn(0)] and registers the two new
    masks. *)
Theorem UseColorOffset_exclusive ext scr mode m :
  0 <= ScreenON ext scr < 2 ^ 16 ->
  let on := ScreenON ext scr in
  let r := UseColorOffset ext scr mode m in
  Z.land (OffsetAScrolls (snd r)) on = (match mode with OffsetA => on | _ => 0 end)
  /\ Z.land (OffsetBScrolls (snd r)) on = (match mode with OffsetB => on | _ => 0 end)
  /\ (forall other, Z.land on other = 0 ->
        Z.land (OffsetAScrolls (snd r)) other = Z.land (uint16_t (OffsetAScrolls m)) other
        /\ Z.land (OffsetBScrolls (snd r)) other
           = Z.land (uint16_t (OffsetBScrolls m)) other)
  /\ fst r = [slColOffsetOn 0; slColOffsetAUse (OffsetAScrolls (snd r));
              slColOffsetBUse (OffsetBScrolls (snd r))]
  /\ (ActiveScrolls (snd r), TransparentScrolls (snd r))
     = (ActiveScrolls m, TransparentScrolls m)
  /\ (0 < NBG3ON ext < 2 ^ 16 ->
      Z.land (OffsetAScrolls (Masks_initial ext)) (NBG3ON ext) = NBG3ON ext
      /\ Z.land (OffsetBScrolls (Masks_initial ext)) (NBG3ON ext) = NBG3ON ext).
Proof.
  intros Hon on r. subst r. unfold UseColorOffset. cbv zeta. fold on.
  destruct mode;
    cbn [fst snd ActiveScrolls OffsetAScrolls OffsetBScrolls TransparentScrolls];
    (split; [first [apply mask_set; exact Hon | apply mask_cleared] |]);
    (split; [first [apply mask_set; exact Hon | apply mask_cleared] |]);
    (split; [intros other Hd; split;
             first [apply mask_set_other; exact Hd | apply mask_cleared_other; exact Hd] |]);
    (split; [reflexivity |]); (split; [reflexivity |]);
    intros H3; cbn [Masks_initial OffsetAScrolls OffsetBScrolls];
    rewrite Z.land_diag; split; reflexivity.
Qed.

Lemma UseColorOffset_exclusive_witness :
  let on := ScreenON saturn NBG3 in
  let r := UseColorOffset saturn NBG3 OffsetB (Masks_initial saturn) in
  Z.land (OffsetAScrolls (snd r)) on = 0
  /\ Z.land (OffsetBScrolls (snd r)) on = on
  /\ (forall other, Z.land on other = 0 ->
        Z.land (OffsetAScrolls (snd r)) other
        = Z.land (uint16_t (OffsetAScrolls (Masks_initial saturn))) other
        /\ Z.land (OffsetBScrolls (snd r)) other
           = Z.land (uint16_t (OffsetBScrolls (Masks_initial saturn))) other)
  /\ fst r = [slColOffsetOn 0; slColOffsetAUse (OffsetAScrolls (snd r));
              slColOffsetBUse (OffsetBScrolls (snd r))]
  /\ (ActiveScrolls (snd r), TransparentScrolls (snd r))
     = (ActiveScrolls (Masks_initial saturn), TransparentScrolls (Masks_initial saturn))
  /\ (0 < NBG3ON saturn < 2 ^ 16 ->
      Z.land (OffsetAScrolls (Masks_initial saturn)) (NBG3ON saturn) = NBG3ON saturn
      /\ Z.land (OffsetBScrolls (Masks_initial saturn)) (NBG3ON saturn) = NBG3ON saturn).
Proof.
  apply (UseColorOffset_exclusive saturn NBG3 OffsetB (Masks_initial saturn)).
  by_evaluation.
Defined.

(** X20.  The sense of [TransparentScrolls] is reversed: a set bit turns
    transparency off.  [TransparentDisable] sets the bit of its screen
    and [TransparentEnable] clears it, each leaving the bits of a screen
    whose mask is disjoint and passing the whole new mask to
    [slScrTransparent]; at program start no bit is set; and enabling
    after disabling gives the mask of enabling alone. *)
Theorem TransparentEnable_TransparentDisable ext scr m :
  0 <= ScreenON ext scr < 2 ^ 16 ->
  let on := ScreenON ext scr in
  let e := TransparentEnable ext scr m in
  let d := TransparentDisable ext scr m in
  Z.land (TransparentScrolls (snd e)) on = 0
  /\ Z.land (TransparentScrolls (snd d)) on = on
  /\ (forall other, Z.land on other = 0 ->
        Z.land (TransparentScrolls (snd e)) other
        = Z.land (uint16_t (TransparentScrolls m)) other
        /\ Z.land (TransparentScrolls (snd d)) other
           = Z.land (uint16_t (TransparentScrolls m)) other)
  /\ fst e = [slScrTransparent (TransparentScrolls (snd e))]
  /\ fst d = [slScrTransparent (TransparentScrolls (snd d))]
  /\ TransparentScrolls (snd (TransparentEnable ext scr (snd d)))
     = TransparentScrolls (snd e)
  /\ TransparentScrolls (Masks_initial ext) = 0.
Proof.
  intros Hon on e d. subst e d. unfold TransparentEnable, TransparentDisable. cbv zeta.
  cbn [fst snd ActiveScrolls OffsetAScrolls OffsetBScrolls TransparentScrolls]. fold on.
  split; [apply mask_cleared |].
  split; [apply mask_set; exact Hon |].
  split; [intros other Hd; split;
          [apply mask_cleared_other; exact Hd | apply mask_set_other; exact Hd] |].
  split; [reflexivity |]. split; [reflexivity |].
  split; [apply mask_set_then_cleared | reflexivity].
Qed.

Lemma TransparentEnable_TransparentDisable_witness :
  let on := ScreenON saturn NBG1 in
  let e := TransparentEnable saturn NBG1 (Masks_initial saturn) in
  let d := TransparentDisable saturn NBG1 (Masks_initial saturn) in
  Z.land (TransparentScrolls (snd e)) on = 0
  /\ Z.land (TransparentScrolls (snd d)) on = on
  /\ (forall other, Z.land on other = 0 ->
        Z.land (TransparentScrolls (snd e)) other
        = Z.land (uint16_t (TransparentScrolls (Masks_initial saturn))) other
        /\ Z.land (TransparentScrolls (snd d)) other
           = Z.land (uint16_t (TransparentScrolls (Masks_initial saturn))) other)
  /\ fst e = [slScrTransparent (TransparentScrolls (snd e))]
  /\ fst d = [slScrTransparent (TransparentScrolls (snd d))]
  /\ TransparentScrolls (snd (TransparentEnable saturn NBG1 (snd d)))
     = TransparentScrolls (snd e)
  /\ TransparentScrolls (Masks_initial saturn) = 0.
Proof.
  apply (TransparentEnable_TransparentDisable saturn NBG1 (Masks_initial saturn)).
  by_evaluation.
Defined.

(** ** [GetPalOffset] against the map transfer *)

(** X21.  For a palette id from 0 to 15, [GetPalOffset()] of a screen
    with a one-word map is the palette field [Map2VRAM] puts into every
    entry (the id at bit 12); for a two-word map ([MapMode] 0) it is 16
    times that field: [GetPalOffset] shifts the id to bit 24 where
    [Map2VRAM] shifts it to bit 20.  The field is read off the store of
    an entry whose data and cell offset are 0. *)
Theorem GetPalOffset_and_map_entry ext scr st mapAdr :
  let s := the_screen scr st in
  let id := Palette_GetId ext (TilePalette s) in
  0 <= id < 16 ->
  map_store (Info s) [] mapAdr id 0 0
  = if MapMode (Info s) =? 0
    then Store32 (uint32_t mapAdr) (GetPalOffset ext scr (-1) st / 16)
    else Store16 (uint32_t mapAdr) (GetPalOffset ext scr (-1) st).
Proof.
  intros s id Hid. unfold GetPalOffset, map_store. fold s. fold id.
  change (int8_t (-1) <? 0) with true. cbv iota.
  assert (H8 : int8_t id = id) by (unfold int8_t; rewrite Z.mod_small; lia).
  assert (Hu8 : uint8_t id = id) by (unfold uint8_t; rewrite Z.mod_small; lia).
  rewrite H8, Hu8. cbn [nth]. change (uint32_t (0 + uint32_t 0)) with 0.
  change (Z.of_nat 0) with 0. rewrite !Z.mul_0_r, !Z.add_0_r.
  rewrite !Z.lor_0_l, !Z.shiftl_mul_pow2 by lia.
  change (2 ^ 12) with 4096. change (2 ^ 20) with 1048576.
  change (2 ^ 24) with (1048576 * 16).
  destruct (MapMode (Info s) =? 0); cbn [negb].
  - rewrite (uint32_small (id * 1048576)), (uint32_small (id * (1048576 * 16))) by lia.
    f_equal. rewrite Z.mul_assoc, Z.div_mul by lia. reflexivity.
  - rewrite (uint32_small (id * 4096)) by lia.
    f_equal. unfold uint16_t. apply Z.mod_small. lia.
Qed.

Lemma GetPalOffset_and_map_entry_witness :
  let s := the_screen NBG0 after_NBG0_load in
  map_store (Info s) [] 0 (Palette_GetId saturn (TilePalette s)) 0 0
  = if MapMode (Info s) =? 0
    then Store32 (uint32_t 0) (GetPalOffset saturn NBG0 (-1) after_NBG0_load / 16)
    else Store16 (uint32_t 0) (GetPalOffset saturn NBG0 (-1) after_NBG0_load).
Proof.
  apply (GetPalOffset_and_map_entry saturn NBG0 after_NBG0_load 0). by_evaluation.
Defined.

(** ** The coefficient table of RBG0 *)




(** X23.  Called right after [ClearVRAM] on the console's layout,
    [SetRotationMode] puts the coefficient table at the start of bank
    B0.  The three-axis mode takes all 8 cycles of the bank, leaving its
    counter at 7, so that no later request with a cycle succeeds in B0;
    the two-axis mode takes none, and the one-axis mode allocates
    nothing.  The table is 0x2000 bytes when updated at VBLANK and
    0x18000 bytes otherwise. *)
Theorem SetRotationMode_after_reset mode vblank st0 :
  let st := snd (ClearVRAM saturn st0) in
  let r := SetRotationMode mode vblank st in
  match mode with
  | OneAxis => snd r = st
  | _ =>
      RBG0_KtableAddress (snd r) = VDP2_VRAM_B0 saturn
      /\ (currentBot (vram (snd r))).[B0]
         = VDP2_VRAM_B0 saturn + (if vblank then 0x2000 else 0x18000)
      /\ (bankCycles (vram (snd r))).[B0]
         = (match mode with ThreeAxis => 7 | _ => -1 end)
      /\ (forall b, b <> B0 ->
            (currentBot (vram (snd r))).[b] = (currentBot (vram st)).[b]
            /\ (bankCycles (vram (snd r))).[b] = (bankCycles (vram st)).[b])
  end.
Proof.
  intros st r. subst r.
  destruct (ClearVRAM_frame saturn st0) as [Hv _]. fold st in Hv.
  unfold SetRotationMode.
  destruct mode; [reflexivity | |]; destruct vblank; cbn [negb];
    rewrite Hv; cbn;
    (split; [reflexivity |]; split; [reflexivity |]; split; [reflexivity |];
     intros b Hb; destruct b; try (split; reflexivity);
     contradiction Hb; reflexivity).
Qed.

(** ** The 16 planes of RBG0 *)

Lemma SetPlanes16_sz_values ext info :
  2048 * SetPlanes16_sz ext info = plane_offset ext info 1
  /\ (exists k, 0 <= k <= 5 /\ SetPlanes16_sz ext info = 2 ^ k).
Proof.
  unfold SetPlanes16_sz, plane_offset, page_offset.
  change (uint8_t 1) with 1.
  destruct (CharSize info =? CHAR_SIZE_1x1 ext), (MapMode info =? PNB_2WORD ext),
    (PlaneSize info =? PL_SIZE_2x2 ext), (PlaneSize info =? PL_SIZE_2x1 ext);
    (split; [reflexivity |]);
    first [ exists 0; split; [lia | reflexivity] | exists 1; split; [lia | reflexivity]
          | exists 2; split; [lia | reflexivity] | exists 3; split; [lia | reflexivity]
          | exists 4; split; [lia | reflexivity] | exists 5; split; [lia | reflexivity] ].
Qed.

(** X24.  [RBG0::SetPlanes(layout)] gives [sl16MapRA], for each of the 16
    places, the offset of the plane named there in units of 0x800
    bytes: the plane index times [sz], where 0x800 * [sz] is the size
    of one plane as [GetPlaneAddress] counts it.  The product is stored
    in a [uint8_t], so only 256 / [sz] planes can be told apart: an
    index is taken modulo 256 / [sz], which is 8 for 1x1 cells with
    two-word entries and 2x2 planes. *)
Theorem SetPlanes16_entries ext layout st i j :
  (i < 4)%nat -> (j < 4)%nat ->
  let info := Info (the_screen RBG0 st) in
  let sz := SetPlanes16_sz ext info in
  let index := uint8_t (nth j (nth i layout []) 0) in
  nth j (nth i (SetPlanes16 ext layout st) []) 0 = (index mod (256 / sz)) * sz
  /\ 2048 * sz = plane_offset ext info 1
  /\ (index * sz < 256 ->
      2048 * nth j (nth i (SetPlanes16 ext layout st) []) 0 = plane_offset ext info index).
Proof.
  intros Hi Hj info sz index.
  destruct (SetPlanes16_sz_values ext info) as [Hplane (k & Hk & Hsz)].
  fold sz in Hplane, Hsz.
  assert (Hentry : nth j (nth i (SetPlanes16 ext layout st) []) 0 = uint8_t (index * sz)).
  { unfold SetPlanes16. fold info. fold sz.
    destruct i as [| [| [| [| i]]]]; try lia;
      destruct j as [| [| [| [| j]]]]; try lia; reflexivity. }
  assert (Hmod : uint8_t (index * sz) = (index mod (256 / sz)) * sz).
  { unfold uint8_t. rewrite Hsz.
    assert (Hk' : k = 0 \/ k = 1 \/ k = 2 \/ k = 3 \/ k = 4 \/ k = 5) by lia.
    destruct Hk' as [-> | [-> | [-> | [-> | [-> | ->]]]]];
      match goal with
      | |- (_ * 2 ^ ?n) mod _ = _ =>
          change (2 ^ 8) with (2 ^ (8 - n) * 2 ^ n);
          change (256 / 2 ^ n) with (2 ^ (8 - n));
          rewrite Z.mul_mod_distr_r by (cbn; lia); reflexivity
      end. }
  rewrite Hentry, Hmod. split; [reflexivity |]. split; [exact Hplane |].
  intros Hsmall.
  assert (Hidx : 0 <= index < 2 ^ 8) by apply uint8_range.
  assert (Hpos : 0 < sz) by (rewrite Hsz; apply Z.pow_pos_nonneg; lia).
  rewrite <- Hmod. unfold uint8_t at 1. rewrite Z.mod_small by nia.
  transitivity (index * (2048 * sz)); [ring |]. rewrite Hplane.
  unfold plane_offset, page_offset. change (uint8_t 1) with 1.
  replace (uint8_t index) with index
    by (symmetry; unfold uint8_t at 1; apply Z.mod_small; exact Hidx).
  ring.
Qed.

Lemma SetPlanes16_entries_witness :
  let info := Info (the_screen RBG0 after_reset) in
  let sz := SetPlanes16_sz saturn info in
  let layout := repeat [0; 9; 1; 8] 4 in
  let index := uint8_t (nth 1 (nth 2 layout []) 0) in
  nth 1 (nth 2 (SetPlanes16 saturn layout after_reset) []) 0 = (index mod (256 / sz)) * sz
  /\ 2048 * sz = plane_offset saturn info 1
  /\ (index * sz < 256 ->
      2048 * nth 1 (nth 2 (SetPlanes16 saturn layout after_reset) []) 0
      = plane_offset saturn info index).
Proof.
  apply (SetPlanes16_entries saturn (repeat [0; 9; 1; 8] 4) after_reset 2 1); lia.
Defined.

(** ** The sprite layer *)

(** X25.  [SpriteLayer::SetOpacity] makes no call for an opacity below
    0.0 or above 1.0.  For an opacity from 0.0 up to but not including
    1.0 it gives [slColRate] the ratio 31 - floor(raw / 2048), a value
    from 0 to 31.  The opacity 1.0 itself passes the test, and its
    ratio 31 - 32 reaches the [Uint16] parameter as 65535. *)
Theorem SpriteLayer_SetOpacity_ratio opacity bank :
  SpriteLayer_SetOpacity opacity bank
  = (if (RawValue opacity <? 0) || (65536 <? RawValue opacity) then None
     else if RawValue opacity =? 65536 then Some (bank, 65535)
     else Some (bank, 31 - RawValue opacity / 2048))
  /\ (forall raw, 0 <= raw < 65536 -> 0 <= 31 - raw / 2048 <= 31).
Proof.
  split.
  - unfold SpriteLayer_SetOpacity, Fxp_ltb, Fxp_0, Fxp_1. cbn [RawValue].
    destruct (Z.ltb_spec (RawValue opacity) 0) as [Hneg | Hpos]; [reflexivity |].
    destruct (Z.ltb_spec 65536 (RawValue opacity)) as [Hbig | Hsmall]; [reflexivity |].
    cbn [orb].
    destruct (Z.eqb_spec (RawValue opacity) 65536) as [-> | Hne]; [reflexivity |].
    destruct (opacity_rate (RawValue opacity)) as [-> _]; [lia | reflexivity].
  - intros raw Hraw. apply (opacity_rate raw Hraw).
Qed.

(** X26.  The sprite layer and the scroll screens share the mask
    [ColorCalcScrolls], and each side changes its own bit only:
    [SpriteLayer::ColorCalcON] sets the sprite bit and
    [SpriteLayer::ColorCalcOFF] clears it, both leaving the bit of every
    screen, and [ScrollScreen::SetOpacity] leaves the sprite bit,
    whatever the opacity.  The sprite functions pass the whole new mask
    to [slColorCalcOn] and change nothing else. *)
Theorem ColorCalc_sprite_and_screens ext scr opacity st :
  0 <= SPRON ext < 2 ^ 16 ->
  0 <= ColorCalcScrolls st < 2 ^ 16 ->
  Z.land (ScreenON ext scr) (SPRON ext) = 0 ->
  let on := snd (SpriteLayer_ColorCalcON ext st) in
  let off := snd (SpriteLayer_ColorCalcOFF ext st) in
  Z.land (ColorCalcScrolls on) (SPRON ext) = SPRON ext
  /\ Z.land (ColorCalcScrolls off) (SPRON ext) = 0
  /\ Z.land (ColorCalcScrolls on) (ScreenON ext scr)
     = Z.land (ColorCalcScrolls st) (ScreenON ext scr)
  /\ Z.land (ColorCalcScrolls off) (ScreenON ext scr)
     = Z.land (ColorCalcScrolls st) (ScreenON ext scr)
  /\ Z.land (ColorCalcScrolls (snd (SetOpacity ext scr opacity st))) (SPRON ext)
     = Z.land (ColorCalcScrolls st) (SPRON ext)
  /\ on = set_trace (trace st ++ [slColorCalcOn (ColorCalcScrolls on)])
            (set_ColorCalcScrolls (ColorCalcScrolls on) st)
  /\ off = set_trace (trace st ++ [slColorCalcOn (ColorCalcScrolls off)])
             (set_ColorCalcScrolls (ColorCalcScrolls off) st).
Proof.
  intros Hspr Hccs Hdis on off. subst on off.
  assert (Hdis' : Z.land (SPRON ext) (ScreenON ext scr) = 0)
    by (rewrite Z.land_comm; exact Hdis).
  assert (Hu : uint16_t (ColorCalcScrolls st) = ColorCalcScrolls st)
    by (apply uint16_small; exact Hccs).
  unfold SpriteLayer_ColorCalcON, SpriteLayer_ColorCalcOFF, bind, get, emit, modify.
  cbn [fst snd ColorCalcScrolls set_ColorCalcScrolls set_trace trace].
  split; [apply mask_set; exact Hspr |].
  split; [apply mask_cleared |].
  split; [rewrite mask_set_other by exact Hdis'; rewrite Hu; reflexivity |].
  split; [rewrite mask_cleared_other by exact Hdis'; rewrite Hu; reflexivity |].
  split; [| split; reflexivity].
  unfold SetOpacity.
  destruct (Fxp_ltb opacity Fxp_0); [reflexivity |].
  destruct (Fxp_geb opacity Fxp_1);
    unfold bind, get, emit, modify;
    cbn [fst snd ColorCalcScrolls set_ColorCalcScrolls set_trace trace].
  - rewrite mask_cleared_other by exact Hdis. rewrite Hu. reflexivity.
  - rewrite mask_set_other by exact Hdis. rewrite Hu. reflexivity.
Qed.

Lemma ColorCalc_sprite_and_screens_witness :
  let on := snd (SpriteLayer_ColorCalcON saturn start) in
  let off := snd (SpriteLayer_ColorCalcOFF saturn start) in
  Z.land (ColorCalcScrolls on) (SPRON saturn) = SPRON saturn
  /\ Z.land (ColorCalcScrolls off) (SPRON saturn) = 0
  /\ Z.land (ColorCalcScrolls on) (ScreenON saturn NBG0)
     = Z.land (ColorCalcScrolls start) (ScreenON saturn NBG0)
  /\ Z.land (ColorCalcScrolls off) (ScreenON saturn NBG0)
     = Z.land (ColorCalcScrolls start) (ScreenON saturn NBG0)
  /\ Z.land (ColorCalcScrolls (snd (SetOpacity saturn NBG0 Fxp_half start))) (SPRON saturn)
     = Z.land (ColorCalcScrolls start) (SPRON saturn)
  /\ on = set_trace (trace start ++ [slColorCalcOn (ColorCalcScrolls on)])
            (set_ColorCalcScrolls (ColorCalcScrolls on) start)
  /\ off = set_trace (trace start ++ [slColorCalcOn (ColorCalcScrolls off)])
             (set_ColorCalcScrolls (ColorCalcScrolls off) start).
Proof.
  apply (ColorCalc_sprite_and_screens saturn NBG0 Fxp_half start); by_evaluation.
Defined.

(** ** [Debug]: printing with wrap, the print colour, the assert screen *)

Lemma uint8_small x : 0 <= x < 2 ^ 8 -> uint8_t x = x.
Proof. intros H. unfold uint8_t. apply Z.mod_small. exact H. Qed.

Lemma uint8_add_l a b : uint8_t (uint8_t a + b) = uint8_t (a + b).
Proof. unfold uint8_t. apply Zplus_mod_idemp_l. Qed.

Lemma wraps_line_full w m :
  0 < w -> 0 <= m -> 1 + wraps (w - 1) w m = wraps 0 w (m + 1).
Proof.
  intros Hw Hm. unfold wraps.
  destruct (Z.leb_spec (m + 1) 0) as [H | _]; [lia |].
  replace (m + 1 - 0 - 1) with m by lia.
  destruct (Z.leb_spec m (w - 1)) as [Hfit | Hover].
  - rewrite (Z.div_small m w) by lia. lia.
  - replace (m - (w - 1) - 1) with (m + (-1) * w) by lia.
    rewrite Z.div_add by lia. lia.
Qed.

Lemma wraps_line_open d w m :
  0 < d -> wraps (d - 1) w m = wraps d w (m + 1).
Proof.
  intros Hd. unfold wraps.
  destruct (Z.leb_spec m (d - 1)), (Z.leb_spec (m + 1) d); try lia.
  replace (m + 1 - d - 1) with (m - (d - 1) - 1) by lia. reflexivity.
Qed.

(** The loop on a text without line feeds. *)
Lemma PrintWithWrap_loop_plain y fromLeft fromRight text :
  0 <= fromLeft < fromRight -> fromRight < 2 ^ 8 -> ~ In 10 text ->
  forall screenX line,
    0 <= screenX <= fromRight -> 0 <= line < 2 ^ 8 ->
    let r := PrintWithWrap_loop y fromLeft fromRight text screenX line in
    snd r = Returned (uint8_t (line + wraps (fromRight - screenX) (fromRight - fromLeft)
                                            (Z.of_nat (List.length text))))
    /\ map printed (fst r) = map (fun c => [c]) text
    /\ Forall (fun c => Z.min screenX fromLeft <= column c < fromRight) (fst r).
Proof.
  intros HL HR. induction text as [| c rest IH]; intros Hnl screenX line Hx Hline.
  - cbn [PrintWithWrap_loop fst snd map List.length]. unfold wraps.
    destruct (Z.leb_spec (Z.of_nat 0) (fromRight - screenX)); [| lia].
    rewrite Z.add_0_r. unfold uint8_t. rewrite Z.mod_small by lia.
    repeat split. constructor.
  - assert (Hc : (c =? 10) = false)
      by (apply Z.eqb_neq; intros ->; apply Hnl; left; reflexivity).
    assert (Hrest : ~ In 10 rest) by (intros H; apply Hnl; right; exact H).
    cbn [PrintWithWrap_loop]. rewrite Hc, orb_false_r. cbv zeta.
    change (List.length (c :: rest)) with (S (List.length rest)).
    rewrite Nat2Z.inj_succ. unfold Z.succ.
    assert (Hlen : 0 <= Z.of_nat (List.length rest)) by lia.
    destruct (Z.geb_spec screenX fromRight) as [Hfull | Hopen].
    + assert (screenX = fromRight) by lia. subst screenX.
      rewrite (uint16_small (fromLeft + 1)) by lia.
      specialize (IH Hrest (fromLeft + 1) (uint8_t (line + 1))).
      destruct (PrintWithWrap_loop y fromLeft fromRight rest (fromLeft + 1)
                  (uint8_t (line + 1))) as [calls r].
      destruct IH as (Hr & Hp & Hcol); [lia | apply uint8_range |].
      cbn [fst snd] in *. rewrite Hr.
      split; [| split].
      * f_equal. rewrite uint8_add_l. f_equal.
        replace (fromRight - fromRight) with 0 by lia.
        replace (fromRight - (fromLeft + 1)) with (fromRight - fromLeft - 1) by lia.
        rewrite <- wraps_line_full by lia. lia.
      * cbn [map printed Debug_Print]. rewrite Hp. reflexivity.
      * constructor.
        -- cbn [column Debug_Print]. unfold uint8_t. rewrite Z.mod_small by lia. lia.
        -- eapply Forall_impl; [| exact Hcol]. cbv beta. intros a Ha. lia.
    + rewrite (uint16_small (screenX + 1)) by lia.
      specialize (IH Hrest (screenX + 1) line).
      destruct (PrintWithWrap_loop y fromLeft fromRight rest (screenX + 1) line)
        as [calls r].
      destruct IH as (Hr & Hp & Hcol); [lia | exact Hline |].
      cbn [fst snd] in *. rewrite Hr.
      split; [| split].
      * f_equal. f_equal. f_equal.
        replace (fromRight - (screenX + 1)) with (fromRight - screenX - 1) by lia.
        apply wraps_line_open. lia.
      * cbn [map printed Debug_Print]. rewrite Hp. reflexivity.
      * constructor.
        -- cbn [column Debug_Print]. unfold uint8_t. rewrite Z.mod_small by lia. lia.
        -- eapply Forall_impl; [| exact Hcol]. cbv beta. intros a Ha. lia.
Qed.

(** X27.  For a text without line feeds, [PrintWithWrap] prints every
    character once, in order and one per call, never at or right of
    [fromRight] nor left of both [x] and [fromLeft], and returns the
    number of lines used: 1 when the text fits between [x] and
    [fromRight], and otherwise one more for every started run of
    [fromRight - fromLeft] characters behind the first line (as a
    [uint8_t]). *)
Theorem PrintWithWrap_plain_text x y fromLeft fromRight text :
  0 <= x < fromRight -> 0 <= fromLeft < fromRight -> fromRight < 2 ^ 8 ->
  ~ In 10 text -> Z.of_nat (List.length text) < 2 ^ 16 - 1 ->
  let r := PrintWithWrap x y fromLeft fromRight (Some text) in
  snd r = Returned (uint8_t (1 + wraps (fromRight - x) (fromRight - fromLeft)
                                       (Z.of_nat (List.length text))))
  /\ map printed (fst r) = map (fun c => [c]) text
  /\ Forall (fun c => Z.min x fromLeft <= column c < fromRight) (fst r).
Proof.
  intros Hx HL HR Hnl Hlen r. subst r. unfold PrintWithWrap. cbv zeta.
  rewrite (uint8_small x), (uint8_small fromLeft), (uint8_small fromRight) by lia.
  destruct (Z.ltb_spec fromLeft fromRight); [| lia].
  destruct (Z.ltb_spec x fromRight); [| lia].
  cbn [andb].
  apply PrintWithWrap_loop_plain; try assumption; lia.
Qed.

Lemma PrintWithWrap_plain_text_witness :
  let r := PrintWithWrap 2 2 2 39 (Some (repeat 65 80)) in
  snd r = Returned (uint8_t (1 + wraps (39 - 2) (39 - 2)
                                       (Z.of_nat (List.length (repeat 65 80)))))
  /\ map printed (fst r) = map (fun c => [c]) (repeat 65 80)
  /\ Forall (fun c => Z.min 2 2 <= column c < 39) (fst r).
Proof.
  apply (PrintWithWrap_plain_text 2 2 2 39 (repeat 65 80)); try lia.
  - intros H. apply repeat_spec in H. discriminate H.
  - by_evaluation.
Defined.

Lemma PrintWithWrap_loop_trailing y fromLeft fromRight text :
  ~ In 10 text ->
  forall screenX line,
    snd (PrintWithWrap_loop y fromLeft fromRight (text ++ [10]) screenX line)
    = ReadPastEnd.
Proof.
  induction text as [| c rest IH]; intros Hnl screenX line.
  - cbn [app PrintWithWrap_loop]. rewrite Z.eqb_refl, orb_true_r. reflexivity.
  - assert (Hc : (c =? 10) = false)
      by (apply Z.eqb_neq; intros ->; apply Hnl; left; reflexivity).
    assert (Hrest : ~ In 10 rest) by (intros H; apply Hnl; right; exact H).
    cbn [app PrintWithWrap_loop]. rewrite Hc, orb_false_r. cbv zeta.
    destruct (screenX >=? fromRight).
    + specialize (IH Hrest (uint16_t (fromLeft + 1)) (uint8_t (line + 1))).
      destruct (PrintWithWrap_loop y fromLeft fromRight (rest ++ [10]) _ _). exact IH.
    + specialize (IH Hrest (uint16_t (screenX + 1)) line).
      destruct (PrintWithWrap_loop y fromLeft fromRight (rest ++ [10]) _ _). exact IH.
Qed.

(** X28.  A text that ends with a line feed makes [PrintWithWrap] read
    behind the text: the line feed is skipped with [character++], the
    terminating zero after it is printed as an empty text, and the next
    [character++] moves the index past the terminator, where the test
    of the loop looks next.  This is so for every text whose only line
    feed is its last character, when the function enters its loop. *)
Theorem PrintWithWrap_trailing_line_feed x y fromLeft fromRight text :
  uint8_t fromLeft < uint8_t fromRight -> uint8_t x < uint8_t fromRight ->
  ~ In 10 text -> Z.of_nat (List.length text) < 2 ^ 16 - 2 ->
  snd (PrintWithWrap x y fromLeft fromRight (Some (text ++ [10]))) = ReadPastEnd.
Proof.
  intros HL Hx Hnl Hlen. unfold PrintWithWrap. cbv zeta.
  destruct (Z.ltb_spec (uint8_t fromLeft) (uint8_t fromRight)); [| lia].
  destruct (Z.ltb_spec (uint8_t x) (uint8_t fromRight)); [| lia].
  cbn [andb]. apply PrintWithWrap_loop_trailing. exact Hnl.
Qed.

Lemma PrintWithWrap_trailing_line_feed_witness :
  snd (PrintWithWrap 2 2 2 39 (Some ([79; 75] ++ [10]))) = ReadPastEnd.
Proof.
  apply (PrintWithWrap_trailing_line_feed 2 2 2 39 [79; 75]); try by_evaluation.
  intros [H | [H | H]]; try discriminate H; exact H.
Defined.

(** X29.  [PrintColorRestore] exchanges the current and the previous print
    colour.  It undoes one [PrintColorSet], and a second restore brings
    back the colour the first one replaced: two nested pairs of set and
    restore end with the inner colour [b] and not with the colour the
    outer pair started from. *)
Theorem PrintColorRestore_exchanges a b d :
  0 <= printColor d < 2 ^ 8 -> 0 <= oldPrintColor d < 2 ^ 8 ->
  snd (PrintColorRestore d) = mkDebug (oldPrintColor d) (printColor d)
  /\ fst (PrintColorRestore d) = [slCurColor (oldPrintColor d)]
  /\ printColor (snd (PrintColorRestore (snd (PrintColorSet a d)))) = printColor d
  /\ snd (PrintColorRestore (snd (PrintColorRestore d))) = d
  /\ printColor
       (snd (PrintColorRestore
          (snd (PrintColorRestore (snd (PrintColorSet b (snd (PrintColorSet a d))))))))
     = uint8_t b.
Proof.
  intros Hp Ho.
  pose proof uint8_small as H8.
  assert (Hb : uint8_t (uint8_t b) = uint8_t b) by (apply H8, uint8_range).
  assert (Ha : uint8_t (uint8_t a) = uint8_t a) by (apply H8, uint8_range).
  unfold PrintColorRestore, PrintColorSet. cbv zeta.
  cbn [fst snd printColor oldPrintColor].
  rewrite ?Ha, ?Hb, ?(H8 _ Hp), ?(H8 _ Ho).
  repeat split; try reflexivity. destruct d; reflexivity.
Qed.

Lemma PrintColorRestore_exchanges_witness :
  snd (PrintColorRestore (mkDebug 0 0)) = mkDebug 0 0
  /\ fst (PrintColorRestore (mkDebug 0 0)) = [slCurColor 0]
  /\ printColor (snd (PrintColorRestore (snd (PrintColorSet 1 (mkDebug 0 0))))) = 0
  /\ snd (PrintColorRestore (snd (PrintColorRestore (mkDebug 0 0)))) = mkDebug 0 0
  /\ printColor
       (snd (PrintColorRestore
          (snd (PrintColorRestore
             (snd (PrintColorSet 2 (snd (PrintColorSet 1 (mkDebug 0 0)))))))))
     = uint8_t 2.
Proof.
  apply (PrintColorRestore_exchanges 1 2 (mkDebug 0 0)); by_evaluation.
Defined.

(** X30.  The animation that ends [AssertScreen] in a debug build is not
    an endless loop: started as the function starts it (frame 0,
    countdown 3), it leaves the loop in its 109th round, after 109
    calls of [slSynch], so [Debug::Assert] returns to its caller. *)
Theorem AssertScreen_animation_ends :
  (exists calls,
     AssertScreen_animation 109 0 3 = Some calls
     /\ List.length (filter is_slSynch calls) = 109%nat)
  /\ AssertScreen_animation 108 0 3 = None.
Proof.
  split; [| vm_compute; reflexivity].
  destruct (AssertScreen_animation 109 0 3) as [calls |] eqn:E.
  - exists calls. split; [reflexivity |].
    vm_compute in E. injection E as <-. vm_compute. reflexivity.
  - vm_compute in E. discriminate E.
Qed.
